(** * JetShop storefront: view-model logic of the React frontend

    A shallow embedding of the client-side logic of the storefront and of
    its operator consoles: the cart page and cart context, the registration
    and checkout forms, the loyalty page, the order detail page and the
    brand, logistics and admin authentication providers.

    Conventions.
    - A React component is modelled by its state record; an event handler
      is a state transformer that also appends to a trace of observable
      effects (storage accesses, HTTP requests, toasts, console messages,
      navigation).
    - [await] is sequential; a rejected promise is a thrown error.
    - The reply of the backend to a request is an argument of the handler.
    - Counts (quantities, loyalty points) are integers, prices are exact
      rationals; a number field that may be missing or [null] is an option.
    - JS strings are modelled by [string]; [String.length] stands for the
      number of code units. *)

From Stdlib Require Import ZArith QArith Qminmax.
From Stdlib Require Import List Ascii String Bool Lia.
From stdpp Require Import base option list strings gmap.

Local Open Scope string_scope.
Local Open Scope list_scope.
Local Open Scope Z_scope.

(** ** JavaScript values *)

(** Opaque JSON documents exchanged with the backend (user, brand and
    partner profiles, request bodies). *)
#[warnings="-register-all"] Inductive json : Type :=
| JNull
| JBool (b : bool)
| JNum (q : Q)
| JStr (s : string)
| JArr (xs : list json)
| JObj (fields : list (string * json)).

(** Truthiness, as used by [!x], [x || y], [x && y] and [x ? a : b]. *)
Definition truthy_string (s : string) : bool := negb (String.eqb s "").
Definition truthy_Z (n : Z) : bool := negb (n =? 0).
Definition truthy_Q (q : Q) : bool := negb (Qnum q =? 0).
Definition truthy_json (j : json) : bool :=
  match j with
  | JNull => false
  | JBool b => b
  | JNum q => truthy_Q q
  | JStr s => truthy_string s
  | JArr _ | JObj _ => true
  end.

(** A value that may be [undefined] or [null] is an option; these are the
    truthiness tests on such values. *)
Definition truthy_opt {A} (t : A -> bool) (o : option A) : bool :=
  match o with
  | Some a => t a
  | None => false
  end.

(** [a || b] on possibly missing values: [a] when it is truthy, else [b]. *)
Definition js_or {A} (t : A -> bool) (a b : option A) : option A :=
  if truthy_opt t a then a else b.

(** [a || d] where [d] is a literal of the right type. *)
Definition js_or_default {A} (t : A -> bool) (a : option A) (d : A) : A :=
  match a with
  | Some x => if t x then x else d
  | None => d
  end.

(** The result of a numeric expression that may divide by zero. *)
Inductive jsnum : Type :=
| Num (q : Q)
| Infinity
| NegInfinity
| NaN.

(** [a / b] on integer-valued numbers. *)
Definition js_div (a b : Z) : jsnum :=
  if b =? 0 then
    if a =? 0 then NaN
    else if 0 <? a then Infinity else NegInfinity
  else Num (inject_Z a / inject_Z b)%Q.

(** [x * k] for a positive literal [k]. *)
Definition js_mul_pos (x : jsnum) (k : Q) : jsnum :=
  match x with
  | Num q => Num (q * k)%Q
  | other => other
  end.

(** [Math.min(a, x)] for a finite literal [a]. *)
Definition Math_min (a : Q) (x : jsnum) : jsnum :=
  match x with
  | Num q => Num (Qmin a q)
  | Infinity => Num a
  | NegInfinity => NegInfinity
  | NaN => NaN
  end.

(** The error carried by a rejected request: [error.response?.data?.detail]
    is the only part the handlers read. *)
Record js_error : Type := mkError { detail : option string }.

(** ** Domain data *)

Record Product : Type := mkProduct {
  name : option string;
  category : option string;
  image_url : option string;
  price : option Q;
  discount_price : option Q;
  loyalty_points_earn : option Z
}.

(** An entry of the guest cart kept in the browser. *)
Record CartItem : Type := mkCartItem {
  product_id : string;
  quantity : Z;
  variant : option string;
  product : option Product
}.

(** A line of a displayed cart: the entry and its total. *)
Record CartLine : Type := mkCartLine {
  line_item : CartItem;
  item_total : Q
}.

Record Cart : Type := mkCart {
  items : list CartLine;
  subtotal : Q;
  loyalty_points_earnable : Z
}.

(** The items of a cart update request. *)
Record CartEntry : Type := mkCartEntry {
  entry_product_id : string;
  entry_quantity : Z;
  entry_variant : option string
}.

Definition json_of_option {A} (f : A -> json) (o : option A) : json :=
  match o with
  | Some a => f a
  | None => JNull
  end.

Definition json_of_entry (e : CartEntry) : json :=
  JObj [("product_id", JStr (entry_product_id e));
        ("quantity", JNum (inject_Z (entry_quantity e)));
        ("variant", json_of_option JStr (entry_variant e))].

(** ** Observable effects *)

Inductive http_method : Type := GET | POST | DELETE.

Inductive toast_kind : Type := ToastError | ToastSuccess | ToastInfo.

(** Calls from a page into a context whose code runs elsewhere. *)
Inductive context_call : Type :=
| CallUpdateCart (entries : list CartEntry)
| CallRemoveFromCart (productId : string)
| CallFetchCart
| CallRegister (name email mobile password : string).

Inductive event : Type :=
| StorageGet (key : string)
| StorageSet (key value : string)
| StorageRemove (key : string)
| Http (m : http_method) (url : string) (body : option json)
| ConsoleError (msg : string)
| Toast (kind : toast_kind) (msg : string)
| Navigate (path : string)
| Redirect (url : string)
| PreventDefault
| ContextCall (c : context_call).

(** ** Handlers as state transformers with exceptions *)

(** The browser around a component of state [C]. *)
Record state (C : Type) : Type := mkState {
  comp : C;
  localStorage : gmap string string;
  headers : gmap string string;
  trace : list event
}.
Arguments mkState {C} _ _ _ _.
Arguments comp {C} _.
Arguments localStorage {C} _.
Arguments headers {C} _.
Arguments trace {C} _.

Inductive outcome (A : Type) : Type :=
| Returned (a : A)
| Thrown (e : js_error).
Arguments Returned {A} _.
Arguments Thrown {A} _.

Definition eff (C A : Type) : Type := state C -> outcome A * state C.

Definition ret {C A} (a : A) : eff C A := fun s => (Returned a, s).

Definition bind {C A B} (m : eff C A) (k : A -> eff C B) : eff C B :=
  fun s =>
    match m s with
    | (Returned a, s') => k a s'
    | (Thrown e, s') => (Thrown e, s')
    end.

Definition throw {C A} (e : js_error) : eff C A := fun s => (Thrown e, s).

(** [try { body } catch (e) { handler }] *)
Definition try_catch {C A} (body : eff C A) (handler : js_error -> eff C A)
  : eff C A :=
  fun s =>
    match body s with
    | (Returned a, s') => (Returned a, s')
    | (Thrown e, s') => handler e s'
    end.

(** [try { body } finally { fin }] *)
Definition try_finally {C A} (body : eff C A) (fin : eff C unit) : eff C A :=
  fun s =>
    match body s with
    | (r, s') =>
        match fin s' with
        | (Returned _, s'') => (r, s'')
        | (Thrown e, s'') => (Thrown e, s'')
        end
    end.

Declare Scope eff_scope.
Delimit Scope eff_scope with eff.
Notation "'let*' x ':=' m 'in' k" := (bind m (fun x => k))
  (at level 10, x name, m at level 100, k at level 200) : eff_scope.
Notation "m ';;' k" := (bind m (fun _ => k))
  (at level 100, k at level 200, right associativity) : eff_scope.
Local Open Scope eff_scope.

Definition emit {C} (ev : event) : eff C unit :=
  fun s => (Returned tt,
            mkState (comp s) (localStorage s) (headers s) (trace s ++ [ev])).

(** A React state setter. *)
Definition setState {C} (f : C -> C) : eff C unit :=
  fun s => (Returned tt,
            mkState (f (comp s)) (localStorage s) (headers s) (trace s)).

Definition getState {C} : eff C C := fun s => (Returned (comp s), s).

Definition localStorage_getItem {C} (key : string) : eff C (option string) :=
  fun s => (Returned (localStorage s !! key),
            mkState (comp s) (localStorage s) (headers s)
                    (trace s ++ [StorageGet key])).

Definition localStorage_setItem {C} (key value : string) : eff C unit :=
  fun s => (Returned tt,
            mkState (comp s) (<[key := value]> (localStorage s)) (headers s)
                    (trace s ++ [StorageSet key value])).

Definition localStorage_removeItem {C} (key : string) : eff C unit :=
  fun s => (Returned tt,
            mkState (comp s) (delete key (localStorage s)) (headers s)
                    (trace s ++ [StorageRemove key])).

(** [axios.defaults.headers.common[h] = v] and [delete ...common[h]]. *)
Definition set_default_header {C} (h v : string) : eff C unit :=
  fun s => (Returned tt,
            mkState (comp s) (localStorage s) (<[h := v]> (headers s))
                    (trace s)).

Definition delete_default_header {C} (h : string) : eff C unit :=
  fun s => (Returned tt,
            mkState (comp s) (localStorage s) (delete h (headers s))
                    (trace s)).

(** The backend's answer to one request: the response data or an error. *)
Definition reply (A : Type) : Type := A + js_error.

Definition rejected {A} (r : reply A) : bool :=
  match r with
  | inl _ => false
  | inr _ => true
  end.

Definition axios {C A} (m : http_method) (url : string) (body : option json)
  (r : reply A) : eff C A :=
  emit (Http m url body);;
  match r with
  | inl data => ret data
  | inr e => throw e
  end.

Definition console_error {C} (msg : string) : eff C unit :=
  emit (ConsoleError msg).
(** [toast.error(msg)], [toast.success(msg, options)], [toast.info(msg)]:
    the kind and the message; the display options are not kept. *)
Definition toast {C} (k : toast_kind) (msg : string) : eff C unit :=
  emit (Toast k msg).
Definition navigate {C} (path : string) : eff C unit := emit (Navigate path).

(** [x?.f]: the field of an object that may be missing. *)
Definition opt_field {A B} (o : option A) (f : A -> option B) : option B :=
  match o with
  | Some a => f a
  | None => None
  end.

(** [`${x}`] for a string that may be [undefined]. *)
Definition template_of_option (o : option string) : string :=
  match o with
  | Some s => s
  | None => "undefined"
  end.

(** A value that may be missing in either of the two ways, where the
    code tells them apart. *)
Inductive nullable (A : Type) : Type :=
| Undefined
| Null
| Present (a : A).
Arguments Undefined {A}.
Arguments Null {A}.
Arguments Present {A} a.

(** [`${x}`] for a string that may be [undefined] or [null]. *)
Definition template_of_nullable (v : nullable string) : string :=
  match v with
  | Present s => s
  | Undefined => "undefined"
  | Null => "null"
  end.

(** ** pages/CartPage.js *)

Module CartPage.
Section Model.
(** [JSON.stringify] and [JSON.parse] on guest carts; [None] is a
    [SyntaxError]. *)
Variable JSON_stringify : list CartItem -> string.
Variable JSON_parse : string -> option (list CartItem).

(** [useAuth()] and [useCart()] as seen by one render. *)
Variable isAuthenticated : bool.
Variable cart : Cart.

Record page : Type := mkPage { localCart : list CartItem }.

Definition setLocalCart (l : list CartItem) : eff page unit :=
  setState (fun _ => mkPage l).

Definition parse_stored (raw : option string) : eff page (list CartItem) :=
  match JSON_parse (js_or_default truthy_string raw "[]") with
  | Some l => ret l
  | None => throw (mkError None)
  end.

(** First effect: load the guest cart. *)
Definition loadLocalCart : eff page unit :=
  if negb isAuthenticated then
    let* raw := localStorage_getItem "localCart" in
    let* stored := parse_stored raw in
    setLocalCart stored
  else ret tt.

Definition entry_of_line (i : CartLine) : CartEntry :=
  mkCartEntry (product_id (line_item i)) (quantity (line_item i)) None.

Fixpoint forEach {A} (l : list A) (f : A -> eff page unit) : eff page unit :=
  match l with
  | [] => ret tt
  | x :: rest => f x;; forEach rest f
  end.

(** Second effect: merge the guest cart into the server cart on login. *)
Definition mergeLocalCart : eff page unit :=
  if isAuthenticated then
    let* raw := localStorage_getItem "localCart" in
    let* stored := parse_stored raw in
    if (0 <? length stored)%nat then
      forEach stored (fun item =>
        emit (ContextCall (CallUpdateCart
          (map entry_of_line (items cart)
             ++ [mkCartEntry (product_id item) (quantity item) None]))));;
      localStorage_removeItem "localCart";;
      emit (ContextCall CallFetchCart)
    else ret tt
  else ret tt.

(** [{ ...item, quantity: newQuantity }] *)
Definition with_quantity (item : CartItem) (newQuantity : Z) : CartItem :=
  mkCartItem (product_id item) newQuantity (variant item) (product item).

Definition handleQuantityChange (productId : string) (newQuantity : Z)
  : eff page unit :=
  if newQuantity <? 1 then ret tt
  else if negb isAuthenticated then
    let* st := getState in
    let updated :=
      map (fun item =>
             if String.eqb (product_id item) productId
             then with_quantity item newQuantity
             else item) (localCart st) in
    setLocalCart updated;;
    localStorage_setItem "localCart" (JSON_stringify updated)
  else
    let updatedItems :=
      map (fun item =>
             if String.eqb (product_id (line_item item)) productId
             then mkCartEntry (product_id (line_item item)) newQuantity
                              (variant (line_item item))
             else mkCartEntry (product_id (line_item item))
                              (quantity (line_item item))
                              (variant (line_item item))) (items cart) in
    emit (ContextCall (CallUpdateCart updatedItems)).

(** The page calls it with [item.product?.name], which is a string,
    [undefined] or [null]. *)
Definition handleRemove (productId : string)
  (productName : nullable string) : eff page unit :=
  if negb isAuthenticated then
    let* st := getState in
    let updated :=
      filter (fun item => negb (String.eqb (product_id item) productId))
             (localCart st) in
    setLocalCart updated;;
    localStorage_setItem "localCart" (JSON_stringify updated);;
    toast ToastSuccess
          ("Removed " +:+ template_of_nullable productName +:+ " from cart")
  else
    emit (ContextCall (CallRemoveFromCart productId));;
    toast ToastSuccess
          ("Removed " +:+ template_of_nullable productName +:+ " from cart").

Definition handleCheckout : eff page unit :=
  if negb isAuthenticated then
    toast ToastInfo "Please sign in to checkout";;
    navigate "/login"
  else navigate "/checkout".

(** [item.product?.discount_price || item.product?.price || 0] *)
Definition unit_price (item : CartItem) : Q :=
  js_or_default truthy_Q
    (js_or truthy_Q (opt_field (product item) discount_price)
                    (opt_field (product item) price))
    0%Q.

(** [item.product?.loyalty_points_earn || 0] *)
Definition unit_points (item : CartItem) : Z :=
  js_or_default truthy_Z (opt_field (product item) loyalty_points_earn) 0.

Definition displayCart (localCart : list CartItem) : Cart :=
  if isAuthenticated then cart
  else
    mkCart
      (map (fun item =>
              mkCartLine item (unit_price item * inject_Z (quantity item))%Q)
           localCart)
      (fold_left
         (fun sum item => (sum + unit_price item * inject_Z (quantity item))%Q)
         localCart 0%Q)
      (fold_left
         (fun sum item => sum + unit_points item * quantity item)
         localCart 0).
End Model.
End CartPage.

(** ** context/CartContext.js *)

Module CartContext.
Section Model.
Variable API_URL : string.

Record provider : Type := mkProvider { cart : Cart; loading : bool }.

Definition empty_cart : Cart := mkCart [] 0%Q 0.

Definition setCart (c : Cart) : eff provider unit :=
  setState (fun p => mkProvider c (loading p)).
Definition setLoading (b : bool) : eff provider unit :=
  setState (fun p => mkProvider (cart p) b).

(** [r] is the reply to [GET /api/cart]. *)
Definition fetchCart (r : reply Cart) : eff provider unit :=
  try_finally
    (try_catch
       (setLoading true;;
        let* data := axios GET (API_URL +:+ "/api/cart") None r in
        setCart data)
       (fun error => console_error "Failed to fetch cart:"))
    (setLoading false).

(** The effect on [isAuthenticated]. *)
Definition onAuthChange (isAuthenticated : bool) (r : reply Cart)
  : eff provider unit :=
  if isAuthenticated then fetchCart r else setCart empty_cart.

(** [quantity = 1] and [variant = null] when the caller leaves them out. *)
Definition addToCart (productId : string) (quantity : option Z)
  (variant : option string) (r : reply unit) (r' : reply Cart)
  : eff provider bool :=
  try_catch
    (axios POST (API_URL +:+ "/api/cart/add")
           (Some (JObj [("product_id", JStr productId);
                        ("quantity", JNum (inject_Z (default 1 quantity)));
                        ("variant", json_of_option JStr variant)])) r;;
     fetchCart r';;
     ret true)
    (fun error => console_error "Failed to add to cart:";; ret false).

Definition removeFromCart (productId : string) (r : reply unit)
  (r' : reply Cart) : eff provider bool :=
  try_catch
    (axios DELETE (API_URL +:+ "/api/cart/item/" +:+ productId) None r;;
     fetchCart r';;
     ret true)
    (fun error => console_error "Failed to remove from cart:";; ret false).

Definition updateCart (entries : list CartEntry) (r : reply unit)
  (r' : reply Cart) : eff provider bool :=
  try_catch
    (axios POST (API_URL +:+ "/api/cart/update")
           (Some (JObj [("items", JArr (map json_of_entry entries))])) r;;
     fetchCart r';;
     ret true)
    (fun error => console_error "Failed to update cart:";; ret false).

Definition clearCart (r : reply unit) : eff provider bool :=
  try_catch
    (axios DELETE (API_URL +:+ "/api/cart") None r;;
     setCart empty_cart;;
     ret true)
    (fun error => console_error "Failed to clear cart:";; ret false).

Definition cartItemCount (p : provider) : Z :=
  fold_left (fun sum item => sum + quantity (line_item item))
            (items (cart p)) 0.

(** The five operations behind one interface: the value returned is
    [None] for [undefined]. *)
Inductive operation : Type :=
| FetchCart
| AddToCart (productId : string) (quantity : option Z)
            (variant : option string)
| RemoveFromCart (productId : string)
| UpdateCart (entries : list CartEntry)
| ClearCart.

Definition some_bool (m : eff provider bool) : eff provider (option bool) :=
  let* b := m in ret (Some b).

(** [r] answers the operation's own request, [r'] the [GET /api/cart]
    that follows a successful change. *)
Definition run (op : operation) (r : reply unit) (r' : reply Cart)
  : eff provider (option bool) :=
  match op with
  | FetchCart => fetchCart r';; ret None
  | AddToCart p q v => some_bool (addToCart p q v r r')
  | RemoveFromCart p => some_bool (removeFromCart p r r')
  | UpdateCart es => some_bool (updateCart es r r')
  | ClearCart => some_bool (clearCart r)
  end.

(** Whether the operation's own request is the one that fails. *)
Definition own_request_fails (op : operation) (r : reply unit)
  (r' : reply Cart) : bool :=
  match op with
  | FetchCart => rejected r'
  | _ => rejected r
  end.
End Model.
End CartContext.

(** ** pages/RegisterPage.js *)

Module RegisterPage.
Record form : Type := mkForm {
  name : string;
  email : string;
  mobile : string;
  password : string;
  confirmPassword : string
}.

Record page : Type := mkPage { loading : bool; formData : form }.

Definition setLoading (b : bool) : eff page unit :=
  setState (fun p => mkPage b (formData p)).

(** [register] of the customer auth context; [r] is its result. *)
Definition register (name email mobile password : string) (r : reply json)
  : eff page json :=
  emit (ContextCall (CallRegister name email mobile password));;
  match r with
  | inl data => ret data
  | inr e => throw e
  end.

Definition handleSubmit (r : reply json) : eff page unit :=
  emit PreventDefault;;
  let* p := getState in
  let formData := formData p in
  if negb (String.eqb (password formData) (confirmPassword formData)) then
    toast ToastError "Passwords do not match"
  else if (String.length (password formData) <? 6)%nat then
    toast ToastError "Password must be at least 6 characters"
  else
    setLoading true;;
    try_finally
      (try_catch
         (let* result := register (name formData) (email formData)
                                  (mobile formData) (password formData) r in
          toast ToastSuccess "Welcome to JetShop!";;
          navigate "/")
         (fun error =>
            toast ToastError
                  (js_or_default truthy_string (detail error)
                                 "Registration failed")))
      (setLoading false).

(** Whether [register] was called along a trace. *)
Definition is_register_call (ev : event) : bool :=
  match ev with
  | ContextCall (CallRegister _ _ _ _) => true
  | _ => false
  end.
End RegisterPage.

(** ** pages/CheckoutPage.js *)

Module CheckoutPage.
Section Model.
Variable API_URL : string.

Record airport_details : Type := mkAirport {
  terminal : string;
  gate : string;
  lounge : string
}.

Record home_details : Type := mkHome {
  address : string;
  city : string;
  pincode : string;
  contact_number : string
}.

Record page : Type := mkPage {
  loading : bool;
  calculating : bool;
  calculation : option json;
  deliveryType : string;
  airportDetails : airport_details;
  homeDetails : home_details;
  useLoyaltyPoints : Z;
  useWalletAmount : Q
}.

Definition initial : page :=
  mkPage false false None "airport" (mkAirport "" "" "") (mkHome "" "" "" "")
         0 0%Q.

Definition setLoading (b : bool) : eff page unit :=
  setState (fun p =>
    mkPage b (calculating p) (calculation p) (deliveryType p)
           (airportDetails p) (homeDetails p) (useLoyaltyPoints p)
           (useWalletAmount p)).
Definition setCalculating (b : bool) : eff page unit :=
  setState (fun p =>
    mkPage (loading p) b (calculation p) (deliveryType p)
           (airportDetails p) (homeDetails p) (useLoyaltyPoints p)
           (useWalletAmount p)).
Definition setCalculation (c : json) : eff page unit :=
  setState (fun p =>
    mkPage (loading p) (calculating p) (Some c) (deliveryType p)
           (airportDetails p) (homeDetails p) (useLoyaltyPoints p)
           (useWalletAmount p)).

(** The body shared by the two checkout requests. *)
Definition request_body (p : page) : json :=
  JObj [("delivery_details",
         JObj (("delivery_type", JStr (deliveryType p)) ::
               if String.eqb (deliveryType p) "airport"
               then [("terminal", JStr (terminal (airportDetails p)));
                     ("gate", JStr (gate (airportDetails p)));
                     ("lounge", JStr (lounge (airportDetails p)))]
               else [("address", JStr (address (homeDetails p)));
                     ("city", JStr (city (homeDetails p)));
                     ("pincode", JStr (pincode (homeDetails p)));
                     ("contact_number",
                      JStr (contact_number (homeDetails p)))]));
        ("use_loyalty_points", JNum (inject_Z (useLoyaltyPoints p)));
        ("use_wallet_amount", JNum (useWalletAmount p))].

Definition calculateTotals (r : reply json) : eff page unit :=
  try_finally
    (try_catch
       (setCalculating true;;
        let* p := getState in
        let* data := axios POST (API_URL +:+ "/api/checkout/calculate")
                           (Some (request_body p)) r in
        setCalculation data)
       (fun error => console_error "Failed to calculate:"))
    (setCalculating false).

(** The effect on [cart]: an empty cart sends the customer back. *)
Definition redirectIfEmpty (cart : Cart) : eff page unit :=
  if (length (items cart) =? 0)%nat then navigate "/cart" else ret tt.

(** The effect on the delivery type and on the amounts to redeem. *)
Definition recalculate (cart : Cart) (r : reply json) : eff page unit :=
  if (0 <? length (items cart))%nat then calculateTotals r else ret tt.

(** [r] carries [response.data.checkout_url]. *)
Definition handleCheckout (r : reply string) : eff page unit :=
  let* p := getState in
  if String.eqb (deliveryType p) "airport"
     && negb (truthy_string (terminal (airportDetails p))) then
    toast ToastError "Please select a terminal"
  else if String.eqb (deliveryType p) "home"
          && (negb (truthy_string (address (homeDetails p)))
              || negb (truthy_string (city (homeDetails p)))
              || negb (truthy_string (pincode (homeDetails p)))) then
    toast ToastError "Please fill in all delivery details"
  else
    setLoading true;;
    try_catch
      (let* checkout_url :=
         axios POST (API_URL +:+ "/api/checkout/create-payment")
               (Some (request_body p)) r in
       emit (Redirect checkout_url))
      (fun error =>
         toast ToastError
               (js_or_default truthy_string (detail error)
                              "Failed to create payment session");;
         setLoading false).

Definition is_payment_request (ev : event) : bool :=
  match ev with
  | Http POST url _ =>
      String.eqb url (API_URL +:+ "/api/checkout/create-payment")
  | _ => false
  end.

Definition is_error_toast (ev : event) : bool :=
  match ev with
  | Toast ToastError _ => true
  | _ => false
  end.
End Model.
End CheckoutPage.

(** ** pages/LoyaltyPage.js *)

Module LoyaltyPage.
Record tier : Type := mkTier {
  name : string;
  minPoints : Z;
  color : string;
  benefits : list string
}.

Definition tiers : list tier :=
  [ mkTier "Bronze" 0 "bg-amber-600"
           ["1x Points on purchases"; "Access to member-only deals"];
    mkTier "Silver" 500 "bg-gray-400"
           ["1.5x Points"; "5% discount on all orders";
            "Free shipping over $150"];
    mkTier "Gold" 1000 "bg-yellow-500"
           ["2x Points"; "10% discount"; "Free shipping over $100";
            "Lounge access coupons"];
    mkTier "Platinum" 2000 "bg-slate-800"
           ["3x Points"; "15% discount"; "Free shipping always";
            "Priority delivery"; "VIP lounge access"] ].

(** The parts of [user] and [loyaltyData] the progress bar reads. *)
Record user : Type := mkUser { loyalty_points : option Z }.
Record loyalty_data : Type := mkLoyalty { tier_name : option string }.

(** [Array.prototype.findIndex]: [-1] when nothing matches. *)
Fixpoint findIndex_from {A} (f : A -> bool) (l : list A) (i : Z) : Z :=
  match l with
  | [] => -1
  | x :: rest => if f x then i else findIndex_from f rest (i + 1)
  end.
Definition findIndex {A} (f : A -> bool) (l : list A) : Z :=
  findIndex_from f l 0.

(** [l[i]]: [undefined] out of range. *)
Definition index {A} (l : list A) (i : Z) : option A :=
  if i <? 0 then None else l !! Z.to_nat i.

(** [t.name === loyaltyData?.tier] *)
Definition name_is (o : option string) (t : tier) : bool :=
  match o with
  | Some s => String.eqb (name t) s
  | None => false
  end.

Definition currentTierIndex (loyaltyData : option loyalty_data) : Z :=
  findIndex (name_is (opt_field loyaltyData tier_name)) tiers.

Definition nextTier (loyaltyData : option loyalty_data) : option tier :=
  if currentTierIndex loyaltyData <? Z.of_nat (length tiers) - 1
  then index tiers (currentTierIndex loyaltyData + 1)
  else None.

Definition progressToNext (user : option user)
  (loyaltyData : option loyalty_data) : jsnum :=
  match nextTier loyaltyData with
  | Some next =>
      Math_min 100
        (js_mul_pos
           (js_div (js_or_default truthy_Z (opt_field user loyalty_points) 0)
                   (minPoints next))
           100)
  | None => Num 100
  end.
End LoyaltyPage.

(** ** pages/OrderDetailPage.js *)

Module OrderDetailPage.
Definition getStatusColor (status : string) : string :=
  if String.eqb status "delivered" then "text-green-600"
  else if String.eqb status "cancelled" then "text-red-600"
  else if String.eqb status "out_for_delivery" then "text-blue-600"
  else "text-amber-600".
End OrderDetailPage.

(** ** context/BrandAuthContext.js *)

Module BrandAuth.
Section Model.
Variable API_URL : string.

Record provider : Type := mkProvider {
  user : option json;
  brand : option json;
  token : option string;
  loading : bool
}.

(** [response.data] of the profile request and of login and register. *)
Record profile : Type := mkProfile {
  profile_user : option json;
  profile_brand : option json
}.
Record session : Type := mkSession {
  session_token : string;
  session_user : option json;
  session_brand : option json
}.

Definition setUser (u : option json) : eff provider unit :=
  setState (fun p => mkProvider u (brand p) (token p) (loading p)).
Definition setBrand (b : option json) : eff provider unit :=
  setState (fun p => mkProvider (user p) b (token p) (loading p)).
Definition setToken (t : option string) : eff provider unit :=
  setState (fun p => mkProvider (user p) (brand p) t (loading p)).
Definition setLoading (b : bool) : eff provider unit :=
  setState (fun p => mkProvider (user p) (brand p) (token p) b).

(** First render: the initial values of the four [useState] cells. *)
Definition mount : eff provider unit :=
  let* stored := localStorage_getItem "brand_token" in
  setState (fun _ => mkProvider None None stored true).

(** A later render evaluates the initialiser again and drops its value. *)
Definition render : eff provider unit :=
  let* stored := localStorage_getItem "brand_token" in
  ret tt.

Definition logout : eff provider unit :=
  localStorage_removeItem "brand_token";;
  delete_default_header "Authorization";;
  setToken None;;
  setUser None;;
  setBrand None.

Definition fetchProfile (r : reply profile) : eff provider unit :=
  try_finally
    (try_catch
       (let* data := axios GET (API_URL +:+ "/api/brand-admin/me") None r in
        setUser (profile_user data);;
        setBrand (profile_brand data))
       (fun error =>
          console_error "Failed to fetch brand profile:";;
          logout))
    (setLoading false).

(** The effect on [token]. *)
Definition onTokenChange (r : reply profile) : eff provider unit :=
  let* p := getState in
  match token p with
  | Some t =>
      if truthy_string t then
        set_default_header "Authorization" ("Bearer " +:+ t);;
        fetchProfile r
      else setLoading false
  | None => setLoading false
  end.

Definition start_session (data : session) : eff provider session :=
  localStorage_setItem "brand_token" (session_token data);;
  set_default_header "Authorization" ("Bearer " +:+ session_token data);;
  setToken (Some (session_token data));;
  setUser (session_user data);;
  setBrand (session_brand data);;
  ret data.

Definition login (email password : string) (r : reply session)
  : eff provider session :=
  let* data := axios POST (API_URL +:+ "/api/brand-admin/login")
                     (Some (JObj [("email", JStr email);
                                  ("password", JStr password)])) r in
  start_session data.

Definition register (data : json) (r : reply session)
  : eff provider session :=
  let* data := axios POST (API_URL +:+ "/api/brand-admin/register")
                     (Some data) r in
  start_session data.

Definition isAuthenticated (p : provider) : bool :=
  truthy_opt truthy_json (user p).
End Model.
End BrandAuth.

(** ** context/LogisticsAuthContext.js *)

Module LogisticsAuth.
Section Model.
Variable API_URL : string.

Record provider : Type := mkProvider {
  user : option json;
  partner : option json;
  token : option string;
  loading : bool
}.

(** [response.data] of the profile request and of login and register. *)
Record profile : Type := mkProfile {
  profile_user : option json;
  profile_partner : option json
}.
Record session : Type := mkSession {
  session_token : string;
  session_user : option json;
  session_partner : option json
}.

Definition setUser (u : option json) : eff provider unit :=
  setState (fun p => mkProvider u (partner p) (token p) (loading p)).
Definition setPartner (b : option json) : eff provider unit :=
  setState (fun p => mkProvider (user p) b (token p) (loading p)).
Definition setToken (t : option string) : eff provider unit :=
  setState (fun p => mkProvider (user p) (partner p) t (loading p)).
Definition setLoading (b : bool) : eff provider unit :=
  setState (fun p => mkProvider (user p) (partner p) (token p) b).

(** First render: the initial values of the four [useState] cells. *)
Definition mount : eff provider unit :=
  let* stored := localStorage_getItem "logistics_token" in
  setState (fun _ => mkProvider None None stored true).

(** A later render evaluates the initialiser again and drops its value. *)
Definition render : eff provider unit :=
  let* stored := localStorage_getItem "logistics_token" in
  ret tt.

Definition logout : eff provider unit :=
  localStorage_removeItem "logistics_token";;
  delete_default_header "Authorization";;
  setToken None;;
  setUser None;;
  setPartner None.

Definition fetchProfile (r : reply profile) : eff provider unit :=
  try_finally
    (try_catch
       (let* data := axios GET (API_URL +:+ "/api/logistics/me") None r in
        setUser (profile_user data);;
        setPartner (profile_partner data))
       (fun error =>
          console_error "Failed to fetch logistics profile:";;
          logout))
    (setLoading false).

(** The effect on [token]. *)
Definition onTokenChange (r : reply profile) : eff provider unit :=
  let* p := getState in
  match token p with
  | Some t =>
      if truthy_string t then
        set_default_header "Authorization" ("Bearer " +:+ t);;
        fetchProfile r
      else setLoading false
  | None => setLoading false
  end.

Definition start_session (data : session) : eff provider session :=
  localStorage_setItem "logistics_token" (session_token data);;
  set_default_header "Authorization" ("Bearer " +:+ session_token data);;
  setToken (Some (session_token data));;
  setUser (session_user data);;
  setPartner (session_partner data);;
  ret data.

Definition login (email password : string) (r : reply session)
  : eff provider session :=
  let* data := axios POST (API_URL +:+ "/api/logistics/login")
                     (Some (JObj [("email", JStr email);
                                  ("password", JStr password)])) r in
  start_session data.

Definition register (data : json) (r : reply session)
  : eff provider session :=
  let* data := axios POST (API_URL +:+ "/api/logistics/register")
                     (Some data) r in
  start_session data.

Definition isAuthenticated (p : provider) : bool :=
  truthy_opt truthy_json (user p).
End Model.
End LogisticsAuth.

(** ** context/AdminAuthContext.js *)

Module AdminAuth.
Section Model.
Variable API_URL : string.
(** [JSON.stringify] and [JSON.parse] on profile documents; [None] is a
    [SyntaxError]. *)
Variable JSON_stringify : json -> string.
Variable JSON_parse : string -> option json.

Record provider : Type := mkProvider {
  user : option json;
  brand : option json;
  role : option string;
  token : option string;
  loading : bool
}.

Record profile : Type := mkProfile {
  profile_user : option json;
  profile_brand : option json
}.
Record session : Type := mkSession {
  session_token : string;
  session_user : option json;
  session_role : string;
  session_brand : option json
}.

Definition setUser (u : option json) : eff provider unit :=
  setState (fun p => mkProvider u (brand p) (role p) (token p) (loading p)).
Definition setBrand (b : option json) : eff provider unit :=
  setState (fun p => mkProvider (user p) b (role p) (token p) (loading p)).
Definition setRole (r : option string) : eff provider unit :=
  setState (fun p => mkProvider (user p) (brand p) r (token p) (loading p)).
Definition setToken (t : option string) : eff provider unit :=
  setState (fun p => mkProvider (user p) (brand p) (role p) t (loading p)).
Definition setLoading (b : bool) : eff provider unit :=
  setState (fun p => mkProvider (user p) (brand p) (role p) (token p) b).

Definition mount : eff provider unit :=
  let* stored := localStorage_getItem "admin_token" in
  setState (fun _ => mkProvider None None None stored true).

Definition render : eff provider unit :=
  let* stored := localStorage_getItem "admin_token" in
  ret tt.

Definition parse (text : string) : eff provider json :=
  match JSON_parse text with
  | Some j => ret j
  | None => throw (mkError None)
  end.

(** [JSON.stringify(x)] is [undefined] for a missing [x], which
    [setItem] stores as the text "undefined". *)
Definition stringify (o : option json) : string :=
  match o with
  | Some j => JSON_stringify j
  | None => "undefined"
  end.

Definition logout : eff provider unit :=
  localStorage_removeItem "admin_token";;
  localStorage_removeItem "admin_user";;
  localStorage_removeItem "admin_role";;
  localStorage_removeItem "admin_brand";;
  delete_default_header "Authorization";;
  setToken None;;
  setUser None;;
  setRole None;;
  setBrand None.

(** [r_super] answers [GET /api/super-admin/me], [r_brand] answers
    [GET /api/brand-admin/me]. *)
Definition fetchProfile (r_super : reply (option json))
  (r_brand : reply profile) : eff provider unit :=
  try_finally
    (try_catch
       (let* storedRole := localStorage_getItem "admin_role" in
        if truthy_opt (String.eqb "super_admin") storedRole then
          let* data := axios GET (API_URL +:+ "/api/super-admin/me")
                             None r_super in
          setUser data;;
          setRole (Some "super_admin")
        else if truthy_opt (String.eqb "brand_admin") storedRole then
          let* data := axios GET (API_URL +:+ "/api/brand-admin/me")
                             None r_brand in
          setUser (profile_user data);;
          setBrand (profile_brand data);;
          setRole (Some "brand_admin")
        else ret tt)
       (fun error =>
          console_error "Failed to fetch admin profile:";;
          logout))
    (setLoading false).

(** The effect on [token]. *)
Definition onTokenChange (r_super : reply (option json))
  (r_brand : reply profile) : eff provider unit :=
  let* p := getState in
  if truthy_opt truthy_string (token p) then
    set_default_header "Authorization"
                       ("Bearer " +:+ template_of_option (token p));;
    let* storedUser := localStorage_getItem "admin_user" in
    let* storedRole := localStorage_getItem "admin_role" in
    let* storedBrand := localStorage_getItem "admin_brand" in
    if truthy_opt truthy_string storedUser
       && truthy_opt truthy_string storedRole then
      let* u := parse (template_of_option storedUser) in
      setUser (Some u);;
      setRole storedRole;;
      (if truthy_opt truthy_string storedBrand then
         let* b := parse (template_of_option storedBrand) in
         setBrand (Some b)
       else ret tt);;
      setLoading false
    else fetchProfile r_super r_brand
  else setLoading false.

Definition login (email password : string) (r : reply session)
  : eff provider session :=
  let* data := axios POST (API_URL +:+ "/api/super-admin/unified-login")
                     (Some (JObj [("email", JStr email);
                                  ("password", JStr password)])) r in
  localStorage_setItem "admin_token" (session_token data);;
  localStorage_setItem "admin_user" (stringify (session_user data));;
  localStorage_setItem "admin_role" (session_role data);;
  (if truthy_opt truthy_json (session_brand data) then
     localStorage_setItem "admin_brand" (stringify (session_brand data))
   else ret tt);;
  set_default_header "Authorization" ("Bearer " +:+ session_token data);;
  setToken (Some (session_token data));;
  setUser (session_user data);;
  setRole (Some (session_role data));;
  (if truthy_opt truthy_json (session_brand data) then
     setBrand (session_brand data)
   else ret tt);;
  ret data.

Definition isAuthenticated (p : provider) : bool :=
  truthy_opt truthy_json (user p).
Definition isAdmin (p : provider) : bool :=
  truthy_opt (String.eqb "super_admin") (role p).
Definition isBrand (p : provider) : bool :=
  truthy_opt (String.eqb "brand_admin") (role p).
End Model.
End AdminAuth.

(** ** Storage accesses of the whole frontend *)

Definition storage_key (ev : event) : option string :=
  match ev with
  | StorageGet k | StorageSet k _ | StorageRemove k => Some k
  | _ => None
  end.

Definition storage_keys (tr : list event) : list string :=
  omap storage_key tr.

(** The events a handler appends when run from [s]. *)
Definition new_events {C A} (m : eff C A) (s : state C) : list event :=
  drop (length (trace s)) (trace (m s).2).

Definition is_toast (ev : event) : bool :=
  match ev with
  | Toast _ _ => true
  | _ => false
  end.

(** The four keys named as the storage interface. *)
Definition documented_keys : list string :=
  ["admin_token"; "brand_token"; "logistics_token"; "localCart"].

(** The keys the providers and pages use. *)
Definition used_keys : list string :=
  ["admin_token"; "admin_user"; "admin_role"; "admin_brand";
   "brand_token"; "logistics_token"; "localCart"].

Definition void {C A} (m : eff C A) : eff C unit := m;; ret tt.

Module Frontend.
Section Model.
Variable API_URL : string.
Variable stringify_cart : list CartItem -> string.
Variable parse_cart : string -> option (list CartItem).
Variable JSON_stringify : json -> string.
Variable JSON_parse : string -> option json.

Inductive component : Type :=
| BrandAuthProvider
| LogisticsAuthProvider
| AdminAuthProvider
| CartPageComponent
| CartProvider
| RegisterPageComponent
| CheckoutPageComponent.

Definition component_state (c : component) : Type :=
  match c with
  | BrandAuthProvider => BrandAuth.provider
  | LogisticsAuthProvider => LogisticsAuth.provider
  | AdminAuthProvider => AdminAuth.provider
  | CartPageComponent => CartPage.page
  | CartProvider => CartContext.provider
  | RegisterPageComponent => RegisterPage.page
  | CheckoutPageComponent => CheckoutPage.page
  end.

Inductive brand_op : Type :=
| BrandMount
| BrandRender
| BrandOnTokenChange (r : reply BrandAuth.profile)
| BrandFetchProfile (r : reply BrandAuth.profile)
| BrandLogin (email password : string) (r : reply BrandAuth.session)
| BrandRegister (data : json) (r : reply BrandAuth.session)
| BrandLogout.

Inductive logistics_op : Type :=
| LogisticsMount
| LogisticsRender
| LogisticsOnTokenChange (r : reply LogisticsAuth.profile)
| LogisticsFetchProfile (r : reply LogisticsAuth.profile)
| LogisticsLogin (email password : string) (r : reply LogisticsAuth.session)
| LogisticsRegister (data : json) (r : reply LogisticsAuth.session)
| LogisticsLogout.

Inductive admin_op : Type :=
| AdminMount
| AdminRender
| AdminOnTokenChange (r_super : reply (option json))
                     (r_brand : reply AdminAuth.profile)
| AdminFetchProfile (r_super : reply (option json))
                    (r_brand : reply AdminAuth.profile)
| AdminLogin (email password : string) (r : reply AdminAuth.session)
| AdminLogout.

Inductive cart_page_op : Type :=
| LoadLocalCart (isAuthenticated : bool)
| MergeLocalCart (isAuthenticated : bool) (cart : Cart)
| HandleQuantityChange (isAuthenticated : bool) (cart : Cart)
                       (productId : string) (newQuantity : Z)
| HandleRemove (isAuthenticated : bool) (productId : string)
               (productName : nullable string)
| HandleCheckout (isAuthenticated : bool).

Inductive cart_provider_op : Type :=
| OnAuthChange (isAuthenticated : bool) (r : reply Cart)
| CartOperation (op : CartContext.operation) (r : reply unit)
                (r' : reply Cart).

Inductive checkout_op : Type :=
| RedirectIfEmpty (cart : Cart)
| Recalculate (cart : Cart) (r : reply json)
| CalculateTotals (r : reply json)
| HandlePayment (r : reply string).

Definition operation (c : component) : Type :=
  match c with
  | BrandAuthProvider => brand_op
  | LogisticsAuthProvider => logistics_op
  | AdminAuthProvider => admin_op
  | CartPageComponent => cart_page_op
  | CartProvider => cart_provider_op
  | RegisterPageComponent => reply json
  | CheckoutPageComponent => checkout_op
  end.

Definition run_brand (op : brand_op) : eff BrandAuth.provider unit :=
  match op with
  | BrandMount => BrandAuth.mount
  | BrandRender => BrandAuth.render
  | BrandOnTokenChange r => BrandAuth.onTokenChange API_URL r
  | BrandFetchProfile r => BrandAuth.fetchProfile API_URL r
  | BrandLogin e p r => void (BrandAuth.login API_URL e p r)
  | BrandRegister d r => void (BrandAuth.register API_URL d r)
  | BrandLogout => BrandAuth.logout
  end.

Definition run_logistics (op : logistics_op)
  : eff LogisticsAuth.provider unit :=
  match op with
  | LogisticsMount => LogisticsAuth.mount
  | LogisticsRender => LogisticsAuth.render
  | LogisticsOnTokenChange r => LogisticsAuth.onTokenChange API_URL r
  | LogisticsFetchProfile r => LogisticsAuth.fetchProfile API_URL r
  | LogisticsLogin e p r => void (LogisticsAuth.login API_URL e p r)
  | LogisticsRegister d r => void (LogisticsAuth.register API_URL d r)
  | LogisticsLogout => LogisticsAuth.logout
  end.

Definition run_admin (op : admin_op) : eff AdminAuth.provider unit :=
  match op with
  | AdminMount => AdminAuth.mount
  | AdminRender => AdminAuth.render
  | AdminOnTokenChange r r' =>
      AdminAuth.onTokenChange API_URL JSON_parse r r'
  | AdminFetchProfile r r' => AdminAuth.fetchProfile API_URL r r'
  | AdminLogin e p r => void (AdminAuth.login API_URL JSON_stringify e p r)
  | AdminLogout => AdminAuth.logout
  end.

Definition run_cart_page (op : cart_page_op) : eff CartPage.page unit :=
  match op with
  | LoadLocalCart a => CartPage.loadLocalCart parse_cart a
  | MergeLocalCart a c => CartPage.mergeLocalCart parse_cart a c
  | HandleQuantityChange a c p q =>
      CartPage.handleQuantityChange stringify_cart a c p q
  | HandleRemove a p n => CartPage.handleRemove stringify_cart a p n
  | HandleCheckout a => CartPage.handleCheckout a
  end.

Definition run_cart_provider (op : cart_provider_op)
  : eff CartContext.provider unit :=
  match op with
  | OnAuthChange a r => CartContext.onAuthChange API_URL a r
  | CartOperation op r r' => void (CartContext.run API_URL op r r')
  end.

Definition run_checkout (op : checkout_op) : eff CheckoutPage.page unit :=
  match op with
  | RedirectIfEmpty c => CheckoutPage.redirectIfEmpty c
  | Recalculate c r => CheckoutPage.recalculate API_URL c r
  | CalculateTotals r => CheckoutPage.calculateTotals API_URL r
  | HandlePayment r => CheckoutPage.handleCheckout API_URL r
  end.

Definition run (c : component)
  : operation c -> eff (component_state c) unit :=
  match c with
  | BrandAuthProvider => run_brand
  | LogisticsAuthProvider => run_logistics
  | AdminAuthProvider => run_admin
  | CartPageComponent => run_cart_page
  | CartProvider => run_cart_provider
  | RegisterPageComponent => RegisterPage.handleSubmit
  | CheckoutPageComponent => run_checkout
  end.
End Model.
End Frontend.

(** ** Reference definitions used to state the properties *)

Fixpoint sum_Z (l : list Z) : Z :=
  match l with
  | [] => 0
  | x :: rest => x + sum_Z rest
  end.

Fixpoint sum_Q (l : list Q) : Q :=
  match l with
  | [] => 0%Q
  | x :: rest => (x + sum_Q rest)%Q
  end.

(** A price field that is missing, [null] or zero. *)
Definition absent_or_zero (o : option Q) : Prop :=
  match o with
  | Some q => (q == 0)%Q
  | None => True
  end.

(** The unit price of a guest cart entry: the discount price when it is
    present and not zero, else the price when it is present and not zero,
    else zero. *)
Inductive unit_price_rule (item : CartItem) : Q -> Prop :=
| price_discounted d :
    opt_field (product item) discount_price = Some d ->
    ~ (d == 0)%Q ->
    unit_price_rule item d
| price_listed p :
    absent_or_zero (opt_field (product item) discount_price) ->
    opt_field (product item) price = Some p ->
    ~ (p == 0)%Q ->
    unit_price_rule item p
| price_missing :
    absent_or_zero (opt_field (product item) discount_price) ->
    absent_or_zero (opt_field (product item) price) ->
    unit_price_rule item 0%Q.

(** The unit price read as "the discount price if present, otherwise the
    price, otherwise 0", where present means not missing. *)
Definition unit_price_if_present (item : CartItem) : Q :=
  match opt_field (product item) discount_price with
  | Some d => d
  | None =>
      match opt_field (product item) price with
      | Some p => p
      | None => 0%Q
      end
  end.

(** The points of one unit: [loyalty_points_earn], 0 if absent. *)
Definition points_if_present (item : CartItem) : Z :=
  default 0 (opt_field (product item) loyalty_points_earn).

(** The guest cart display rule with [unit_price_if_present]. *)
Definition displayed_with_price_if_present (d : Cart)
  (localCart : list CartItem) : Prop :=
  Forall2 (fun line item =>
             line_item line = item /\
             (item_total line
              == unit_price_if_present item * inject_Z (quantity item))%Q)
          (items d) localCart.

(** A product whose discount price is present and zero. *)
Definition free_discount_item : CartItem :=
  mkCartItem "p1" 1 None
             (Some (mkProduct (Some "Perfume") None None
                              (Some (50 # 1)) (Some (0 # 1)) None)).

(** A browser with empty storage, no default header and no past effect. *)
Definition fresh {C} (c : C) : state C :=
  mkState c (∅ : gmap string string) (∅ : gmap string string) [].

(** "The failure is caught and surfaced by a toast", for one run. *)
Definition caught_and_toasted {C A} (m : eff C A) (s : state C) : Prop :=
  (exists v, (m s).1 = Returned v)
  /\ Exists (fun ev => is_toast ev = true) (new_events m s).

(** The two checks of the registration form. *)
Definition passwords_accepted (f : RegisterPage.form) : Prop :=
  RegisterPage.password f = RegisterPage.confirmPassword f
  /\ (6 <= String.length (RegisterPage.password f))%nat.

Definition register_call_of (f : RegisterPage.form) : event :=
  ContextCall (CallRegister (RegisterPage.name f) (RegisterPage.email f)
                            (RegisterPage.mobile f) (RegisterPage.password f)).

(** The delivery details the checkout asks for. *)
Definition terminal_selected (p : CheckoutPage.page) : Prop :=
  CheckoutPage.terminal (CheckoutPage.airportDetails p) <> "".

Definition address_filled (p : CheckoutPage.page) : Prop :=
  CheckoutPage.address (CheckoutPage.homeDetails p) <> ""
  /\ CheckoutPage.city (CheckoutPage.homeDetails p) <> ""
  /\ CheckoutPage.pincode (CheckoutPage.homeDetails p) <> "".

(** The browser and the provider after a logout: the token key is gone
    from the storage, no [Authorization] default header is left, and the
    provider holds neither user nor token. *)
Definition logged_out {C} (key : string) (user : C -> option json)
  (token : C -> option string) (s : state C) : Prop :=
  localStorage s !! key = None
  /\ headers s !! "Authorization" = None
  /\ user (comp s) = None
  /\ token (comp s) = None.

(** The profile request of the admin provider is sent and rejected; which
    request is sent depends on the stored role. *)
Definition admin_fetch_rejected (s : state AdminAuth.provider)
  (r_super : reply (option json)) (r_brand : reply AdminAuth.profile) : Prop :=
  (localStorage s !! "admin_role" = Some "super_admin"
   /\ rejected r_super = true)
  \/ (localStorage s !! "admin_role" = Some "brand_admin"
      /\ rejected r_brand = true).

(** A handler that only extends the trace and whose storage accesses all
    use keys of [keys]. *)
Definition touches_only (keys : list string) {C A} (m : eff C A) : Prop :=
  forall s : state C,
  exists evs : list event,
    trace (m s).2 = trace s ++ evs
    /\ Forall (fun k => k ∈ keys) (storage_keys evs).

(** ** More of the storefront *)

(** A page of state [P] under a provider of state [C]: a function of the
    provider runs on the provider's state and on the shared browser, and
    leaves the page's state alone. *)
Definition in_provider {P C A} (m : eff C A) : eff (P * C) A :=
  fun s =>
    match m (mkState (comp s).2 (localStorage s) (headers s) (trace s)) with
    | (r, s') =>
        (r, mkState ((comp s).1, comp s') (localStorage s') (headers s')
                    (trace s'))
    end.

(** A state setter of the page. *)
Definition setPage {P C} (f : P -> P) : eff (P * C) unit :=
  setState (fun pc => (f pc.1, pc.2)).

(** ** components/ProductCard.js *)

Module ProductCard.
Section Model.
Variable API_URL : string.

(** [e.stopPropagation()] only stops the click from reaching the link
    around the card; it is not traced. *)
Definition handleAddToCart (productId : string) (r : reply unit)
  (r' : reply Cart) : eff CartContext.provider unit :=
  emit PreventDefault;;
  let* success := CartContext.addToCart API_URL productId (Some 1) None r r' in
  if success then toast ToastSuccess "Added to cart"
  else
    toast ToastError "Please login to add items to cart";;
    navigate "/login".

(** [product.discount_price || product.price] *)
Definition displayPrice (product : Product) : option Q :=
  js_or truthy_Q (discount_price product) (price product).

End Model.
End ProductCard.

(** ** pages/ProductPage.js *)

Module ProductPage.
Section Model.
Variable API_URL : string.

(** [useAuth()], and the product, quantity and variant the page holds. *)
Variable isAuthenticated : bool.
Variable productId : string.
Variable quantity : Z.
Variable selectedVariant : option string.

Definition handleAddToCart (r : reply unit) (r' : reply Cart)
  : eff CartContext.provider unit :=
  if negb isAuthenticated then
    toast ToastError "Please login to add items to cart";;
    navigate "/login"
  else
    let* success := CartContext.addToCart API_URL productId (Some quantity)
                                          selectedVariant r r' in
    if success then toast ToastSuccess "Added to cart" else ret tt.

Definition handleBuyNow (r : reply unit) (r' : reply Cart)
  : eff CartContext.provider unit :=
  if negb isAuthenticated then
    toast ToastError "Please login to purchase";;
    navigate "/login"
  else
    let* success := CartContext.addToCart API_URL productId (Some quantity)
                                          selectedVariant r r' in
    if success then navigate "/cart" else ret tt.

Definition displayPrice (product : Product) : option Q :=
  js_or truthy_Q (discount_price product) (price product).

End Model.
End ProductPage.

(** ** pages/OrderDetailPage.js: tracking *)

Module OrderTracking.
Record step : Type := mkStep { key : string; label : string; icon : string }.

Definition airportSteps : list step :=
  [ mkStep "pending" "Order Placed" "Clock";
    mkStep "confirmed" "Confirmed" "CheckCircle2";
    mkStep "processing" "Preparing" "Package";
    mkStep "ready_for_pickup" "Ready for Pickup" "MapPin";
    mkStep "out_for_delivery" "Runner Assigned" "Truck";
    mkStep "delivered" "Delivered" "CheckCircle2" ].

Definition homeSteps : list step :=
  [ mkStep "pending" "Order Placed" "Clock";
    mkStep "confirmed" "Confirmed" "CheckCircle2";
    mkStep "processing" "Processing" "Package";
    mkStep "shipped" "Shipped" "Truck";
    mkStep "in_transit" "In Transit" "Plane";
    mkStep "out_for_delivery" "Out for Delivery" "Truck";
    mkStep "delivered" "Delivered" "CheckCircle2" ].

(** The fields of the order the tracker reads. *)
Record order : Type := mkOrder {
  delivery_type : option string;
  order_status : option string
}.

Definition trackingSteps (o : order) : list step :=
  if truthy_opt (String.eqb "airport") (delivery_type o)
  then airportSteps else homeSteps.

(** [step.key === order.order_status] *)
Definition key_is (status : option string) (st : step) : bool :=
  match status with
  | Some s => String.eqb (key st) s
  | None => false
  end.

Definition currentStepIndex (o : order) : Z :=
  LoyaltyPage.findIndex (key_is (order_status o)) (trackingSteps o).

Definition isDelivered (o : order) : bool :=
  truthy_opt (String.eqb "delivered") (order_status o).
Definition isCancelled (o : order) : bool :=
  truthy_opt (String.eqb "cancelled") (order_status o).

(** The marker of a step on the progress bar, with the [isCompleted] and
    [isCurrent] computed for it. *)
Record marker : Type := mkMarker {
  marker_step : step;
  isCompleted : bool;
  isCurrent : bool
}.

(** What the tracking card shows: the notice of a cancelled order, or
    else the progress bar. The width of the bar (in percent) and the
    markers are computed in that second branch only. *)
Inductive tracker : Type :=
| OrderCancelled
| ProgressBar (width : jsnum) (markers : list marker).

Definition trackingCard (o : order) : tracker :=
  if isCancelled o then OrderCancelled
  else
    ProgressBar
      (Math_min 100
         (js_mul_pos
            (js_div (currentStepIndex o)
                    (Z.of_nat (length (trackingSteps o)) - 1))
            100))
      (imap (fun idx st =>
               mkMarker st (Z.of_nat idx <=? currentStepIndex o)
                        (Z.of_nat idx =? currentStepIndex o))
            (trackingSteps o)).

(** [s.replace('_', ' ')]: a string pattern replaces the first occurrence
    only. *)
Fixpoint replace_underscore (s : string) : string :=
  match s with
  | EmptyString => EmptyString
  | String c rest =>
      if Ascii.eqb c "_"%char then String " "%char rest
      else String c (replace_underscore rest)
  end.

(** [order.order_status?.replace('_', ' ')] *)
Definition statusLabel (o : order) : option string :=
  option_map replace_underscore (order_status o).
End OrderTracking.

(** ** pages/LoyaltyPage.js: the list of tiers *)

Module LoyaltyTiers.
(** [tier.name === loyaltyData?.tier] *)
Definition isCurrentTier (loyaltyData : option LoyaltyPage.loyalty_data)
  (t : LoyaltyPage.tier) : bool :=
  LoyaltyPage.name_is (opt_field loyaltyData LoyaltyPage.tier_name) t.

(** [idx > currentTierIndex] *)
Definition isLocked (loyaltyData : option LoyaltyPage.loyalty_data)
  (idx : Z) : bool :=
  LoyaltyPage.currentTierIndex loyaltyData <? idx.
End LoyaltyTiers.

(** ** pages/DashboardPage.js: loyalty progress *)

Module DashboardPage.
(** A numeric field told apart from a missing one and from [null]: the
    three behave differently under [+]. *)
Inductive field : Type :=
| Undefined
| Null
| Number (n : Z).

Record user : Type := mkUser { loyalty_points : field }.
Record loyalty_data : Type := mkLoyalty {
  tier : option string;
  points_to_next_tier : option Z
}.

Definition tiers : list string := ["Bronze"; "Silver"; "Gold"; "Platinum"].

(** [Array.prototype.indexOf]: [-1] when the value is not in the array. *)
Definition indexOf (x : string) (l : list string) : Z :=
  LoyaltyPage.findIndex (String.eqb x) l.

Definition currentTierIndex (loyaltyData : option loyalty_data) : Z :=
  indexOf (js_or_default truthy_string (opt_field loyaltyData tier) "Bronze")
          tiers.

Definition nextTier (loyaltyData : option loyalty_data) : option string :=
  if currentTierIndex loyaltyData <? Z.of_nat (length tiers) - 1
  then LoyaltyPage.index tiers (currentTierIndex loyaltyData + 1)
  else None.

(** [user?.loyalty_points] *)
Definition points_field (user : option user) : field :=
  match user with
  | Some u => loyalty_points u
  | None => Undefined
  end.

(** [x || 0] *)
Definition or_zero (x : field) : Z :=
  match x with
  | Number n => if truthy_Z n then n else 0
  | _ => 0
  end.

(** [x + t] for a number [t]: [None] is [NaN]. *)
Definition plus_number (x : field) (t : Z) : option Z :=
  match x with
  | Number n => Some (n + t)
  | Null => Some t
  | Undefined => None
  end.

Definition progressToNext (user : option user)
  (loyaltyData : option loyalty_data) : jsnum :=
  if truthy_opt truthy_string (nextTier loyaltyData)
     && truthy_opt truthy_Z (opt_field loyaltyData points_to_next_tier)
  then
    Math_min 100
      (js_mul_pos
         (match plus_number (points_field user)
                  (default 0 (opt_field loyaltyData points_to_next_tier)) with
          | Some d => js_div (or_zero (points_field user)) d
          | None => NaN
          end)
         100)
  else Num 100.
End DashboardPage.

(** ** pages/OrderConfirmationPage.js *)

(** A call into a context whose code is elsewhere and that leaves no
    trace here: only its outcome matters. *)
Definition external {C A} (r : reply A) : eff C A :=
  match r with
  | inl a => ret a
  | inr e => throw e
  end.

Module OrderConfirmationPage.
Section Model.
Variable API_URL : string.

(** [searchParams.get('session_id')] and [searchParams.get('order_id')]. *)
Variable sessionId : option string.
Variable orderId : option string.

(** [response.data] of the status request. *)
Record payment : Type := mkPayment {
  payment_status : option string;
  status : option string
}.

(** The answers to the requests of each attempt, and the outcome of
    [refreshUser]. *)
Variable status_reply : nat -> reply payment.
Variable order_reply : nat -> reply json.
Variable refresh_reply : nat -> reply unit.

Record page : Type := mkPage {
  loading : bool;
  order : option json;
  paymentStatus : option payment;
  error : option string
}.

Definition setLoading (b : bool) : eff page unit :=
  setState (fun p => mkPage b (order p) (paymentStatus p) (error p)).
Definition setOrder (o : option json) : eff page unit :=
  setState (fun p => mkPage (loading p) o (paymentStatus p) (error p)).
Definition setPaymentStatus (d : option payment) : eff page unit :=
  setState (fun p => mkPage (loading p) (order p) d (error p)).
Definition setError (e : option string) : eff page unit :=
  setState (fun p => mkPage (loading p) (order p) (paymentStatus p) e).

Definition maxAttempts : nat := 10.
Definition pollInterval : Z := 2000.

Definition status_url (sid : string) : string :=
  API_URL +:+ "/api/checkout/status/" +:+ sid.

(** One call of [pollPaymentStatus(attempts)]: the value is the argument
    of the call it schedules with [setTimeout], if any. *)
Definition pollStep (sid : string) (attempts : nat)
  : eff page (option nat) :=
  if (maxAttempts <=? attempts)%nat then
    setError
      (Some "Payment verification timed out. Please check your orders.");;
    setLoading false;;
    ret None
  else
    try_catch
      (let* data := axios GET (status_url sid) None (status_reply attempts) in
       setPaymentStatus (Some data);;
       if truthy_opt (String.eqb "paid") (payment_status data) then
         (if truthy_opt truthy_string orderId then
            let* o := axios GET
                        (API_URL +:+ "/api/orders/"
                                 +:+ template_of_option orderId)
                        None (order_reply attempts) in
            setOrder (Some o)
          else ret tt);;
         external (refresh_reply attempts);;
         emit (ContextCall CallFetchCart);;
         setLoading false;;
         ret None
       else if truthy_opt (String.eqb "expired") (status data)
               || truthy_opt (String.eqb "unpaid") (payment_status data) then
         setError (Some "Payment was not completed");;
         setLoading false;;
         ret None
       else ret (Some (S attempts)))
      (fun error =>
         console_error "Error checking payment status:";;
         if (attempts <? maxAttempts - 1)%nat then ret (Some (S attempts))
         else
           setError (Some "Failed to verify payment status");;
           setLoading false;;
           ret None).

(** [pollPaymentStatus(attempts)] followed by the timers it sets, fired
    one after the other; [fuel] bounds the number of timers that fire,
    and the value is the argument of a call still pending, if any. *)
Fixpoint pollPaymentStatus (fuel : nat) (sid : string) (attempts : nat)
  : eff page (option nat) :=
  let* next := pollStep sid attempts in
  match next, fuel with
  | Some a, S fuel' => pollPaymentStatus fuel' sid a
  | _, _ => ret next
  end.

(** The effect on [sessionId]. *)
Definition onSessionId (fuel : nat) : eff page (option nat) :=
  match sessionId with
  | Some sid =>
      if truthy_string sid then pollPaymentStatus fuel sid 0
      else setError (Some "Invalid session");; setLoading false;; ret None
  | None => setError (Some "Invalid session");; setLoading false;; ret None
  end.

Definition is_status_request (sid : string) (ev : event) : bool :=
  match ev with
  | Http GET url _ => String.eqb url (status_url sid)
  | _ => false
  end.
End Model.
End OrderConfirmationPage.

(** ** pages/brand/BrandLoginPage.js *)

Module BrandLoginPage.
Section Model.
Variable API_URL : string.

Record form : Type := mkForm { email : string; password : string }.
Record page : Type := mkPage { loading : bool; formData : form }.

Definition setLoading {C} (b : bool) : eff (page * C) unit :=
  setPage (fun p => mkPage b (formData p)).

Definition handleSubmit (r : reply BrandAuth.session)
  : eff (page * BrandAuth.provider) unit :=
  emit PreventDefault;;
  setLoading true;;
  let* pc := getState in
  try_finally
    (try_catch
       (in_provider
          (BrandAuth.login API_URL (email (formData pc.1))
                           (password (formData pc.1)) r);;
        toast ToastSuccess "Welcome to Brand Dashboard!";;
        navigate "/brand/dashboard")
       (fun error =>
          toast ToastError
                (js_or_default truthy_string (detail error)
                               "Invalid credentials")))
    (setLoading false).
End Model.
End BrandLoginPage.

(** ** pages/brand/BrandRegisterPage.js *)

Module BrandRegisterPage.
Section Model.
Variable API_URL : string.

Record form : Type := mkForm {
  name : string;
  email : string;
  mobile : string;
  password : string;
  brand_name : string;
  brand_description : string;
  brand_category : string;
  airport_id : string;
  gst_number : string;
  pan_number : string
}.

Record page : Type := mkPage {
  loading : bool;
  airports : list json;
  formData : form
}.

Definition json_of_form (f : form) : json :=
  JObj [("name", JStr (name f)); ("email", JStr (email f));
        ("mobile", JStr (mobile f)); ("password", JStr (password f));
        ("brand_name", JStr (brand_name f));
        ("brand_description", JStr (brand_description f));
        ("brand_category", JStr (brand_category f));
        ("airport_id", JStr (airport_id f));
        ("gst_number", JStr (gst_number f));
        ("pan_number", JStr (pan_number f))].

Definition setLoading {C} (b : bool) : eff (page * C) unit :=
  setPage (fun p => mkPage b (airports p) (formData p)).

(** [response.data || []] *)
Definition fetchAirports {C} (r : reply (option (list json)))
  : eff (page * C) unit :=
  try_catch
    (let* data := axios GET (API_URL +:+ "/api/airports") None r in
     setPage (fun p => mkPage (loading p) (default [] data) (formData p)))
    (fun error => console_error "Failed to fetch airports:").

Definition handleSubmit (r : reply BrandAuth.session)
  : eff (page * BrandAuth.provider) unit :=
  emit PreventDefault;;
  let* pc := getState in
  if (String.length (password (formData pc.1)) <? 8)%nat then
    toast ToastError "Password must be at least 8 characters"
  else
    setLoading true;;
    try_finally
      (try_catch
         (in_provider
            (BrandAuth.register API_URL (json_of_form (formData pc.1)) r);;
          toast ToastSuccess "Brand registration successful!";;
          navigate "/brand/dashboard")
         (fun error =>
            toast ToastError
                  (js_or_default truthy_string (detail error)
                                 "Registration failed")))
      (setLoading false).
End Model.
End BrandRegisterPage.

(** ** Reference definitions for the further properties *)

Definition admin_keys : list string :=
  ["admin_token"; "admin_user"; "admin_role"; "admin_brand"].

(** The message of an error toast: the detail sent by the server when
    there is one and it is not empty, else the fallback. *)
Definition error_message (e : js_error) (fallback : string) (msg : string)
  : Prop :=
  match detail e with
  | Some d => if decide (d = "") then msg = fallback else msg = d
  | None => msg = fallback
  end.

(** The delivery details pass the checks of the checkout. *)
Definition checkout_ready (p : CheckoutPage.page) : Prop :=
  (CheckoutPage.deliveryType p = "airport" -> terminal_selected p)
  /\ (CheckoutPage.deliveryType p = "home" -> address_filled p).

(** The tier of a member and the minimum of the tier above it. *)
Definition tier_then_minimum : list (string * Z) :=
  [("Bronze", 500); ("Silver", 1000); ("Gold", 2000)].

Definition is_navigation (ev : event) : bool :=
  match ev with
  | Navigate _ => true
  | _ => false
  end.

Fixpoint count_events (f : event -> bool) (l : list event) : nat :=
  match l with
  | [] => 0
  | ev :: rest => (if f ev then 1 else 0) + count_events f rest
  end.

(** The confirmation page has left its loading state with an error
    message or with a paid session. *)
Definition settled (p : OrderConfirmationPage.page) : Prop :=
  OrderConfirmationPage.loading p = false
  /\ (OrderConfirmationPage.error p <> None
      \/ exists d,
          OrderConfirmationPage.paymentStatus p = Some d
          /\ OrderConfirmationPage.payment_status d = Some "paid").

(** * Properties *)

(** ** Sums computed by [reduce] *)

Lemma fold_left_sum_Z {A} (f : A -> Z) (l : list A) (a : Z) :
  fold_left (fun sum x => sum + f x) l a = a + sum_Z (map f l).
Proof.
  revert a; induction l as [|x l IH]; intros a; simpl.
  - lia.
  - rewrite IH. lia.
Qed.

Lemma fold_left_sum_Q {A} (f : A -> Q) (l : list A) (a : Q) :
  (fold_left (fun sum x => sum + f x) l a == a + sum_Q (map f l))%Q.
Proof.
  revert a; induction l as [|x l IH]; intros a; simpl.
  - now rewrite Qplus_0_r.
  - rewrite IH. now rewrite Qplus_assoc.
Qed.

Lemma truthy_Q_false (q : Q) : truthy_Q q = false <-> (q == 0)%Q.
Proof.
  unfold truthy_Q, Qeq. destruct q as [n d]; simpl.
  rewrite negb_false_iff, Z.eqb_eq. lia.
Qed.

Lemma truthy_Q_true (q : Q) : truthy_Q q = true <-> ~ (q == 0)%Q.
Proof.
  rewrite <- truthy_Q_false. destruct (truthy_Q q); intuition congruence.
Qed.

Lemma truthy_Z_default (o : option Z) :
  js_or_default truthy_Z o 0 = default 0 o.
Proof.
  destruct o as [n|]; simpl; [|reflexivity].
  unfold truthy_Z. destruct (Z.eqb_spec n 0); simpl; congruence.
Qed.

(** ** The guest cart *)

Lemma unit_price_follows_rule (item : CartItem) :
  unit_price_rule item (CartPage.unit_price item).
Proof.
  unfold CartPage.unit_price, js_or, js_or_default, truthy_opt.
  destruct (opt_field (product item) discount_price) as [d|] eqn:Hd.
  - destruct (truthy_Q d) eqn:Td.
    + rewrite Td. apply price_discounted; [assumption|].
      now apply truthy_Q_true.
    + apply truthy_Q_false in Td.
      destruct (opt_field (product item) price) as [p|] eqn:Hp.
      * destruct (truthy_Q p) eqn:Tp.
        -- apply price_listed; rewrite ?Hd; simpl; auto.
           now apply truthy_Q_true.
        -- apply price_missing; rewrite ?Hd, ?Hp; simpl; auto.
           now apply truthy_Q_false.
      * apply price_missing; rewrite ?Hd, ?Hp; simpl; auto.
  - destruct (opt_field (product item) price) as [p|] eqn:Hp.
    + destruct (truthy_Q p) eqn:Tp.
      * apply price_listed; rewrite ?Hd; simpl; auto.
        now apply truthy_Q_true.
      * apply price_missing; rewrite ?Hd, ?Hp; simpl; auto.
        now apply truthy_Q_false.
    + apply price_missing; rewrite ?Hd, ?Hp; simpl; auto.
Qed.

(** The rule determines the unit price up to equality of rationals. *)
Lemma unit_price_rule_functional (item : CartItem) (u v : Q) :
  unit_price_rule item u -> unit_price_rule item v -> (u == v)%Q.
Proof.
  intros Hu Hv.
  destruct Hu as [d Hd Nd|p Zd Hp Np|Zd Zp];
    destruct Hv as [d' Hd' Nd'|p' Zd' Hp' Np'|Zd' Zp'];
    repeat match goal with
      | H : absent_or_zero ?o, E : ?o = Some _ |- _ =>
          rewrite E in H; simpl in H
      end;
    try contradiction; try reflexivity; congruence.
Qed.

(** C1 (as amended): for a guest, the displayed cart is derived from
    [localCart]: the lines are the entries in order, each with
    [item_total] equal to the unit price times the quantity, where the
    unit price is the discount price if present and not zero, otherwise
    the price if present and not zero, otherwise 0; the subtotal is the
    sum of the line totals; the earnable points are the sum of
    [loyalty_points_earn] (0 if absent) times the quantity. *)
Theorem displayCart_guest (cart : Cart) (localCart : list CartItem) :
  let d := CartPage.displayCart false cart localCart in
  Forall2 (fun line item =>
             line_item line = item /\
             exists u, unit_price_rule item u /\
                       item_total line = (u * inject_Z (quantity item))%Q)
          (items d) localCart
  /\ (subtotal d == sum_Q (map item_total (items d)))%Q
  /\ loyalty_points_earnable d
     = sum_Z (map (fun item => points_if_present item * quantity item)
                  localCart).
Proof.
  unfold CartPage.displayCart; simpl. split; [|split].
  - induction localCart as [|item l IH]; simpl; constructor; [|exact IH].
    split; [reflexivity|].
    exists (CartPage.unit_price item).
    split; [apply unit_price_follows_rule | reflexivity].
  - rewrite (fold_left_sum_Q
               (fun item =>
                  (CartPage.unit_price item * inject_Z (quantity item))%Q)).
    rewrite Qplus_0_l, map_map. reflexivity.
  - rewrite (fold_left_sum_Z
               (fun item => CartPage.unit_points item * quantity item)).
    rewrite Z.add_0_l. f_equal. apply map_ext. intros item.
    unfold CartPage.unit_points, points_if_present.
    now rewrite truthy_Z_default.
Qed.

(** C1 (as worded) fails: a product with price 50 and a discount price
    that is present and 0 is displayed at 50, not at 0. *)
Lemma displayCart_guest_zero_discount :
  ~ displayed_with_price_if_present
      (CartPage.displayCart false (mkCart [] 0%Q 0) [free_discount_item])
      [free_discount_item].
Proof.
  intros H. inversion H as [|line item ls l [_ Htotal] _]; subst.
  vm_compute in Htotal. discriminate Htotal.
Qed.

Example displayCart_guest_two_items :
  let shirt := mkCartItem "a" 2 None
                 (Some (mkProduct None None None (Some (30 # 1))
                                  (Some (25 # 1)) (Some 3))) in
  let cap := mkCartItem "b" 1 None
               (Some (mkProduct None None None (Some (10 # 1)) None None)) in
  let d := CartPage.displayCart false (mkCart [] 0%Q 0) [shirt; cap] in
  map item_total (items d) = [(50 # 1)%Q; (10 # 1)%Q]
  /\ (subtotal d == 60 # 1)%Q
  /\ loyalty_points_earnable d = 6.
Proof. repeat split. Qed.

(** ** The cart badge *)

(** C8: [cartItemCount] is the sum of the quantities of the lines of the cart
    held by the provider, and is 0 for the empty cart. *)
Theorem cartItemCount_sum :
  (forall p : CartContext.provider,
      CartContext.cartItemCount p
      = sum_Z (map (fun line => quantity (line_item line))
                   (items (CartContext.cart p))))
  /\ (forall (subtotal : Q) (points : Z) (loading : bool),
        CartContext.cartItemCount
          (CartContext.mkProvider (mkCart [] subtotal points) loading) = 0).
Proof.
  unfold CartContext.cartItemCount. split.
  - intros p.
    now rewrite (fold_left_sum_Z (fun line => quantity (line_item line))).
  - reflexivity.
Qed.

Example cartItemCount_three_lines :
  let line q := mkCartLine (mkCartItem "p" q None None) 0%Q in
  CartContext.cartItemCount
    (CartContext.mkProvider (mkCart [line 2; line 1; line 4] 0%Q 0) false)
  = 7.
Proof. reflexivity. Qed.

(** ** Changing a quantity in the guest cart *)

(** C9: for a guest, [handleQuantityChange productId q] with [q < 1]
    changes nothing (no state update, no storage write, no effect at all);
    with [q >= 1] it returns normally, keeps the number and order of the
    entries, sets the quantity of every entry whose [product_id] is
    [productId] to [q] (all other fields kept) and leaves every other
    entry as it was; the new list is what is written under [localCart]. *)
Theorem handleQuantityChange_guest
  (JSON_stringify : list CartItem -> string) (cart : Cart)
  (productId : string) (q : Z) (s : state CartPage.page) :
  let r := CartPage.handleQuantityChange JSON_stringify false cart
                                         productId q s in
  (q < 1 -> r = (Returned tt, s))
  /\ (1 <= q ->
      r.1 = Returned tt
      /\ length (CartPage.localCart (comp r.2))
         = length (CartPage.localCart (comp s))
      /\ (forall (i : nat) (item : CartItem),
            CartPage.localCart (comp s) !! i = Some item ->
            (product_id item = productId ->
             CartPage.localCart (comp r.2) !! i
             = Some (mkCartItem (product_id item) q (variant item)
                                (product item)))
            /\ (product_id item <> productId ->
                CartPage.localCart (comp r.2) !! i = Some item))
      /\ localStorage r.2
         = <["localCart" := JSON_stringify (CartPage.localCart (comp r.2))]>
             (localStorage s)).
Proof.
  unfold CartPage.handleQuantityChange. split.
  - intros Hq. destruct (Z.ltb_spec q 1); [reflexivity | lia].
  - intros Hq. destruct (Z.ltb_spec q 1); [lia|]. cbn.
    split; [reflexivity|]. split; [apply length_map|]. split; [|reflexivity].
    intros i item Hi. rewrite list_lookup_fmap, Hi. simpl.
    split; intros Hid.
    + apply String.eqb_eq in Hid. now rewrite Hid.
    + apply String.eqb_neq in Hid. now rewrite Hid.
Qed.

Lemma handleQuantityChange_guest_witness :
  let s := mkState (CartPage.mkPage [mkCartItem "a" 2 None None;
                                     mkCartItem "b" 1 None None])
                   (∅ : gmap string string) (∅ : gmap string string) [] in
  CartPage.handleQuantityChange (fun _ => "[]") false (mkCart [] 0%Q 0)
                                "b" 0 s = (Returned tt, s)
  /\ CartPage.localCart
       (comp (CartPage.handleQuantityChange (fun _ => "[]") false
                (mkCart [] 0%Q 0) "a" 3 s).2)
     !! 0%nat
     = Some (mkCartItem "a" 3 None None).
Proof.
  intros s. split.
  - apply (handleQuantityChange_guest (fun _ => "[]") (mkCart [] 0%Q 0)
                                      "b" 0 s). lia.
  - destruct (handleQuantityChange_guest (fun _ => "[]") (mkCart [] 0%Q 0)
                                         "a" 3 s) as [_ H].
    destruct H as (_ & _ & H & _); [lia|].
    apply (H 0%nat (mkCartItem "a" 2 None None)); reflexivity.
Defined.

(** ** Order status colours *)

(** C7: [getStatusColor] is defined on every status string: green for
    delivered, red for cancelled, blue for out_for_delivery and amber for
    every other string. *)
Theorem getStatusColor_total :
  OrderDetailPage.getStatusColor "delivered" = "text-green-600"
  /\ OrderDetailPage.getStatusColor "cancelled" = "text-red-600"
  /\ OrderDetailPage.getStatusColor "out_for_delivery" = "text-blue-600"
  /\ (forall status : string,
        status <> "delivered" ->
        status <> "cancelled" ->
        status <> "out_for_delivery" ->
        OrderDetailPage.getStatusColor status = "text-amber-600").
Proof.
  repeat split.
  intros status H1 H2 H3. unfold OrderDetailPage.getStatusColor.
  apply String.eqb_neq in H1, H2, H3. now rewrite H1, H2, H3.
Qed.

Lemma getStatusColor_total_witness :
  OrderDetailPage.getStatusColor "pending" = "text-amber-600".
Proof.
  apply getStatusColor_total; discriminate.
Defined.

(** ** Loyalty progress *)

Lemma currentTierIndex_no_tier
  (loyaltyData : option LoyaltyPage.loyalty_data) :
  (forall t, t ∈ LoyaltyPage.tiers ->
             opt_field loyaltyData LoyaltyPage.tier_name
             <> Some (LoyaltyPage.name t)) ->
  LoyaltyPage.currentTierIndex loyaltyData = -1.
Proof.
  intros Hoff. unfold LoyaltyPage.currentTierIndex, LoyaltyPage.findIndex.
  destruct (opt_field loyaltyData LoyaltyPage.tier_name) as [s|];
    [|reflexivity].
  assert (Hn : forall t, In t LoyaltyPage.tiers ->
                         String.eqb (LoyaltyPage.name t) s = false).
  { intros t Ht. apply String.eqb_neq. intros E. apply (Hoff t).
    - apply list_elem_of_In. exact Ht.
    - now rewrite E. }
  unfold LoyaltyPage.tiers in *.
  cbn [LoyaltyPage.findIndex_from LoyaltyPage.name_is].
  rewrite !Hn by (simpl; auto 6). reflexivity.
Qed.

(** C6: with tier minimums Bronze 0, Silver 500, Gold 1000 and Platinum
    2000, the progress shown to a Bronze, Silver or Gold member is
    [min(100, points / m * 100)] where [m] is the minimum of the next
    tier (500, 1000, 2000) and [points] is the member's loyalty points
    (0 when missing); a Platinum member is shown 100. For a member whose
    tier is missing or is none of the four names, as it is until the
    loyalty data has arrived, no tier matches and the next tier is the
    first one, whose minimum is 0: the progress is then 100 for positive
    points, not a number for 0 points and minus infinity for negative
    points. *)
Theorem progressToNext_formula (user : option LoyaltyPage.user) :
  let points := default 0 (opt_field user LoyaltyPage.loyalty_points) in
  let tier t := Some (LoyaltyPage.mkLoyalty (Some t)) in
  map LoyaltyPage.minPoints LoyaltyPage.tiers = [0; 500; 1000; 2000]
  /\ map LoyaltyPage.name LoyaltyPage.tiers
     = ["Bronze"; "Silver"; "Gold"; "Platinum"]
  /\ LoyaltyPage.progressToNext user (tier "Bronze")
     = Num (Qmin 100 (inject_Z points / inject_Z 500 * 100))
  /\ LoyaltyPage.progressToNext user (tier "Silver")
     = Num (Qmin 100 (inject_Z points / inject_Z 1000 * 100))
  /\ LoyaltyPage.progressToNext user (tier "Gold")
     = Num (Qmin 100 (inject_Z points / inject_Z 2000 * 100))
  /\ LoyaltyPage.progressToNext user (tier "Platinum") = Num 100
  /\ forall loyaltyData : option LoyaltyPage.loyalty_data,
      (forall t, t ∈ LoyaltyPage.tiers ->
                 opt_field loyaltyData LoyaltyPage.tier_name
                 <> Some (LoyaltyPage.name t)) ->
      LoyaltyPage.currentTierIndex loyaltyData = -1
      /\ LoyaltyPage.nextTier loyaltyData = LoyaltyPage.tiers !! 0%nat
      /\ (0 < points ->
          LoyaltyPage.progressToNext user loyaltyData = Num 100)
      /\ (points = 0 ->
          LoyaltyPage.progressToNext user loyaltyData = NaN)
      /\ (points < 0 ->
          LoyaltyPage.progressToNext user loyaltyData = NegInfinity).
Proof.
  intros points tier.
  do 6 (split; [unfold LoyaltyPage.progressToNext;
                rewrite ?truthy_Z_default; reflexivity|]).
  intros loyaltyData Hoff.
  pose proof (currentTierIndex_no_tier loyaltyData Hoff) as Hidx.
  split; [exact Hidx|].
  assert (Hnext : LoyaltyPage.nextTier loyaltyData
                  = LoyaltyPage.tiers !! 0%nat).
  { unfold LoyaltyPage.nextTier. rewrite Hidx. reflexivity. }
  split; [exact Hnext|].
  unfold LoyaltyPage.progressToNext. rewrite Hnext, truthy_Z_default.
  fold points. cbn [LoyaltyPage.tiers lookup list_lookup LoyaltyPage.minPoints].
  unfold js_div. cbn [Z.eqb].
  repeat split; intros Hp.
  - destruct (Z.eqb_spec points 0); [lia|].
    destruct (Z.ltb_spec 0 points); [reflexivity | lia].
  - subst points. rewrite Hp. reflexivity.
  - destruct (Z.eqb_spec points 0); [lia|].
    destruct (Z.ltb_spec 0 points); [lia | reflexivity].
Qed.

(** The page shows the tier of a member without loyalty data as Bronze,
    and the formula for a Bronze member with no points gives 0; the
    progress computed for that member is not a number. *)
Example progressToNext_before_loyalty_data :
  let user := Some (LoyaltyPage.mkUser (Some 0)) in
  LoyaltyPage.progressToNext user None = NaN
  /\ exists q : Q,
      LoyaltyPage.progressToNext
        user (Some (LoyaltyPage.mkLoyalty (Some "Bronze"))) = Num q
      /\ (q == 0)%Q.
Proof. split; [reflexivity|]. eexists. split; reflexivity. Qed.

Example progressToNext_silver_750 :
  exists q : Q,
    LoyaltyPage.progressToNext (Some (LoyaltyPage.mkUser (Some 750)))
      (Some (LoyaltyPage.mkLoyalty (Some "Silver"))) = Num q
    /\ (q == 75 # 1)%Q.
Proof. eexists. split; [vm_compute; reflexivity | reflexivity]. Qed.

Example progressToNext_gold_capped :
  exists q : Q,
    LoyaltyPage.progressToNext (Some (LoyaltyPage.mkUser (Some 2600)))
      (Some (LoyaltyPage.mkLoyalty (Some "Gold"))) = Num q
    /\ (q == 100 # 1)%Q.
Proof. eexists. split; [vm_compute; reflexivity | reflexivity]. Qed.

(** Before the loyalty data arrives no tier matches and the next tier is
    the first one, whose minimum is 0. *)
Example progressToNext_no_tier :
  LoyaltyPage.progressToNext (Some (LoyaltyPage.mkUser (Some 40))) None
  = Num 100
  /\ LoyaltyPage.progressToNext (Some (LoyaltyPage.mkUser (Some 0))) None
     = NaN.
Proof. split; reflexivity. Qed.

(** ** Traces *)

Lemma new_events_app {C A} (m : eff C A) (s : state C) (evs : list event) :
  trace (m s).2 = trace s ++ evs -> new_events m s = evs.
Proof. unfold new_events. intros ->. apply drop_app_length. Qed.

Ltac events :=
  erewrite new_events_app;
  [| cbn; rewrite <- ?app_assoc; simpl; try reflexivity;
     try (symmetry; apply app_nil_r) ].

Ltac no_such_event H :=
  repeat (apply Exists_cons in H; destruct H as [H|H]; [discriminate H|]);
  now apply Exists_nil in H.

Lemma truthy_string_true (s : string) : truthy_string s = true <-> s <> "".
Proof. unfold truthy_string. rewrite negb_true_iff. apply String.eqb_neq. Qed.

(** ** Failures of the cart operations *)

(** C2 (as amended): none of the five cart operations throws, whatever
    the backend answers, and none shows a toast; when the operation's own
    request fails, the error is caught and reported with [console.error]
    only, the operation returns [false] ([fetchCart] returns nothing) and
    the cart is left as it was. *)
Theorem cart_operations_catch_failures
  (API_URL : string) (op : CartContext.operation)
  (r : reply unit) (r' : reply Cart) (s : state CartContext.provider) :
  let m := CartContext.run API_URL op r r' in
  (exists v, (m s).1 = Returned v)
  /\ Forall (fun ev => is_toast ev = false) (new_events m s)
  /\ (CartContext.own_request_fails op r r' = true ->
      (m s).1 = Returned (match op with
                          | CartContext.FetchCart => None
                          | _ => Some false
                          end)
      /\ (exists meth url body msg,
            new_events m s = [Http meth url body; ConsoleError msg])
      /\ CartContext.cart (comp (m s).2) = CartContext.cart (comp s)).
Proof.
  intros m; subst m. split; [|split].
  - destruct op, r as [[]|e], r' as [c|e']; cbn; eauto.
  - destruct op, r as [[]|e], r' as [c|e']; events; repeat constructor.
  - destruct op, r as [[]|e], r' as [c|e']; simpl; try discriminate;
      intros _; (split; [reflexivity|]); (split; [|reflexivity]);
      do 4 eexists; events; reflexivity.
Qed.

Lemma cart_operations_catch_failures_witness :
  (CartContext.run "" CartContext.ClearCart (inr (mkError None))
                   (inl CartContext.empty_cart)
                   (fresh (CartContext.mkProvider CartContext.empty_cart
                                                  false))).1
  = Returned (Some false).
Proof.
  destruct (cart_operations_catch_failures
              "" CartContext.ClearCart (inr (mkError None))
              (inl CartContext.empty_cart)
              (fresh (CartContext.mkProvider CartContext.empty_cart false)))
    as (_ & _ & H).
  apply H. reflexivity.
Defined.

(** C2 (as worded) fails: a failing [fetchCart] is caught, but the only
    effects are the request and a console message; no toast is shown. *)
Lemma fetchCart_failure_not_toasted :
  ~ caught_and_toasted
      (CartContext.run "" CartContext.FetchCart (inl tt)
                       (inr (mkError None)))
      (fresh (CartContext.mkProvider CartContext.empty_cart false)).
Proof.
  intros [_ H]. vm_compute in H. no_such_event H.
Qed.

Example addToCart_failure_trace :
  new_events (CartContext.addToCart "" "p1" None None (inr (mkError None))
                                    (inl CartContext.empty_cart))
             (fresh (CartContext.mkProvider CartContext.empty_cart false))
  = [Http POST "/api/cart/add"
          (Some (JObj [("product_id", JStr "p1");
                       ("quantity", JNum (inject_Z 1));
                       ("variant", JNull)]));
     ConsoleError "Failed to add to cart:"].
Proof. reflexivity. Qed.

(** ** The registration form *)

(** The three ways a submission ends. *)
Lemma handleSubmit_run (r : reply json) (s : state RegisterPage.page) :
  let f := RegisterPage.formData (comp s) in
  let refused msg :=
    (Returned tt,
     mkState (comp s) (localStorage s) (headers s)
             (trace s ++ [PreventDefault; Toast ToastError msg])) in
  let submitted t :=
    (Returned tt,
     mkState (RegisterPage.mkPage false f) (localStorage s) (headers s)
             (trace s ++ PreventDefault :: register_call_of f :: t)) in
  RegisterPage.handleSubmit r s =
  if negb (String.eqb (RegisterPage.password f)
                      (RegisterPage.confirmPassword f))
  then refused "Passwords do not match"
  else if (String.length (RegisterPage.password f) <? 6)%nat
  then refused "Password must be at least 6 characters"
  else match r with
       | inl _ => submitted [Toast ToastSuccess "Welcome to JetShop!";
                             Navigate "/"]
       | inr e => submitted [Toast ToastError
                               (js_or_default truthy_string (detail e)
                                              "Registration failed")]
       end.
Proof.
  unfold RegisterPage.handleSubmit. cbn -[String.eqb Nat.ltb].
  destruct (String.eqb _ _); cbn -[Nat.ltb];
    [destruct (_ <? 6)%nat; [|destruct r]|]; cbn; unfold toast, emit; cbn;
    rewrite <- ?app_assoc; reflexivity.
Qed.

Lemma passwords_accepted_spec (f : RegisterPage.form) :
  passwords_accepted f <->
  negb (String.eqb (RegisterPage.password f) (RegisterPage.confirmPassword f))
  = false
  /\ (String.length (RegisterPage.password f) <? 6)%nat = false.
Proof.
  unfold passwords_accepted.
  rewrite negb_false_iff, String.eqb_eq, Nat.ltb_ge. reflexivity.
Qed.

(** C3: on submit, [register] is called if and only if the password
    equals the confirmation and has at least 6 characters, and then with
    the fields of the form; when a check fails the only effect is one
    error toast, no request is made and the page state, the form
    included, is unchanged. *)
Theorem handleSubmit_validation (r : reply json)
  (s : state RegisterPage.page) :
  let f := RegisterPage.formData (comp s) in
  let m := RegisterPage.handleSubmit r in
  (Exists (fun ev => RegisterPage.is_register_call ev = true)
          (new_events m s)
   <-> passwords_accepted f)
  /\ (passwords_accepted f ->
      exists rest,
        new_events m s = PreventDefault :: register_call_of f :: rest)
  /\ (~ passwords_accepted f ->
      (exists msg, new_events m s = [PreventDefault; Toast ToastError msg])
      /\ (m s).1 = Returned tt
      /\ comp (m s).2 = comp s
      /\ localStorage (m s).2 = localStorage s
      /\ headers (m s).2 = headers s).
Proof.
  intros f m. subst m. unfold new_events.
  rewrite (passwords_accepted_spec f), handleSubmit_run. fold f.
  destruct (negb _); [|destruct (_ <? 6)%nat; [|destruct r]];
    simpl; rewrite drop_app_length.
  all: split;
    [split; [intros H | intros [H1 H2]]
    | split; [intros [H1 H2] | intros H]];
    try discriminate; try (exfalso; apply H; split; reflexivity);
    try (no_such_event H).
  all: try solve [split; reflexivity | eexists; reflexivity].
  all: try solve [split; [eexists; reflexivity | repeat split]].
  all: apply Exists_cons; right; apply Exists_cons; left; reflexivity.
Qed.

Lemma handleSubmit_validation_witness :
  let page pw cf :=
    fresh (RegisterPage.mkPage false
             (RegisterPage.mkForm "Ann" "ann@example.com" "555" pw cf)) in
  (exists rest,
      new_events (RegisterPage.handleSubmit (inl JNull))
                 (page "secret1" "secret1")
      = PreventDefault
          :: ContextCall (CallRegister "Ann" "ann@example.com" "555"
                                       "secret1")
          :: rest)
  /\ comp (RegisterPage.handleSubmit (inl JNull) (page "abc" "abc")).2
     = comp (page "abc" "abc").
Proof.
  intros page. split.
  - destruct (handleSubmit_validation (inl JNull) (page "secret1" "secret1"))
      as (_ & H & _).
    apply H. split; [reflexivity | simpl; lia].
  - destruct (handleSubmit_validation (inl JNull) (page "abc" "abc"))
      as (_ & _ & H).
    destruct H as (_ & _ & H & _); [|exact H].
    intros [_ Hlen]. simpl in Hlen. lia.
Defined.

(** ** Checkout *)

Section Checkout.
Variable API_URL : string.

(** The three ways a checkout ends. *)
Lemma handleCheckout_run (r : reply string) (s : state CheckoutPage.page) :
  let p := comp s in
  let payment :=
    Http POST (API_URL +:+ "/api/checkout/create-payment")
         (Some (CheckoutPage.request_body p)) in
  let refused msg :=
    (Returned tt,
     mkState p (localStorage s) (headers s)
             (trace s ++ [Toast ToastError msg])) in
  let requested loading t :=
    (Returned tt,
     mkState (CheckoutPage.mkPage loading (CheckoutPage.calculating p)
                (CheckoutPage.calculation p) (CheckoutPage.deliveryType p)
                (CheckoutPage.airportDetails p) (CheckoutPage.homeDetails p)
                (CheckoutPage.useLoyaltyPoints p)
                (CheckoutPage.useWalletAmount p))
             (localStorage s) (headers s)
             (trace s ++ payment :: t)) in
  CheckoutPage.handleCheckout API_URL r s =
  if String.eqb (CheckoutPage.deliveryType p) "airport"
     && negb (truthy_string
                (CheckoutPage.terminal (CheckoutPage.airportDetails p)))
  then refused "Please select a terminal"
  else if String.eqb (CheckoutPage.deliveryType p) "home"
          && (negb (truthy_string
                      (CheckoutPage.address (CheckoutPage.homeDetails p)))
              || negb (truthy_string
                         (CheckoutPage.city (CheckoutPage.homeDetails p)))
              || negb (truthy_string
                         (CheckoutPage.pincode
                            (CheckoutPage.homeDetails p))))
  then refused "Please fill in all delivery details"
  else match r with
       | inl url => requested true [Redirect url]
       | inr e =>
           requested false
             [Toast ToastError
                (js_or_default truthy_string (detail e)
                               "Failed to create payment session")]
       end.
Proof.
  unfold CheckoutPage.handleCheckout.
  cbn -[String.eqb truthy_string andb orb negb].
  destruct (_ && _); [|destruct (_ && _); [|destruct r]];
    cbn; unfold toast, emit; cbn; rewrite <- ?app_assoc; reflexivity.
Qed.

(** C5: with delivery type airport the create-payment request is
    issued exactly when a terminal is selected; with delivery type home
    exactly when address, city and pincode are all non-empty; whenever
    the request is not issued, the only effect is one error toast and
    the checkout state is unchanged. *)
Theorem handleCheckout_validation (r : reply string)
  (s : state CheckoutPage.page) :
  let p := comp s in
  let m := CheckoutPage.handleCheckout API_URL r in
  let issued :=
    Exists (fun ev => CheckoutPage.is_payment_request API_URL ev = true)
           (new_events m s) in
  (CheckoutPage.deliveryType p = "airport" ->
   (issued <-> terminal_selected p))
  /\ (CheckoutPage.deliveryType p = "home" ->
      (issued <-> address_filled p))
  /\ (~ issued ->
      (exists msg, new_events m s = [Toast ToastError msg])
      /\ (m s).1 = Returned tt
      /\ comp (m s).2 = comp s
      /\ localStorage (m s).2 = localStorage s
      /\ headers (m s).2 = headers s).
Proof.
  intros p m issued. subst m issued. unfold new_events.
  unfold terminal_selected, address_filled.
  rewrite <- !truthy_string_true.
  rewrite handleCheckout_run. fold p.
  destruct (String.eqb_spec (CheckoutPage.deliveryType p) "airport")
    as [Ha|Ha];
    destruct (String.eqb_spec (CheckoutPage.deliveryType p) "home")
      as [Hh|Hh];
    try (rewrite Ha in Hh; discriminate Hh).
  all: destruct (truthy_string (CheckoutPage.terminal _));
    destruct (truthy_string (CheckoutPage.address _));
    destruct (truthy_string (CheckoutPage.city _));
    destruct (truthy_string (CheckoutPage.pincode _)); try destruct r;
    cbn -[String.eqb]; rewrite drop_app_length.
  all: (split; [intros E | split; [intros E | intros N]]);
    try (rewrite E in Ha; discriminate Ha);
    try (rewrite E in Hh; discriminate Hh);
    try congruence.
  all: try (split; [intros H | intros H]).
  all: try solve [no_such_event H].
  all: try solve [reflexivity | intuition discriminate].
  all: try solve [apply Exists_cons; left; simpl; apply String.eqb_refl].
  all: try solve [exfalso; apply N; apply Exists_cons; left; simpl;
                  apply String.eqb_refl].
  all: repeat split; eexists; reflexivity.
Qed.
(** A delivery type other than airport and home is not validated. The
radio group of the page only offers these two. *)
Lemma handleCheckout_other_delivery_type (r : reply string)
  (s : state CheckoutPage.page) :
  CheckoutPage.deliveryType (comp s) <> "airport" ->
  CheckoutPage.deliveryType (comp s) <> "home" ->
  Exists (fun ev => CheckoutPage.is_payment_request API_URL ev = true)
         (new_events (CheckoutPage.handleCheckout API_URL r) s).
Proof.
  intros Ha Hh. unfold new_events. rewrite handleCheckout_run.
  apply String.eqb_neq in Ha, Hh. rewrite Ha, Hh. simpl.
  destruct r; simpl; rewrite drop_app_length;
    apply Exists_cons; left; simpl; apply String.eqb_refl.
Qed.
End Checkout.

Lemma handleCheckout_validation_witness :
  let s := fresh CheckoutPage.initial in
  let home :=
    fresh (CheckoutPage.mkPage false false None "home"
             (CheckoutPage.mkAirport "" "" "")
             (CheckoutPage.mkHome "1 Main St" "Pune" "411001" "") 0 0%Q) in
  ~ Exists (fun ev => CheckoutPage.is_payment_request "" ev = true)
      (new_events (CheckoutPage.handleCheckout "" (inl "https://pay")) s)
  /\ Exists (fun ev => CheckoutPage.is_payment_request "" ev = true)
       (new_events (CheckoutPage.handleCheckout "" (inl "https://pay")) home)
  /\ comp (CheckoutPage.handleCheckout "" (inl "https://pay") s).2 = comp s.
Proof.
  intros s home.
  destruct (handleCheckout_validation "" (inl "https://pay") s)
    as (Hair & _ & Hnot).
  destruct (handleCheckout_validation "" (inl "https://pay") home)
    as (_ & Hhome & _).
  assert (Hs : ~ Exists
                 (fun ev => CheckoutPage.is_payment_request "" ev = true)
                 (new_events
                    (CheckoutPage.handleCheckout "" (inl "https://pay")) s)).
  { intros H. apply (Hair eq_refl) in H. apply H. reflexivity. }
  split; [exact Hs|]. split.
  - apply (Hhome eq_refl). repeat split; discriminate.
  - apply Hnot. exact Hs.
Defined.

(** ** A failing profile request logs out *)

(** C10: in the brand and logistics providers a failing profile request
    ends in a logout: the token key is removed from the storage, the
    [Authorization] default header is deleted, user and token are [null],
    so [isAuthenticated] is false; the same holds in the admin provider
    whenever its profile request, chosen by the stored role, is sent and
    fails. *)
Theorem fetchProfile_failure_logs_out (API_URL : string) :
  (forall (e : js_error) (s : state BrandAuth.provider),
      let r := BrandAuth.fetchProfile API_URL (inr e) s in
      r.1 = Returned tt
      /\ logged_out "brand_token" BrandAuth.user BrandAuth.token r.2
      /\ BrandAuth.isAuthenticated (comp r.2) = false)
  /\ (forall (e : js_error) (s : state LogisticsAuth.provider),
        let r := LogisticsAuth.fetchProfile API_URL (inr e) s in
        r.1 = Returned tt
        /\ logged_out "logistics_token" LogisticsAuth.user
                      LogisticsAuth.token r.2
        /\ LogisticsAuth.isAuthenticated (comp r.2) = false)
  /\ (forall r_super r_brand (s : state AdminAuth.provider),
        admin_fetch_rejected s r_super r_brand ->
        let r := AdminAuth.fetchProfile API_URL r_super r_brand s in
        r.1 = Returned tt
        /\ logged_out "admin_token" AdminAuth.user AdminAuth.token r.2
        /\ AdminAuth.isAuthenticated (comp r.2) = false).
Proof.
  unfold logged_out. split; [|split].
  - intros e s. cbn. rewrite !lookup_delete_eq. repeat split.
  - intros e s. cbn. rewrite !lookup_delete_eq. repeat split.
  - intros r_super r_brand s [[Hrole Hr]|[Hrole Hr]];
      cbv beta iota zeta
          delta [AdminAuth.fetchProfile try_finally try_catch bind
                 localStorage_getItem];
      rewrite Hrole;
      [destruct r_super as [?|e] | destruct r_brand as [?|e]];
      try discriminate Hr; cbn.
    all: repeat split.
    all: try apply lookup_delete_eq.
    all: rewrite !lookup_delete_ne by discriminate; apply lookup_delete_eq.
Qed.

Lemma fetchProfile_failure_logs_out_witness :
  let s :=
    mkState (AdminAuth.mkProvider None None None (Some "t0") true)
            (<["admin_role" := "super_admin"]>
               (<["admin_token" := "t0"]> (∅ : gmap string string)))
            (<["Authorization" := "Bearer t0"]> (∅ : gmap string string))
            [] in
  let r := AdminAuth.fetchProfile "" (inr (mkError None))
                                  (inr (mkError None)) s in
  localStorage r.2 !! "admin_token" = None
  /\ AdminAuth.isAuthenticated (comp r.2) = false.
Proof.
  intros s r.
  destruct (fetchProfile_failure_logs_out "") as (_ & _ & H).
  destruct (H (inr (mkError None)) (inr (mkError None)) s)
    as (_ & (Hkey & _) & Hauth).
  - left. split; [apply lookup_insert_eq | reflexivity].
  - split; [exact Hkey | exact Hauth].
Defined.

(** With no stored role the admin provider sends no profile request at
    all and keeps the session. *)
Example admin_fetchProfile_without_role :
  let s :=
    mkState (AdminAuth.mkProvider None None None (Some "t0") true)
            (<["admin_token" := "t0"]> (∅ : gmap string string))
            (∅ : gmap string string) [] in
  let r := AdminAuth.fetchProfile "" (inr (mkError None))
                                  (inr (mkError None)) s in
  new_events (AdminAuth.fetchProfile "" (inr (mkError None))
                                     (inr (mkError None))) s
  = [StorageGet "admin_role"]
  /\ AdminAuth.token (comp r.2) = Some "t0".
Proof. split; reflexivity. Qed.

(** ** Storage keys *)

Section TouchesOnly.
Context (keys : list string) {C : Type}.

Lemma touches_quiet {A} (m : eff C A) :
  (forall s, trace (m s).2 = trace s) -> touches_only keys m.
Proof.
  intros H s. exists []. split; [|constructor].
  rewrite H. symmetry. apply app_nil_r.
Qed.

Lemma touches_ret {A} (a : A) : touches_only keys (@ret C A a).
Proof. now apply touches_quiet. Qed.

Lemma touches_throw {A} (e : js_error) : touches_only keys (@throw C A e).
Proof. now apply touches_quiet. Qed.

Lemma touches_setState (f : C -> C) : touches_only keys (setState f).
Proof. now apply touches_quiet. Qed.

Lemma touches_getState : touches_only keys (@getState C).
Proof. now apply touches_quiet. Qed.

Lemma touches_set_default_header (h v : string) :
  touches_only keys (@set_default_header C h v).
Proof. now apply touches_quiet. Qed.

Lemma touches_delete_default_header (h : string) :
  touches_only keys (@delete_default_header C h).
Proof. now apply touches_quiet. Qed.

Lemma touches_emit (ev : event) :
  storage_key ev = None -> touches_only keys (@emit C ev).
Proof.
  intros Hk s. exists [ev]. split; [reflexivity|].
  unfold storage_keys. simpl. rewrite Hk. constructor.
Qed.

Lemma touches_getItem (key : string) :
  key ∈ keys -> touches_only keys (@localStorage_getItem C key).
Proof.
  intros Hk s. exists [StorageGet key]. split; [reflexivity|].
  repeat constructor. exact Hk.
Qed.

Lemma touches_setItem (key value : string) :
  key ∈ keys -> touches_only keys (@localStorage_setItem C key value).
Proof.
  intros Hk s. exists [StorageSet key value]. split; [reflexivity|].
  repeat constructor. exact Hk.
Qed.

Lemma touches_removeItem (key : string) :
  key ∈ keys -> touches_only keys (@localStorage_removeItem C key).
Proof.
  intros Hk s. exists [StorageRemove key]. split; [reflexivity|].
  repeat constructor. exact Hk.
Qed.

Lemma touches_bind {A B} (m : eff C A) (k : A -> eff C B) :
  touches_only keys m -> (forall a, touches_only keys (k a)) ->
  touches_only keys (bind m k).
Proof.
  intros Hm Hk s. unfold bind. destruct (Hm s) as (e1 & E1 & F1).
  destruct (m s) as [[a|e] s1]; simpl in E1.
  - destruct (Hk a s1) as (e2 & E2 & F2). exists (e1 ++ e2). split.
    + rewrite E2, E1. symmetry. apply app_assoc.
    + unfold storage_keys. rewrite omap_app. apply Forall_app.
      split; assumption.
  - exists e1. split; assumption.
Qed.

Lemma touches_try_catch {A} (m : eff C A) (h : js_error -> eff C A) :
  touches_only keys m -> (forall e, touches_only keys (h e)) ->
  touches_only keys (try_catch m h).
Proof.
  intros Hm Hh s. unfold try_catch. destruct (Hm s) as (e1 & E1 & F1).
  destruct (m s) as [[a|e] s1]; simpl in E1.
  - exists e1. split; assumption.
  - destruct (Hh e s1) as (e2 & E2 & F2). exists (e1 ++ e2). split.
    + rewrite E2, E1. symmetry. apply app_assoc.
    + unfold storage_keys. rewrite omap_app. apply Forall_app.
      split; assumption.
Qed.

Lemma touches_try_finally {A} (m : eff C A) (f : eff C unit) :
  touches_only keys m -> touches_only keys f ->
  touches_only keys (try_finally m f).
Proof.
  intros Hm Hf s. unfold try_finally. destruct (Hm s) as (e1 & E1 & F1).
  destruct (m s) as [r s1]; simpl in E1.
  destruct (Hf s1) as (e2 & E2 & F2). exists (e1 ++ e2). split.
  - destruct (f s1) as [[[]|e] s2]; simpl in *; rewrite E2, E1;
      symmetry; apply app_assoc.
  - unfold storage_keys. rewrite omap_app. apply Forall_app.
    split; assumption.
Qed.
End TouchesOnly.

Lemma touches_forEach (keys : list string) {A} (l : list A)
  (f : A -> eff CartPage.page unit) :
  (forall x, touches_only keys (f x)) ->
  touches_only keys (CartPage.forEach l f).
Proof.
  intros Hf. induction l as [|x l IH]; simpl.
  - apply touches_ret.
  - apply touches_bind; [apply Hf | intros _; exact IH].
Qed.

Ltac touches :=
  repeat lazymatch goal with
    | |- touches_only _ (ret _) => apply touches_ret
    | |- touches_only _ (throw _) => apply touches_throw
    | |- touches_only _ (setState _) => apply touches_setState
    | |- touches_only _ getState => apply touches_getState
    | |- touches_only _ (set_default_header _ _) =>
        apply touches_set_default_header
    | |- touches_only _ (delete_default_header _) =>
        apply touches_delete_default_header
    | |- touches_only _ (emit _) => apply touches_emit; reflexivity
    | |- touches_only _ (localStorage_getItem _) =>
        apply touches_getItem; repeat constructor
    | |- touches_only _ (localStorage_setItem _ _) =>
        apply touches_setItem; repeat constructor
    | |- touches_only _ (localStorage_removeItem _) =>
        apply touches_removeItem; repeat constructor
    | |- touches_only _ (bind _ _) => apply touches_bind; [|intros ?]
    | |- touches_only _ (try_catch _ _) =>
        apply touches_try_catch; [|intros ?]
    | |- touches_only _ (try_finally _ _) => apply touches_try_finally
    | |- touches_only _ (CartPage.forEach _ _) =>
        apply touches_forEach; intros ?
    | |- touches_only _ (if ?b then _ else _) => destruct b
    | |- touches_only _ (match ?x with _ => _ end) => destruct x
    end.

Create HintDb handlers.
#[local] Hint Unfold void axios console_error toast navigate
  BrandAuth.mount BrandAuth.render BrandAuth.onTokenChange
  BrandAuth.fetchProfile BrandAuth.login BrandAuth.register
  BrandAuth.start_session BrandAuth.logout BrandAuth.setUser
  BrandAuth.setBrand BrandAuth.setToken BrandAuth.setLoading
  LogisticsAuth.mount LogisticsAuth.render LogisticsAuth.onTokenChange
  LogisticsAuth.fetchProfile LogisticsAuth.login LogisticsAuth.register
  LogisticsAuth.start_session LogisticsAuth.logout LogisticsAuth.setUser
  LogisticsAuth.setPartner LogisticsAuth.setToken LogisticsAuth.setLoading
  AdminAuth.mount AdminAuth.render AdminAuth.onTokenChange
  AdminAuth.fetchProfile AdminAuth.login AdminAuth.logout AdminAuth.parse
  AdminAuth.setUser AdminAuth.setBrand AdminAuth.setRole AdminAuth.setToken
  AdminAuth.setLoading
  CartPage.loadLocalCart CartPage.mergeLocalCart CartPage.parse_stored
  CartPage.handleQuantityChange CartPage.handleRemove CartPage.handleCheckout
  CartPage.setLocalCart
  CartContext.onAuthChange CartContext.run CartContext.some_bool
  CartContext.fetchCart CartContext.addToCart CartContext.removeFromCart
  CartContext.updateCart CartContext.clearCart CartContext.setCart
  CartContext.setLoading
  RegisterPage.handleSubmit RegisterPage.register RegisterPage.setLoading
  CheckoutPage.redirectIfEmpty CheckoutPage.recalculate
  CheckoutPage.calculateTotals CheckoutPage.handleCheckout
  CheckoutPage.setLoading CheckoutPage.setCalculating
  CheckoutPage.setCalculation
  : handlers.

(** C4 (as amended): every read or write of [localStorage] made by an
    operation of the brand, logistics and admin auth providers, the cart
    page, the cart provider, the registration page and the checkout page
    uses one of the seven keys [admin_token], [admin_user], [admin_role],
    [admin_brand], [brand_token], [logistics_token] and [localCart]. *)
Theorem storage_keys_of_frontend
  (API_URL : string) (stringify_cart : list CartItem -> string)
  (parse_cart : string -> option (list CartItem))
  (JSON_stringify : json -> string) (JSON_parse : string -> option json)
  (c : Frontend.component) (op : Frontend.operation c)
  (s : state (Frontend.component_state c)) :
  Forall (fun k => k ∈ used_keys)
         (storage_keys
            (new_events
               (Frontend.run API_URL stringify_cart parse_cart JSON_stringify
                             JSON_parse c op) s)).
Proof.
  assert (H : touches_only used_keys
                (Frontend.run API_URL stringify_cart parse_cart JSON_stringify
                              JSON_parse c op)).
  { destruct c; cbv [Frontend.operation] in op;
      cbv [Frontend.run Frontend.component_state]; destruct op;
      cbv [Frontend.run_brand Frontend.run_logistics Frontend.run_admin
           Frontend.run_cart_page Frontend.run_cart_provider
           Frontend.run_checkout];
      autounfold with handlers; touches. }
  destruct (H s) as (evs & E & F). now rewrite (new_events_app _ _ evs E).
Qed.

(** C4 (as worded) fails: the admin logout also removes [admin_user],
    [admin_role] and [admin_brand], which are not among the four keys
    [admin_token], [brand_token], [logistics_token] and [localCart]. *)
Lemma admin_logout_other_keys :
  ~ Forall (fun k => k ∈ documented_keys)
      (storage_keys
         (new_events
            (Frontend.run "" (fun _ => "") (fun _ => None) (fun _ => "")
                          (fun _ => None) Frontend.AdminAuthProvider
                          Frontend.AdminLogout)
            (fresh (AdminAuth.mkProvider None None None None false)))).
Proof.
  intros H. vm_compute in H.
  apply Forall_cons in H as [_ H]. apply Forall_cons in H as [H _].
  apply list_elem_of_In in H. simpl in H. intuition discriminate.
Qed.

Example admin_logout_keys :
  storage_keys
    (new_events AdminAuth.logout
       (fresh (AdminAuth.mkProvider None None None None false)))
  = ["admin_token"; "admin_user"; "admin_role"; "admin_brand"].
Proof. reflexivity. Qed.

(** Each of the seven keys is used by some operation. *)
Example used_keys_all_used :
  let keys_of {C} (m : eff C unit) (c : C) :=
    storage_keys (new_events m (fresh c)) in
  keys_of AdminAuth.logout (AdminAuth.mkProvider None None None None false)
  ++ keys_of BrandAuth.logout (BrandAuth.mkProvider None None None false)
  ++ keys_of LogisticsAuth.logout
             (LogisticsAuth.mkProvider None None None false)
  ++ keys_of (CartPage.handleRemove (fun _ => "[]") false "p" Undefined)
             (CartPage.mkPage [])
  = used_keys.
Proof. reflexivity. Qed.

(** * Further properties *)

Ltac run_monad :=
  cbv beta iota zeta
      delta [bind ret throw try_catch try_finally emit setState getState
             localStorage_getItem localStorage_setItem
             localStorage_removeItem set_default_header
             delete_default_header axios console_error toast navigate
             external in_provider setPage];
  cbn [comp localStorage headers trace fst snd].

(** ** More on the guest cart *)

(** X1: for a guest, [handleRemove productId productName] returns
    normally and keeps exactly the entries whose [product_id] differs from
    [productId], each as often as it occurred and in the same order; the
    kept list is written under [localCart], and one success toast names
    the product: the name itself, or the word undefined or null when the
    name is [undefined] or [null]. *)
Theorem handleRemove_guest
  (JSON_stringify : list CartItem -> string)
  (productId : string) (productName : nullable string)
  (s : state CartPage.page) :
  let m := CartPage.handleRemove JSON_stringify false productId productName in
  let kept := CartPage.localCart (comp (m s).2) in
  let shown :=
    match productName with
    | Present n => n
    | Undefined => "undefined"
    | Null => "null"
    end in
  (m s).1 = Returned tt
  /\ kept = filter (fun item : CartItem => product_id item <> productId)
                   (CartPage.localCart (comp s))
  /\ (forall item : CartItem,
        item ∈ kept <->
        item ∈ CartPage.localCart (comp s) /\ product_id item <> productId)
  /\ kept `sublist_of` CartPage.localCart (comp s)
  /\ localStorage (m s).2
     = <["localCart" := JSON_stringify kept]> (localStorage s)
  /\ new_events m s
     = [StorageSet "localCart" (JSON_stringify kept);
        Toast ToastSuccess ("Removed " +:+ shown +:+ " from cart")].
Proof.
  intros m kept shown. subst m kept shown. cbn.
  split; [reflexivity|].
  split; [|split; [|split; [apply sublist_filter|split]]].
  - apply list_filter_iff. intros item.
    destruct (String.eqb_spec (product_id item) productId); simpl;
      intuition.
  - intros item. rewrite list_elem_of_filter.
    destruct (String.eqb_spec (product_id item) productId); simpl;
      intuition.
  - reflexivity.
  - events. destruct productName; reflexivity.
Qed.

(** Two equal entries of another product are both kept. *)
Example handleRemove_guest_keeps_duplicates :
  let x := mkCartItem "a" 1 None None in
  let m := CartPage.handleRemove (fun _ => "") false "b" Null in
  CartPage.localCart
    (comp (m (fresh (CartPage.mkPage [x; mkCartItem "b" 2 None None; x]))).2)
  = [x; x]
  /\ last (new_events m (fresh (CartPage.mkPage [])))
     = Some (Toast ToastSuccess "Removed null from cart").
Proof. split; reflexivity. Qed.

(** X2: for a signed-in customer, [handleQuantityChange] with a quantity
    below 1 does nothing; otherwise its only effect is one [updateCart]
    call with one entry per line of the server cart, in order, each with
    the line's product and variant, the new quantity on the lines of
    [productId] and the old quantity on the others. *)
Theorem handleQuantityChange_signed_in
  (JSON_stringify : list CartItem -> string) (cart : Cart)
  (productId : string) (q : Z) (s : state CartPage.page) :
  let m := CartPage.handleQuantityChange JSON_stringify true cart
                                         productId q in
  (q < 1 -> m s = (Returned tt, s))
  /\ (1 <= q ->
      exists entries : list CartEntry,
        m s = (Returned tt,
               mkState (comp s) (localStorage s) (headers s)
                       (trace s ++ [ContextCall (CallUpdateCart entries)]))
        /\ length entries = length (items cart)
        /\ forall (i : nat) (line : CartLine),
            items cart !! i = Some line ->
            exists e : CartEntry,
              entries !! i = Some e
              /\ entry_product_id e = product_id (line_item line)
              /\ entry_variant e = variant (line_item line)
              /\ (product_id (line_item line) = productId ->
                  entry_quantity e = q)
              /\ (product_id (line_item line) <> productId ->
                  entry_quantity e = quantity (line_item line))).
Proof.
  intros m. subst m. unfold CartPage.handleQuantityChange. split.
  - intros Hq. destruct (Z.ltb_spec q 1); [reflexivity | lia].
  - intros Hq. destruct (Z.ltb_spec q 1); [lia|]. cbn.
    eexists. split; [reflexivity|]. split; [apply length_map|].
    intros i line Hi. rewrite list_lookup_fmap, Hi. simpl.
    eexists. split; [reflexivity|].
    destruct (String.eqb_spec (product_id (line_item line)) productId);
      simpl; repeat split; intros; congruence.
Qed.

Lemma handleQuantityChange_signed_in_witness :
  let cart :=
    mkCart [mkCartLine (mkCartItem "a" 2 (Some "red") None) 0%Q] 0%Q 0 in
  exists entries,
    new_events (CartPage.handleQuantityChange (fun _ => "") true cart "a" 5)
               (fresh (CartPage.mkPage []))
    = [ContextCall (CallUpdateCart entries)]
    /\ length entries = 1%nat.
Proof.
  intros cart.
  destruct (handleQuantityChange_signed_in
              (fun _ => "") cart "a" 5 (fresh (CartPage.mkPage [])))
    as [_ H].
  destruct H as (entries & Hrun & Hlen & _); [lia|].
  exists entries. split; [|exact Hlen].
  unfold new_events. rewrite Hrun. reflexivity.
Defined.

Lemma forEach_events {A} (f : A -> event) (l : list A)
  (s : state CartPage.page) :
  CartPage.forEach l (fun x => emit (f x)) s
  = (Returned tt,
     mkState (comp s) (localStorage s) (headers s) (trace s ++ map f l)).
Proof.
  revert s. induction l as [|x l IH]; intros s; simpl.
  - rewrite app_nil_r. now destruct s.
  - cbn. rewrite IH. simpl. now rewrite <- app_assoc.
Qed.

(** X3: the merge effect does nothing for a guest. For a signed-in customer
    it reads [localCart]; if the text does not parse it throws and keeps
    the key; if the stored cart is empty nothing else happens; otherwise
    it calls [updateCart] once per stored entry, each time with the lines
    of the same server cart plus that entry without its variant, then
    removes [localCart] and calls [fetchCart]. *)
Theorem mergeLocalCart_on_login
  (JSON_parse : string -> option (list CartItem)) (cart : Cart)
  (s : state CartPage.page) :
  let text := js_or_default truthy_string (localStorage s !! "localCart")
                            "[]" in
  let m := CartPage.mergeLocalCart JSON_parse true cart in
  let update (item : CartItem) :=
    ContextCall
      (CallUpdateCart
         (map CartPage.entry_of_line (items cart)
            ++ [mkCartEntry (product_id item) (quantity item) None])) in
  CartPage.mergeLocalCart JSON_parse false cart s = (Returned tt, s)
  /\ (JSON_parse text = None ->
      exists e, (m s).1 = Thrown e
                /\ localStorage (m s).2 = localStorage s
                /\ new_events m s = [StorageGet "localCart"])
  /\ (JSON_parse text = Some [] ->
      (m s).1 = Returned tt
      /\ localStorage (m s).2 = localStorage s
      /\ new_events m s = [StorageGet "localCart"])
  /\ (forall stored : list CartItem,
        JSON_parse text = Some stored -> stored <> [] ->
        (m s).1 = Returned tt
        /\ comp (m s).2 = comp s
        /\ localStorage (m s).2 = delete "localCart" (localStorage s)
        /\ new_events m s
           = StorageGet "localCart" :: map update stored
               ++ [StorageRemove "localCart"; ContextCall CallFetchCart]).
Proof.
  intros text m update. subst m. split; [reflexivity|].
  unfold new_events, CartPage.mergeLocalCart, CartPage.parse_stored.
  cbv beta iota zeta delta [bind localStorage_getItem]. fold text.
  split; [|split].
  - intros ->. simpl. eexists. rewrite drop_app_length. repeat split.
  - intros ->. simpl. rewrite drop_app_length. repeat split.
  - intros stored -> Hne. simpl.
    destruct stored as [|item stored]; [congruence|].
    cbn -[CartPage.forEach].
    rewrite (forEach_events update (item :: stored)). cbn.
    rewrite <- !app_assoc, drop_app_length. repeat split.
Qed.


Lemma mergeLocalCart_on_login_witness :
  let stored := [mkCartItem "a" 2 (Some "red") None] in
  let s :=
    mkState (CartPage.mkPage [])
            (<["localCart" := "[a]"]> (∅ : gmap string string))
            (∅ : gmap string string) [] in
  localStorage
    (CartPage.mergeLocalCart (fun _ => Some stored) true (mkCart [] 0%Q 0)
                             s).2
  = delete "localCart" (localStorage s).
Proof.
  intros stored s.
  destruct (mergeLocalCart_on_login (fun _ => Some stored) (mkCart [] 0%Q 0)
                                    s) as (_ & _ & _ & H).
  destruct (H stored) as (_ & _ & Hst & _);
    [reflexivity | discriminate | exact Hst].
Defined.

(** X4: a guest cart survives a reload: after [handleQuantityChange] (with a
    quantity of at least 1) or [handleRemove], whenever the text written
    is not empty and parses back to the list, the load effect of a fresh
    page restores exactly the list the page held. *)
Theorem guest_cart_survives_reload
  (JSON_stringify : list CartItem -> string)
  (JSON_parse : string -> option (list CartItem))
  (s : state CartPage.page) (reloaded : CartPage.page) :
  let reload (s1 : state CartPage.page) :=
    CartPage.loadLocalCart JSON_parse false
      (mkState reloaded (localStorage s1) (headers s1) (trace s1)) in
  let restored (s1 : state CartPage.page) :=
    JSON_stringify (CartPage.localCart (comp s1)) <> "" ->
    JSON_parse (JSON_stringify (CartPage.localCart (comp s1)))
    = Some (CartPage.localCart (comp s1)) ->
    (reload s1).1 = Returned tt
    /\ CartPage.localCart (comp (reload s1).2)
       = CartPage.localCart (comp s1) in
  (forall (cart : Cart) (productId : string) (q : Z),
      1 <= q ->
      restored (CartPage.handleQuantityChange JSON_stringify false cart
                                              productId q s).2)
  /\ (forall (productId : string) (productName : nullable string),
        restored (CartPage.handleRemove JSON_stringify false productId
                                        productName s).2).
Proof.
  intros reload restored.
  assert (Hload : forall s1 : state CartPage.page,
             localStorage s1 !! "localCart"
             = Some (JSON_stringify (CartPage.localCart (comp s1))) ->
             restored s1).
  { intros s1 Hst Hne Hparse. subst reload.
    unfold CartPage.loadLocalCart, CartPage.parse_stored.
    cbv beta iota zeta delta [negb bind localStorage_getItem].
    simpl. rewrite Hst. simpl.
    apply truthy_string_true in Hne. rewrite Hne, Hparse.
    split; reflexivity. }
  split.
  - intros cart pid q Hq. apply Hload.
    unfold CartPage.handleQuantityChange.
    destruct (Z.ltb_spec q 1); [lia|]. cbn. apply lookup_insert_eq.
  - intros pid name. apply Hload. cbn. apply lookup_insert_eq.
Qed.

Lemma guest_cart_survives_reload_witness :
  let saved := [mkCartItem "a" 3 None None] in
  let s1 :=
    (CartPage.handleQuantityChange (fun _ => "[a3]") false (mkCart [] 0%Q 0)
       "a" 3 (fresh (CartPage.mkPage [mkCartItem "a" 2 None None]))).2 in
  CartPage.localCart
    (comp (CartPage.loadLocalCart (fun _ => Some saved) false
             (mkState (CartPage.mkPage []) (localStorage s1) (headers s1)
                      (trace s1))).2)
  = saved.
Proof.
  intros saved s1.
  destruct (guest_cart_survives_reload
              (fun _ => "[a3]") (fun _ => Some saved)
              (fresh (CartPage.mkPage [mkCartItem "a" 2 None None]))
              (CartPage.mkPage [])) as [H _].
  apply (H (mkCart [] 0%Q 0) "a" 3); [lia | discriminate | reflexivity].
Defined.


(** ** More on the cart provider *)

(** X5: [addToCart], [removeFromCart], [updateCart] and [clearCart] return
    [true] exactly when their own request succeeds, whatever happens to
    the refresh; when the change succeeds and the refresh fails, the old
    cart stays in place and the last effect is the console message of
    [fetchCart]. *)
Theorem cart_operation_result
  (API_URL : string) (op : CartContext.operation)
  (r : reply unit) (r' : reply Cart) (s : state CartContext.provider) :
  let m := CartContext.run API_URL op r r' in
  op <> CartContext.FetchCart ->
  (m s).1 = Returned (Some (negb (rejected r)))
  /\ (rejected r = false -> rejected r' = true ->
      op <> CartContext.ClearCart ->
      CartContext.cart (comp (m s).2) = CartContext.cart (comp s)
      /\ last (new_events m s) = Some (ConsoleError "Failed to fetch cart:")).
Proof.
  intros m Hop; subst m.
  destruct op, r as [[]|e], r' as [c|e']; try congruence;
    (split; [reflexivity|]); simpl; intros; try discriminate;
    try congruence; (split; [reflexivity|]); events; reflexivity.
Qed.

Lemma cart_operation_result_witness :
  let m := CartContext.run "" (CartContext.RemoveFromCart "p1") (inl tt)
                           (inr (mkError None)) in
  let s := fresh (CartContext.mkProvider CartContext.empty_cart false) in
  (m s).1 = Returned (Some true)
  /\ last (new_events m s) = Some (ConsoleError "Failed to fetch cart:").
Proof.
  intros m s.
  destruct (cart_operation_result "" (CartContext.RemoveFromCart "p1")
              (inl tt) (inr (mkError None)) s) as [H1 H2];
    [discriminate|].
  split; [exact H1|]. apply H2; [reflexivity | reflexivity | discriminate].
Defined.

(** X6: when the change and the refresh both succeed, the provider holds
    the cart sent by the server, [loading] is false and the badge count
    is the sum of its quantities; a successful [clearCart] empties the
    cart and the badge with its one DELETE request, without a refresh. *)
Theorem cart_refresh_after_change
  (API_URL : string) (op : CartContext.operation) (fetched : Cart)
  (s : state CartContext.provider) :
  let m := CartContext.run API_URL op (inl tt) (inl fetched) in
  let after := comp (m s).2 in
  (op <> CartContext.ClearCart ->
   CartContext.cart after = fetched
   /\ CartContext.loading after = false
   /\ CartContext.cartItemCount after
      = sum_Z (map (fun line => quantity (line_item line)) (items fetched)))
  /\ (op = CartContext.ClearCart ->
      CartContext.cart after = CartContext.empty_cart
      /\ CartContext.cartItemCount after = 0
      /\ new_events m s
         = [Http DELETE (API_URL +:+ "/api/cart") None]).
Proof.
  intros m after. subst m after. split.
  - intros Hop. destruct op as [|p qty v|p|es|]; try congruence; cbn;
      (split; [reflexivity|]); (split; [reflexivity|]);
      unfold CartContext.cartItemCount; simpl;
      now rewrite (fold_left_sum_Z (fun line => quantity (line_item line))).
  - intros ->. cbn. split; [reflexivity|]. split; [reflexivity|].
    events. reflexivity.
Qed.


Lemma cart_refresh_after_change_witness :
  let line := mkCartLine (mkCartItem "a" 3 None None) 0%Q in
  CartContext.cartItemCount
    (comp (CartContext.run "" (CartContext.RemoveFromCart "b") (inl tt)
             (inl (mkCart [line] 0%Q 0))
             (fresh (CartContext.mkProvider CartContext.empty_cart false))).2)
  = 3
  /\ CartContext.cartItemCount
       (comp (CartContext.run "" CartContext.ClearCart (inl tt)
                (inl (mkCart [line] 0%Q 0))
                (fresh (CartContext.mkProvider (mkCart [line] 0%Q 0)
                                               false))).2)
     = 0.
Proof.
  intros line. split.
  - destruct (cart_refresh_after_change
                "" (CartContext.RemoveFromCart "b") (mkCart [line] 0%Q 0)
                (fresh (CartContext.mkProvider CartContext.empty_cart false)))
      as [H _].
    destruct H as (_ & _ & H); [discriminate|]. rewrite H. reflexivity.
  - destruct (cart_refresh_after_change
                "" CartContext.ClearCart (mkCart [line] 0%Q 0)
                (fresh (CartContext.mkProvider (mkCart [line] 0%Q 0) false)))
      as [_ H].
    destruct H as (_ & H & _); [reflexivity | exact H].
Defined.


(** ** More on the auth providers *)

(** X7: unlike the cart operations, [login] and [register] of the brand and
    logistics providers and [login] of the admin provider do not catch a
    rejected request: the error is thrown to the caller, and storage,
    default headers and provider state are as before; the only effect is
    the POST request itself, to the endpoint of the provider, carrying the
    credentials (for [register], the data given). *)
Theorem login_failure_keeps_state (API_URL : string)
  (JSON_stringify : json -> string) (email password : string)
  (data : json) (e : js_error) :
  let failed {C A} (m : eff C A) (path : string) (body : json) :=
    forall s : state C,
      m s = (Thrown e,
             mkState (comp s) (localStorage s) (headers s)
                     (trace s ++ [Http POST (API_URL +:+ path) (Some body)]))
  in
  let credentials :=
    JObj [("email", JStr email); ("password", JStr password)] in
  failed (BrandAuth.login API_URL email password (inr e))
         "/api/brand-admin/login" credentials
  /\ failed (BrandAuth.register API_URL data (inr e))
            "/api/brand-admin/register" data
  /\ failed (LogisticsAuth.login API_URL email password (inr e))
            "/api/logistics/login" credentials
  /\ failed (LogisticsAuth.register API_URL data (inr e))
            "/api/logistics/register" data
  /\ failed (AdminAuth.login API_URL JSON_stringify email password (inr e))
            "/api/super-admin/unified-login" credentials.
Proof.
  intros failed credentials. subst failed credentials.
  repeat split; intros s; reflexivity.
Qed.

Lemma lookup_without_admin_keys (m m' : gmap string string) (k : string) :
  (forall j, j ∉ admin_keys -> m' !! j = m !! j) ->
  delete "admin_brand"
    (delete "admin_role" (delete "admin_user" (delete "admin_token" m')))
  !! k
  = if bool_decide (k ∈ admin_keys) then None else m !! k.
Proof.
  intros Hm. destruct (bool_decide_reflect (k ∈ admin_keys)) as [Hin|Hout].
  - unfold admin_keys in Hin. rewrite !elem_of_cons, elem_of_nil in Hin.
    destruct Hin as [->|[->|[->|[->|[]]]]];
      rewrite ?lookup_delete_ne by discriminate; apply lookup_delete_eq.
  - rewrite <- (Hm k Hout). unfold admin_keys in Hout.
    rewrite !not_elem_of_cons in Hout. destruct Hout as (? & ? & ? & ? & _).
    now rewrite !lookup_delete_ne by congruence.
Qed.

(** X8: a successful brand login stores the token under [brand_token],
    sets the [Authorization] default header to the bearer token and holds
    the token; [isAuthenticated] is the truthiness of the user sent by the
    server. A logout after it leaves the storage and the headers as they
    were before the login, without that key and that header, and an empty
    provider. The logistics provider behaves in the same way with the key
    [logistics_token]. *)
Theorem portal_login_logout (API_URL : string) (email password : string) :
  (forall (data : BrandAuth.session) (s : state BrandAuth.provider),
      let s1 := (BrandAuth.login API_URL email password (inl data) s).2 in
      let s2 := (BrandAuth.logout s1).2 in
      (BrandAuth.login API_URL email password (inl data) s).1 = Returned data
      /\ localStorage s1 !! "brand_token"
         = Some (BrandAuth.session_token data)
      /\ headers s1 !! "Authorization"
         = Some ("Bearer " +:+ BrandAuth.session_token data)
      /\ BrandAuth.token (comp s1) = Some (BrandAuth.session_token data)
      /\ BrandAuth.isAuthenticated (comp s1)
         = truthy_opt truthy_json (BrandAuth.session_user data)
      /\ localStorage s2 = delete "brand_token" (localStorage s)
      /\ headers s2 = delete "Authorization" (headers s)
      /\ comp s2 = BrandAuth.mkProvider None None None
                                        (BrandAuth.loading (comp s)))
  /\ (forall (data : LogisticsAuth.session)
             (s : state LogisticsAuth.provider),
        let s1 :=
          (LogisticsAuth.login API_URL email password (inl data) s).2 in
        let s2 := (LogisticsAuth.logout s1).2 in
        (LogisticsAuth.login API_URL email password (inl data) s).1
        = Returned data
        /\ localStorage s1 !! "logistics_token"
           = Some (LogisticsAuth.session_token data)
        /\ headers s1 !! "Authorization"
           = Some ("Bearer " +:+ LogisticsAuth.session_token data)
        /\ LogisticsAuth.token (comp s1)
           = Some (LogisticsAuth.session_token data)
        /\ LogisticsAuth.isAuthenticated (comp s1)
           = truthy_opt truthy_json (LogisticsAuth.session_user data)
        /\ localStorage s2 = delete "logistics_token" (localStorage s)
        /\ headers s2 = delete "Authorization" (headers s)
        /\ comp s2 = LogisticsAuth.mkProvider None None None
                                              (LogisticsAuth.loading (comp s))).
Proof.
  split; intros data s s1 s2; subst s1 s2; cbn;
    rewrite !lookup_insert_eq, !delete_insert_eq; repeat split.
Qed.

(** X9: a successful admin login stores the token, the serialised user and
    the role; it stores the brand only when the server sends one, and
    otherwise leaves a stored [admin_brand] as it was. A logout after it
    removes the four admin keys and leaves every other key of the storage
    and every other header as before the login, with an empty provider. *)
Theorem admin_login_logout (API_URL : string)
  (JSON_stringify : json -> string) (email password : string)
  (data : AdminAuth.session) (s : state AdminAuth.provider) :
  let s1 := (AdminAuth.login API_URL JSON_stringify email password
                             (inl data) s).2 in
  let s2 := (AdminAuth.logout s1).2 in
  localStorage s1 !! "admin_token" = Some (AdminAuth.session_token data)
  /\ localStorage s1 !! "admin_user"
     = Some (AdminAuth.stringify JSON_stringify (AdminAuth.session_user data))
  /\ localStorage s1 !! "admin_role" = Some (AdminAuth.session_role data)
  /\ localStorage s1 !! "admin_brand"
     = (if truthy_opt truthy_json (AdminAuth.session_brand data)
        then Some (AdminAuth.stringify JSON_stringify
                                       (AdminAuth.session_brand data))
        else localStorage s !! "admin_brand")
  /\ (forall k : string,
        localStorage s2 !! k
        = if bool_decide (k ∈ admin_keys) then None else localStorage s !! k)
  /\ headers s2 = delete "Authorization" (headers s)
  /\ comp s2 = AdminAuth.mkProvider None None None None
                                    (AdminAuth.loading (comp s)).
Proof.
  intros s1 s2. subst s1 s2. cbn.
  destruct (truthy_opt truthy_json (AdminAuth.session_brand data)); cbn.
  all: repeat split.
  all: try (rewrite ?lookup_insert_ne by discriminate; apply lookup_insert_eq).
  all: try (rewrite ?lookup_insert_ne by discriminate; reflexivity).
  all: try (now rewrite delete_insert_eq).
  all: intros k; apply lookup_without_admin_keys; intros j Hj;
    unfold admin_keys in Hj; rewrite !not_elem_of_cons in Hj;
    destruct Hj as (? & ? & ? & ? & _);
    now rewrite !lookup_insert_ne by congruence.
Qed.

(** X10: on a reload, an admin session found in the storage (a non-empty
    token, a non-empty user text that parses, a non-empty role, and a
    brand text that parses or no brand) is restored without any request:
    the provider holds the parsed user, the brand, the role and the token,
    [loading] is false, the bearer header is set, and the only effects
    are the four reads of the storage. *)
Theorem admin_session_restored (API_URL : string)
  (JSON_parse : string -> option json)
  (r_super : reply (option json)) (r_brand : reply AdminAuth.profile)
  (s : state AdminAuth.provider) (t su role : string) (u : json)
  (brand : option json) :
  let reload :=
    (AdminAuth.mount;;
     AdminAuth.onTokenChange API_URL JSON_parse r_super r_brand)%eff in
  localStorage s !! "admin_token" = Some t -> t <> "" ->
  localStorage s !! "admin_user" = Some su -> su <> "" ->
  JSON_parse su = Some u ->
  localStorage s !! "admin_role" = Some role -> role <> "" ->
  match brand with
  | Some b =>
      exists sb, localStorage s !! "admin_brand" = Some sb /\ sb <> ""
                 /\ JSON_parse sb = Some b
  | None =>
      localStorage s !! "admin_brand" = None
      \/ localStorage s !! "admin_brand" = Some ""
  end ->
  (reload s).1 = Returned tt
  /\ comp (reload s).2
     = AdminAuth.mkProvider (Some u) brand (Some role) (Some t) false
  /\ localStorage (reload s).2 = localStorage s
  /\ headers (reload s).2 = <["Authorization" := "Bearer " +:+ t]> (headers s)
  /\ new_events reload s
     = [StorageGet "admin_token"; StorageGet "admin_user";
        StorageGet "admin_role"; StorageGet "admin_brand"].
Proof.
  intros reload Ht Htne Hu Hune Hparse Hr Hrne Hb.
  apply truthy_string_true in Htne, Hune, Hrne.
  unfold new_events. subst reload.
  unfold AdminAuth.mount, AdminAuth.onTokenChange, AdminAuth.parse,
    AdminAuth.setUser, AdminAuth.setRole, AdminAuth.setBrand,
    AdminAuth.setLoading.
  run_monad. rewrite Ht. cbn [AdminAuth.token truthy_opt]. rewrite Htne.
  run_monad. rewrite Hu, Hr. cbn [truthy_opt andb template_of_option].
  rewrite Hune, Hrne, Hparse. run_monad.
  destruct brand as [b|].
  - destruct Hb as (sb & Hsb & Hsbne & Hpb).
    apply truthy_string_true in Hsbne.
    rewrite Hsb. cbn [truthy_opt template_of_option]. rewrite Hsbne, Hpb.
    cbn. rewrite <- !app_assoc, drop_app_length. repeat split.
  - destruct Hb as [Hb|Hb]; rewrite Hb; cbn;
      rewrite <- !app_assoc, drop_app_length; repeat split.
Qed.


Lemma admin_session_restored_witness :
  let s :=
    mkState (AdminAuth.mkProvider None None None None true)
            (<["admin_role" := "super_admin"]>
               (<["admin_user" := "ann"]>
                  (<["admin_token" := "t0"]> (∅ : gmap string string))))
            (∅ : gmap string string) [] in
  let reload :=
    (AdminAuth.mount;;
     AdminAuth.onTokenChange "" (fun _ => Some (JStr "ann"))
                             (inr (mkError None)) (inr (mkError None)))%eff in
  comp (reload s).2
  = AdminAuth.mkProvider (Some (JStr "ann")) None (Some "super_admin")
                         (Some "t0") false.
Proof.
  intros s reload.
  apply (admin_session_restored
           "" (fun _ => Some (JStr "ann")) (inr (mkError None))
           (inr (mkError None)) s "t0" "ann" "super_admin" (JStr "ann") None);
    try reflexivity; try discriminate.
  left. reflexivity.
Defined.

(** X11: when the stored role is neither [super_admin] nor [brand_admin]
    (or is missing), the admin [fetchProfile] sends no request: it reads
    the role, sets [loading] to false and leaves user, token, storage and
    headers as they are. *)
Theorem admin_fetchProfile_unknown_role (API_URL : string)
  (r_super : reply (option json)) (r_brand : reply AdminAuth.profile)
  (s : state AdminAuth.provider) :
  localStorage s !! "admin_role" <> Some "super_admin" ->
  localStorage s !! "admin_role" <> Some "brand_admin" ->
  AdminAuth.fetchProfile API_URL r_super r_brand s
  = (Returned tt,
     mkState (AdminAuth.mkProvider
                (AdminAuth.user (comp s)) (AdminAuth.brand (comp s))
                (AdminAuth.role (comp s)) (AdminAuth.token (comp s)) false)
             (localStorage s) (headers s)
             (trace s ++ [StorageGet "admin_role"])).
Proof.
  intros Hs Hb. unfold AdminAuth.fetchProfile, AdminAuth.setLoading.
  run_monad.
  destruct (localStorage s !! "admin_role") as [role|]; cbn [truthy_opt].
  - destruct (String.eqb_spec "super_admin" role) as [<-|_]; [congruence|].
    destruct (String.eqb_spec "brand_admin" role) as [<-|_]; [congruence|].
    reflexivity.
  - reflexivity.
Qed.

Lemma admin_fetchProfile_unknown_role_witness :
  let s :=
    mkState (AdminAuth.mkProvider None None None (Some "t0") true)
            (<["admin_token" := "t0"]> (∅ : gmap string string))
            (∅ : gmap string string) [] in
  AdminAuth.token
    (comp (AdminAuth.fetchProfile "" (inr (mkError None))
                                  (inr (mkError None)) s).2)
  = Some "t0".
Proof.
  intros s.
  rewrite (admin_fetchProfile_unknown_role
             "" (inr (mkError None)) (inr (mkError None)) s);
    [reflexivity | discriminate | discriminate].
Defined.

(** X12: the token effect of the brand provider. Without a token (or with
    an empty one) it only sets [loading] to false. With a token it sets
    the bearer header and asks for the profile: on success the provider
    holds the user and brand sent, on failure the token key and the header
    are removed and the provider is emptied; [loading] is false in both
    cases and nothing is thrown. *)
Theorem brand_onTokenChange (API_URL : string)
  (r : reply BrandAuth.profile) (s : state BrandAuth.provider) :
  let m := BrandAuth.onTokenChange API_URL r in
  let request := Http GET (API_URL +:+ "/api/brand-admin/me") None in
  (BrandAuth.token (comp s) = None \/ BrandAuth.token (comp s) = Some "" ->
   m s = (Returned tt,
          mkState (BrandAuth.mkProvider
                     (BrandAuth.user (comp s)) (BrandAuth.brand (comp s))
                     (BrandAuth.token (comp s)) false)
                  (localStorage s) (headers s) (trace s)))
  /\ (forall t : string,
        BrandAuth.token (comp s) = Some t -> t <> "" ->
        match r with
        | inl data =>
            m s = (Returned tt,
                   mkState (BrandAuth.mkProvider
                              (BrandAuth.profile_user data)
                              (BrandAuth.profile_brand data) (Some t) false)
                           (localStorage s)
                           (<["Authorization" := "Bearer " +:+ t]>
                              (headers s))
                           (trace s ++ [request]))
        | inr e =>
            m s = (Returned tt,
                   mkState (BrandAuth.mkProvider None None None false)
                           (delete "brand_token" (localStorage s))
                           (delete "Authorization" (headers s))
                           (trace s
                              ++ [request;
                                  ConsoleError
                                    "Failed to fetch brand profile:";
                                  StorageRemove "brand_token"]))
        end).
Proof.
  intros m request. subst m request. unfold BrandAuth.onTokenChange. split.
  - run_monad. intros [H|H]; rewrite H; cbn;
      unfold BrandAuth.setLoading, setState; cbn; now rewrite H.
  - intros t Ht Hne. apply truthy_string_true in Hne. run_monad.
    rewrite Ht, Hne.
    destruct r as [data|e]; cbn; rewrite <- ?app_assoc;
      rewrite ?delete_insert_eq, ?Ht; reflexivity.
Qed.

Lemma brand_onTokenChange_witness :
  let s :=
    mkState (BrandAuth.mkProvider None None (Some "t0") true)
            (<["brand_token" := "t0"]> (∅ : gmap string string))
            (∅ : gmap string string) [] in
  localStorage (BrandAuth.onTokenChange "" (inr (mkError None)) s).2
  = delete "brand_token" (localStorage s).
Proof.
  intros s.
  destruct (brand_onTokenChange "" (inr (mkError None)) s) as [_ H].
  rewrite (H "t0" eq_refl); [reflexivity | discriminate].
Defined.

(** X13: the token effect of the logistics provider behaves in the same
    way, with the key [logistics_token] and the partner profile. *)
Theorem logistics_onTokenChange (API_URL : string)
  (r : reply LogisticsAuth.profile) (s : state LogisticsAuth.provider) :
  let m := LogisticsAuth.onTokenChange API_URL r in
  let request := Http GET (API_URL +:+ "/api/logistics/me") None in
  (LogisticsAuth.token (comp s) = None
   \/ LogisticsAuth.token (comp s) = Some "" ->
   m s = (Returned tt,
          mkState (LogisticsAuth.mkProvider
                     (LogisticsAuth.user (comp s))
                     (LogisticsAuth.partner (comp s))
                     (LogisticsAuth.token (comp s)) false)
                  (localStorage s) (headers s) (trace s)))
  /\ (forall t : string,
        LogisticsAuth.token (comp s) = Some t -> t <> "" ->
        match r with
        | inl data =>
            m s = (Returned tt,
                   mkState (LogisticsAuth.mkProvider
                              (LogisticsAuth.profile_user data)
                              (LogisticsAuth.profile_partner data)
                              (Some t) false)
                           (localStorage s)
                           (<["Authorization" := "Bearer " +:+ t]>
                              (headers s))
                           (trace s ++ [request]))
        | inr e =>
            m s = (Returned tt,
                   mkState (LogisticsAuth.mkProvider None None None false)
                           (delete "logistics_token" (localStorage s))
                           (delete "Authorization" (headers s))
                           (trace s
                              ++ [request;
                                  ConsoleError
                                    "Failed to fetch logistics profile:";
                                  StorageRemove "logistics_token"]))
        end).
Proof.
  intros m request. subst m request. unfold LogisticsAuth.onTokenChange. split.
  - run_monad. intros [H|H]; rewrite H; cbn;
      unfold LogisticsAuth.setLoading, setState; cbn; now rewrite H.
  - intros t Ht Hne. apply truthy_string_true in Hne. run_monad.
    rewrite Ht, Hne.
    destruct r as [data|e]; cbn; rewrite <- ?app_assoc;
      rewrite ?delete_insert_eq, ?Ht; reflexivity.
Qed.


Lemma logistics_onTokenChange_witness :
  let s :=
    mkState (LogisticsAuth.mkProvider None None (Some "t0") true)
            (<["logistics_token" := "t0"]> (∅ : gmap string string))
            (∅ : gmap string string) [] in
  localStorage (LogisticsAuth.onTokenChange "" (inr (mkError None)) s).2
  = delete "logistics_token" (localStorage s).
Proof.
  intros s.
  destruct (logistics_onTokenChange "" (inr (mkError None)) s) as [_ H].
  rewrite (H "t0" eq_refl); [reflexivity | discriminate].
Defined.


(** ** Outcomes of the forms *)

Lemma error_message_default (e : js_error) (fallback : string) :
  error_message e fallback (js_or_default truthy_string (detail e) fallback).
Proof.
  unfold error_message, js_or_default, truthy_string.
  destruct (detail e) as [d|]; [|reflexivity].
  destruct (decide (d = "")) as [->|Hd]; [reflexivity|].
  apply String.eqb_neq in Hd. now rewrite Hd.
Qed.

(** X14: when the registration form passes its checks, [handleSubmit]
    returns with [loading] false and the form untouched, whatever
    [register] does: on success the effects are the call, a success toast
    and the navigation to the home page; on failure the call and one error
    toast with the server's detail, or "Registration failed" when the
    detail is missing or empty, and no navigation. *)
Theorem handleSubmit_outcome (r : reply json) (s : state RegisterPage.page) :
  let f := RegisterPage.formData (comp s) in
  let m := RegisterPage.handleSubmit r in
  passwords_accepted f ->
  (m s).1 = Returned tt
  /\ comp (m s).2 = RegisterPage.mkPage false f
  /\ localStorage (m s).2 = localStorage s
  /\ headers (m s).2 = headers s
  /\ match r with
     | inl _ =>
         new_events m s
         = [PreventDefault; register_call_of f;
            Toast ToastSuccess "Welcome to JetShop!"; Navigate "/"]
     | inr e =>
         exists msg : string,
           error_message e "Registration failed" msg
           /\ new_events m s
              = [PreventDefault; register_call_of f; Toast ToastError msg]
     end.
Proof.
  intros f m Hok. subst m. apply passwords_accepted_spec in Hok.
  destruct Hok as [H1 H2]. unfold new_events.
  rewrite handleSubmit_run. fold f. rewrite H1, H2.
  destruct r as [data|e]; simpl; rewrite drop_app_length;
    repeat split.
  eexists. split; [apply error_message_default | reflexivity].
Qed.

Lemma handleSubmit_outcome_witness :
  let s :=
    fresh (RegisterPage.mkPage true
             (RegisterPage.mkForm "Ann" "ann@example.com" "555" "secret1"
                                  "secret1")) in
  new_events (RegisterPage.handleSubmit (inr (mkError (Some "")))) s
  = [PreventDefault;
     ContextCall (CallRegister "Ann" "ann@example.com" "555" "secret1");
     Toast ToastError "Registration failed"].
Proof.
  intros s.
  destruct (handleSubmit_outcome (inr (mkError (Some ""))) s)
    as (_ & _ & _ & _ & msg & Hmsg & Hev).
  - split; [reflexivity | simpl; lia].
  - rewrite Hev. unfold error_message in Hmsg. simpl in Hmsg.
    now rewrite Hmsg.
Defined.

Section CheckoutOutcome.
Variable API_URL : string.

(** X15: when the delivery details pass the checks, [handleCheckout]
    sends the create-payment request and never throws: on success it
    redirects to the checkout URL and leaves [loading] true; on failure
    it shows one error toast with the server's detail, or "Failed to
    create payment session", and sets [loading] back to false. *)
Theorem handleCheckout_outcome (r : reply string)
  (s : state CheckoutPage.page) :
  let p := comp s in
  let m := CheckoutPage.handleCheckout API_URL r in
  let payment :=
    Http POST (API_URL +:+ "/api/checkout/create-payment")
         (Some (CheckoutPage.request_body p)) in
  let with_loading (b : bool) :=
    CheckoutPage.mkPage b (CheckoutPage.calculating p)
      (CheckoutPage.calculation p) (CheckoutPage.deliveryType p)
      (CheckoutPage.airportDetails p) (CheckoutPage.homeDetails p)
      (CheckoutPage.useLoyaltyPoints p) (CheckoutPage.useWalletAmount p) in
  checkout_ready p ->
  (m s).1 = Returned tt
  /\ localStorage (m s).2 = localStorage s
  /\ headers (m s).2 = headers s
  /\ match r with
     | inl url =>
         comp (m s).2 = with_loading true
         /\ new_events m s = [payment; Redirect url]
     | inr e =>
         comp (m s).2 = with_loading false
         /\ exists msg : string,
             error_message e "Failed to create payment session" msg
             /\ new_events m s = [payment; Toast ToastError msg]
     end.
Proof.
  intros p m payment with_loading [Hair Hhome]. subst m.
  unfold new_events. rewrite handleCheckout_run. fold p.
  assert (H1 : String.eqb (CheckoutPage.deliveryType p) "airport"
               && negb (truthy_string
                          (CheckoutPage.terminal
                             (CheckoutPage.airportDetails p))) = false).
  { destruct (String.eqb_spec (CheckoutPage.deliveryType p) "airport")
      as [E|E]; [|reflexivity].
    apply Hair, truthy_string_true in E. now rewrite E. }
  assert (H2 : String.eqb (CheckoutPage.deliveryType p) "home"
               && (negb (truthy_string
                           (CheckoutPage.address
                              (CheckoutPage.homeDetails p)))
                   || negb (truthy_string
                              (CheckoutPage.city
                                 (CheckoutPage.homeDetails p)))
                   || negb (truthy_string
                              (CheckoutPage.pincode
                                 (CheckoutPage.homeDetails p)))) = false).
  { destruct (String.eqb_spec (CheckoutPage.deliveryType p) "home")
      as [E|E]; [|reflexivity].
    destruct (Hhome E) as (Ha & Hc & Hp).
    apply truthy_string_true in Ha, Hc, Hp. now rewrite Ha, Hc, Hp. }
  rewrite H1, H2.
  destruct r as [url|e]; simpl; rewrite drop_app_length; repeat split.
  eexists. split; [apply error_message_default | reflexivity].
Qed.

(** X16: [calculateTotals] never throws and always ends with
    [calculating] false; the calculation is replaced on success and kept
    on failure, which is only logged to the console. With an empty cart
    the recalculation effect does nothing and the other effect navigates
    back to the cart; with a non-empty cart the first runs
    [calculateTotals] and the second does nothing. *)
Theorem checkout_page_effects (cart : Cart) (r : reply json)
  (s : state CheckoutPage.page) :
  let p := comp s in
  let totals := CheckoutPage.calculateTotals API_URL r in
  let request :=
    Http POST (API_URL +:+ "/api/checkout/calculate")
         (Some (CheckoutPage.request_body
                  (CheckoutPage.mkPage (CheckoutPage.loading p) true
                     (CheckoutPage.calculation p)
                     (CheckoutPage.deliveryType p)
                     (CheckoutPage.airportDetails p)
                     (CheckoutPage.homeDetails p)
                     (CheckoutPage.useLoyaltyPoints p)
                     (CheckoutPage.useWalletAmount p)))) in
  (totals s).1 = Returned tt
  /\ CheckoutPage.calculating (comp (totals s).2) = false
  /\ CheckoutPage.calculation (comp (totals s).2)
     = match r with
       | inl data => Some data
       | inr _ => CheckoutPage.calculation p
       end
  /\ new_events totals s
     = match r with
       | inl _ => [request]
       | inr _ => [request; ConsoleError "Failed to calculate:"]
       end
  /\ (items cart = [] ->
      CheckoutPage.recalculate API_URL cart r s = (Returned tt, s)
      /\ new_events (CheckoutPage.redirectIfEmpty cart) s
         = [Navigate "/cart"])
  /\ (items cart <> [] ->
      CheckoutPage.recalculate API_URL cart r s = totals s
      /\ CheckoutPage.redirectIfEmpty cart s = (Returned tt, s)).
Proof.
  intros p totals request. subst totals request p.
  split; [destruct r; reflexivity|].
  split; [destruct r; reflexivity|].
  split; [destruct r; reflexivity|].
  split; [destruct r; events; reflexivity|].
  unfold CheckoutPage.recalculate, CheckoutPage.redirectIfEmpty.
  split.
  - intros ->. simpl. split; [reflexivity|]. events. reflexivity.
  - intros Hne. destruct (items cart); [congruence|]. split; reflexivity.
Qed.
End CheckoutOutcome.


Lemma handleCheckout_outcome_witness :
  let s :=
    fresh (CheckoutPage.mkPage false false None "airport"
             (CheckoutPage.mkAirport "T2" "" "")
             (CheckoutPage.mkHome "" "" "" "") 0 0%Q) in
  CheckoutPage.loading
    (comp (CheckoutPage.handleCheckout "" (inl "https://pay") s).2) = true.
Proof.
  intros s.
  destruct (handleCheckout_outcome "" (inl "https://pay") s)
    as (_ & _ & _ & H & _).
  - split; [intros _; discriminate | intros H; discriminate H].
  - now rewrite H.
Defined.

Lemma checkout_page_effects_witness :
  new_events (CheckoutPage.redirectIfEmpty (mkCart [] 0%Q 0))
             (fresh CheckoutPage.initial)
  = [Navigate "/cart"].
Proof.
  destruct (checkout_page_effects "" (mkCart [] 0%Q 0) (inl JNull)
                                  (fresh CheckoutPage.initial))
    as (_ & _ & _ & _ & H & _).
  destruct H as [_ H]; [reflexivity | exact H].
Defined.


(** ** Percentages *)

Lemma percent_of_bounds (p n : Z) :
  0 < n ->
  let x := (inject_Z p / inject_Z n * 100)%Q in
  ((0 <= p)%Z -> (0 <= x)%Q)
  /\ ((p < n)%Z <-> (x < 100)%Q)
  /\ ((n <= p)%Z <-> (100 <= x)%Q).
Proof.
  intros Hn x. subst x. destruct n as [|n|n]; try lia.
  unfold Qle, Qlt, Qdiv, Qmult, Qinv, inject_Z. simpl.
  repeat split; intros; nia.
Qed.

Lemma Qmin_100_bounds (x : Q) :
  (Qmin 100 x <= 100)%Q
  /\ ((0 <= x)%Q -> (0 <= Qmin 100 x)%Q)
  /\ ((Qmin 100 x == 100)%Q <-> (100 <= x)%Q).
Proof.
  destruct (Q.min_spec 100 x) as [[Hlt ->]|[Hle ->]].
  - repeat split; intros; try reflexivity; try discriminate.
    now apply Qlt_le_weak.
  - repeat split; intros; try assumption.
    + now rewrite H.
    + now apply Qle_antisym.
Qed.

(** X17: for a Bronze, Silver or Gold member the progress on the loyalty
    page is a number that never exceeds 100, is not negative when the
    points are not negative, and equals 100 exactly when the points have
    reached the minimum of the next tier. *)
Theorem progressToNext_bounds (user : option LoyaltyPage.user)
  (tier : string) (next_min : Z) :
  let points := default 0 (opt_field user LoyaltyPage.loyalty_points) in
  In (tier, next_min) tier_then_minimum ->
  exists q : Q,
    LoyaltyPage.progressToNext user
      (Some (LoyaltyPage.mkLoyalty (Some tier))) = Num q
    /\ (q <= 100)%Q
    /\ (0 <= points -> (0 <= q)%Q)
    /\ ((q == 100)%Q <-> next_min <= points).
Proof.
  intros points Hin.
  assert (Hrun : 0 < next_min /\
                 LoyaltyPage.progressToNext user
                   (Some (LoyaltyPage.mkLoyalty (Some tier)))
                 = Num (Qmin 100 (inject_Z points / inject_Z next_min * 100))).
  { unfold LoyaltyPage.progressToNext. rewrite truthy_Z_default.
    fold points. simpl in Hin.
    destruct Hin as [H|[H|[H|[]]]]; inversion H; subst;
      (split; [lia | reflexivity]). }
  destruct Hrun as [Hpos ->]. eexists. split; [reflexivity|].
  destruct (percent_of_bounds points next_min Hpos) as (H0 & _ & H100).
  destruct (Qmin_100_bounds (inject_Z points / inject_Z next_min * 100))
    as (Hle & Hge & Heq).
  split; [exact Hle|]. split; [intros Hp; apply Hge, H0, Hp|].
  rewrite Heq. symmetry. exact H100.
Qed.

Lemma progressToNext_bounds_witness :
  exists q : Q,
    LoyaltyPage.progressToNext (Some (LoyaltyPage.mkUser (Some 1200)))
      (Some (LoyaltyPage.mkLoyalty (Some "Silver"))) = Num q
    /\ (q == 100)%Q.
Proof.
  destruct (progressToNext_bounds (Some (LoyaltyPage.mkUser (Some 1200)))
              "Silver" 1000) as (q & Hq & _ & _ & H100).
  - simpl. auto.
  - exists q. split; [exact Hq|]. apply H100. simpl. lia.
Defined.

(** X18: in the list of tiers of the loyalty page, for a member whose tier
    is in the table, exactly the row of that tier is marked current, and
    a row is locked exactly when its minimum is above the minimum of the
    member's tier; when the tier is missing or not in the table, no row
    is current and every row is locked. *)
Theorem tier_rows (loyaltyData : option LoyaltyPage.loyalty_data)
  (j : nat) (row : LoyaltyPage.tier) :
  LoyaltyPage.tiers !! j = Some row ->
  (forall (i : nat) (current : LoyaltyPage.tier),
      LoyaltyPage.tiers !! i = Some current ->
      opt_field loyaltyData LoyaltyPage.tier_name
      = Some (LoyaltyPage.name current) ->
      LoyaltyPage.currentTierIndex loyaltyData = Z.of_nat i
      /\ (LoyaltyTiers.isCurrentTier loyaltyData row = true <-> j = i)
      /\ (LoyaltyTiers.isLocked loyaltyData (Z.of_nat j) = true
          <-> LoyaltyPage.minPoints current < LoyaltyPage.minPoints row))
  /\ ((forall t, t ∈ LoyaltyPage.tiers ->
         opt_field loyaltyData LoyaltyPage.tier_name
         <> Some (LoyaltyPage.name t)) ->
      LoyaltyPage.currentTierIndex loyaltyData = -1
      /\ LoyaltyTiers.isCurrentTier loyaltyData row = false
      /\ LoyaltyTiers.isLocked loyaltyData (Z.of_nat j) = true).
Proof.
  intros Hj. unfold LoyaltyTiers.isCurrentTier, LoyaltyTiers.isLocked,
    LoyaltyPage.currentTierIndex.
  split.
  - intros i current Hi ->.
    destruct i as [|[|[|[|i]]]]; simpl in Hi; inversion Hi; subst;
      destruct j as [|[|[|[|j]]]]; simpl in Hj; inversion Hj; subst;
      vm_compute; repeat split; intros; try lia; try congruence.
  - intros Hnone.
    destruct (opt_field loyaltyData LoyaltyPage.tier_name) as [t|] eqn:Ht.
    + assert (Hneq : forall (i : nat) (x : LoyaltyPage.tier),
                 LoyaltyPage.tiers !! i = Some x ->
                 String.eqb (LoyaltyPage.name x) t = false).
      { intros i x Hx. apply String.eqb_neq. intros E.
        apply (Hnone x); [apply list_elem_of_lookup; eauto | now rewrite E]. }
      pose proof (Hneq 0%nat _ eq_refl) as H0.
      pose proof (Hneq 1%nat _ eq_refl) as H1.
      pose proof (Hneq 2%nat _ eq_refl) as H2.
      pose proof (Hneq 3%nat _ eq_refl) as H3.
      unfold LoyaltyPage.findIndex. simpl in *. rewrite H0, H1, H2, H3.
      repeat split; try reflexivity; [apply (Hneq j row Hj) | apply Z.ltb_lt; lia].
    + split; [reflexivity|]. split; [reflexivity|].
      change (LoyaltyPage.findIndex (LoyaltyPage.name_is None)
                LoyaltyPage.tiers) with (-1).
      apply Z.ltb_lt. lia.
Qed.


Lemma tier_rows_witness :
  LoyaltyTiers.isLocked (Some (LoyaltyPage.mkLoyalty (Some "Silver"))) 2
  = true.
Proof.
  destruct (tier_rows (Some (LoyaltyPage.mkLoyalty (Some "Silver"))) 2%nat
              (LoyaltyPage.mkTier "Gold" 1000 "bg-yellow-500"
                 ["2x Points"; "10% discount"; "Free shipping over $100";
                  "Lounge access coupons"]) eq_refl) as [H _].
  destruct (H 1%nat
              (LoyaltyPage.mkTier "Silver" 500 "bg-gray-400"
                 ["1.5x Points"; "5% discount on all orders";
                  "Free shipping over $150"]) eq_refl eq_refl)
    as (_ & _ & Hlocked).
  apply Hlocked. simpl. lia.
Defined.


(** ** The dashboard's progress bar *)

Lemma dashboard_progress_run (tier : option string) (p t : Z) :
  tier <> Some "Platinum" -> 0 <= p -> 0 < t ->
  DashboardPage.progressToNext
    (Some (DashboardPage.mkUser (DashboardPage.Number p)))
    (Some (DashboardPage.mkLoyalty tier (Some t)))
  = Num (Qmin 100 (inject_Z p / inject_Z (p + t) * 100)).
Proof.
  intros Htier Hp Ht.
  unfold DashboardPage.progressToNext.
  assert (Hnext : truthy_opt truthy_string
                    (DashboardPage.nextTier
                       (Some (DashboardPage.mkLoyalty tier (Some t))))
                  = true).
  { unfold DashboardPage.nextTier, DashboardPage.currentTierIndex,
      DashboardPage.indexOf, LoyaltyPage.findIndex. simpl.
    destruct tier as [name|]; simpl; [|reflexivity].
    destruct (truthy_string name); simpl; [|reflexivity].
    destruct (String.eqb_spec name "Bronze"); [reflexivity|].
    destruct (String.eqb_spec name "Silver"); [reflexivity|].
    destruct (String.eqb_spec name "Gold"); [reflexivity|].
    destruct (String.eqb_spec name "Platinum"); [congruence|reflexivity]. }
  rewrite Hnext. simpl.
  assert (Htruthy : truthy_Z t = true).
  { unfold truthy_Z. destruct (Z.eqb_spec t 0); [lia | reflexivity]. }
  rewrite Htruthy. simpl.
  assert (Hor : (if truthy_Z p then p else 0) = p).
  { unfold truthy_Z. destruct (Z.eqb_spec p 0); simpl; congruence. }
  rewrite Hor. unfold js_div.
  destruct (Z.eqb_spec (p + t) 0); [lia | reflexivity].
Qed.

(** X19: on the dashboard, for a member whose tier is not Platinum (a
    missing tier counts as Bronze) with non-negative points [p] and a positive number
    [t] of points to the next tier, the progress is [p / (p + t) * 100],
    at least 0 and strictly below 100. *)
Theorem dashboard_progress (tier : option string) (p t : Z) :
  tier <> Some "Platinum" -> 0 <= p -> 0 < t ->
  exists q : Q,
    DashboardPage.progressToNext
      (Some (DashboardPage.mkUser (DashboardPage.Number p)))
      (Some (DashboardPage.mkLoyalty tier (Some t))) = Num q
    /\ (q == inject_Z p / inject_Z (p + t) * 100)%Q
    /\ (0 <= q)%Q /\ (q < 100)%Q.
Proof.
  intros Htier Hp Ht. rewrite dashboard_progress_run by assumption.
  eexists. split; [reflexivity|].
  destruct (percent_of_bounds p (p + t)) as (H0 & Hlt & _); [lia|].
  assert (Hx : (inject_Z p / inject_Z (p + t) * 100 < 100)%Q)
    by (apply Hlt; lia).
  rewrite (Q.min_r 100) by (now apply Qlt_le_weak).
  split; [reflexivity|]. split; [apply H0, Hp | exact Hx].
Qed.

Lemma dashboard_progress_witness :
  exists q : Q,
    DashboardPage.progressToNext
      (Some (DashboardPage.mkUser (DashboardPage.Number 250)))
      (Some (DashboardPage.mkLoyalty None (Some 250))) = Num q
    /\ (q == 50)%Q.
Proof.
  destruct (dashboard_progress None 250 250) as (q & Hq & Hv & _);
    [discriminate | lia | lia |].
  exists q. split; [exact Hq|]. rewrite Hv. reflexivity.
Defined.

(** X20: the dashboard and the loyalty page show the same progress for a
    Bronze, Silver or Gold member whose points are below the next minimum
    whenever the server's [points_to_next_tier] is that minimum minus the
    member's points. *)
Theorem dashboard_agrees_with_loyalty_page (tier : string) (next_min p : Z) :
  In (tier, next_min) tier_then_minimum ->
  0 <= p < next_min ->
  exists q q' : Q,
    DashboardPage.progressToNext
      (Some (DashboardPage.mkUser (DashboardPage.Number p)))
      (Some (DashboardPage.mkLoyalty (Some tier) (Some (next_min - p))))
    = Num q
    /\ LoyaltyPage.progressToNext
         (Some (LoyaltyPage.mkUser (Some p)))
         (Some (LoyaltyPage.mkLoyalty (Some tier))) = Num q'
    /\ (q == q')%Q.
Proof.
  intros Hin Hp.
  rewrite dashboard_progress_run;
    [| simpl in Hin; intuition congruence | lia | lia].
  replace (p + (next_min - p)) with next_min by lia.
  assert (Hl : LoyaltyPage.progressToNext
                 (Some (LoyaltyPage.mkUser (Some p)))
                 (Some (LoyaltyPage.mkLoyalty (Some tier)))
               = Num (Qmin 100 (inject_Z p / inject_Z next_min * 100))).
  { unfold LoyaltyPage.progressToNext. rewrite truthy_Z_default.
    simpl in Hin.
    destruct Hin as [H|[H|[H|[]]]]; inversion H; subst; reflexivity. }
  rewrite Hl. do 2 eexists. repeat split; reflexivity.
Qed.


Lemma dashboard_agrees_with_loyalty_page_witness :
  exists q q' : Q,
    DashboardPage.progressToNext
      (Some (DashboardPage.mkUser (DashboardPage.Number 300)))
      (Some (DashboardPage.mkLoyalty (Some "Bronze") (Some (500 - 300))))
    = Num q
    /\ LoyaltyPage.progressToNext
         (Some (LoyaltyPage.mkUser (Some 300)))
         (Some (LoyaltyPage.mkLoyalty (Some "Bronze"))) = Num q'
    /\ (q == q')%Q.
Proof.
  apply (dashboard_agrees_with_loyalty_page "Bronze" 500 300).
  - simpl. auto.
  - lia.
Defined.


(** ** Order tracking *)

Lemma trackingCard_markers (o : OrderTracking.order)
  (w : jsnum) (markers : list OrderTracking.marker) :
  OrderTracking.trackingCard o = OrderTracking.ProgressBar w markers ->
  length markers = length (OrderTracking.trackingSteps o)
  /\ forall (j : nat) (m : OrderTracking.marker),
      markers !! j = Some m ->
      OrderTracking.trackingSteps o !! j = Some (OrderTracking.marker_step m)
      /\ OrderTracking.isCompleted m
         = (Z.of_nat j <=? OrderTracking.currentStepIndex o)
      /\ OrderTracking.isCurrent m
         = (Z.of_nat j =? OrderTracking.currentStepIndex o).
Proof.
  unfold OrderTracking.trackingCard.
  destruct (OrderTracking.isCancelled o); [discriminate|].
  intros [= _ <-]. split; [apply length_imap|].
  intros j m. rewrite list_lookup_imap.
  destruct (OrderTracking.trackingSteps o !! j) as [st|]; [|discriminate].
  intros [= <-]. repeat split.
Qed.

(** X21: when the order status is the key of step [i] of the track of its
    delivery type, the current step is [i] and the card shows the progress
    bar: its width is between 0 and 100 and is 100 exactly for a delivered
    order, there is one marker per step, the completed markers are exactly
    those of the steps up to [i], and the marker of step [i] alone is
    current. *)
Theorem tracking_on_track (o : OrderTracking.order) (i : nat)
  (st : OrderTracking.step) :
  OrderTracking.trackingSteps o !! i = Some st ->
  OrderTracking.order_status o = Some (OrderTracking.key st) ->
  OrderTracking.currentStepIndex o = Z.of_nat i
  /\ exists (q : Q) (markers : list OrderTracking.marker),
      OrderTracking.trackingCard o = OrderTracking.ProgressBar (Num q) markers
      /\ (0 <= q)%Q /\ (q <= 100)%Q
      /\ ((q == 100)%Q <-> OrderTracking.key st = "delivered")
      /\ length markers = length (OrderTracking.trackingSteps o)
      /\ forall (j : nat) (m : OrderTracking.marker),
          markers !! j = Some m ->
          OrderTracking.trackingSteps o !! j
          = Some (OrderTracking.marker_step m)
          /\ (OrderTracking.isCompleted m = true <-> (j <= i)%nat)
          /\ (OrderTracking.isCurrent m = true <-> j = i).
Proof.
  intros Hi Hst.
  assert (Hidx : OrderTracking.currentStepIndex o = Z.of_nat i
                 /\ exists (q : Q) (markers : list OrderTracking.marker),
                     OrderTracking.trackingCard o
                     = OrderTracking.ProgressBar (Num q) markers
                     /\ (0 <= q)%Q /\ (q <= 100)%Q
                     /\ ((q == 100)%Q
                         <-> OrderTracking.key st = "delivered")).
  { unfold OrderTracking.trackingCard, OrderTracking.isCancelled,
      OrderTracking.currentStepIndex, OrderTracking.trackingSteps in *.
    rewrite Hst.
    destruct (truthy_opt (String.eqb "airport")
                         (OrderTracking.delivery_type o));
      do 7 (try destruct i as [|i]); simpl in Hi; inversion Hi; subst;
      (split; [reflexivity|]); do 2 eexists; (split; [reflexivity|]);
      vm_compute; repeat split; intros; congruence. }
  destruct Hidx as (Hidx & q & markers & Hcard & Hq).
  split; [exact Hidx|]. exists q, markers. split; [exact Hcard|].
  destruct Hq as (H0 & H100 & Hd). do 3 (split; [assumption|]).
  destruct (trackingCard_markers o (Num q) markers Hcard) as [Hlen Hm].
  split; [exact Hlen|]. intros j m Hj.
  destruct (Hm j m Hj) as (Hs & Hc & Hcur). split; [exact Hs|].
  rewrite Hc, Hcur, Hidx, Z.leb_le, Z.eqb_eq. lia.
Qed.

Lemma tracking_on_track_witness :
  OrderTracking.currentStepIndex
    (OrderTracking.mkOrder (Some "home") (Some "shipped")) = 3.
Proof.
  apply (tracking_on_track
           (OrderTracking.mkOrder (Some "home") (Some "shipped")) 3%nat
           (OrderTracking.mkStep "shipped" "Shipped" "Truck"));
    reflexivity.
Defined.

(** X22: when the order status is not a key of the track of its delivery
    type, the current step index is -1. A cancelled order is such an
    order, and its card shows the cancellation notice: no width and no
    marker is computed. For any other such status (a missing status,
    [shipped] for an airport order, or [accepted] and [preparing] as set
    from the brand dashboard) the card shows the progress bar with a
    negative width and one marker per step, none completed and none
    current. *)
Theorem tracking_off_track (o : OrderTracking.order) :
  (forall st, st ∈ OrderTracking.trackingSteps o ->
              OrderTracking.order_status o <> Some (OrderTracking.key st)) ->
  OrderTracking.currentStepIndex o = -1
  /\ (OrderTracking.order_status o = Some "cancelled" ->
      OrderTracking.trackingCard o = OrderTracking.OrderCancelled)
  /\ (OrderTracking.order_status o <> Some "cancelled" ->
      exists (q : Q) (markers : list OrderTracking.marker),
        OrderTracking.trackingCard o
        = OrderTracking.ProgressBar (Num q) markers
        /\ (q < 0)%Q
        /\ map OrderTracking.marker_step markers
           = OrderTracking.trackingSteps o
        /\ Forall (fun m => OrderTracking.isCompleted m = false
                            /\ OrderTracking.isCurrent m = false) markers).
Proof.
  intros Hoff.
  assert (Hidx : OrderTracking.currentStepIndex o = -1).
  { unfold OrderTracking.currentStepIndex, LoyaltyPage.findIndex.
    assert (Hkey : forall (i : nat) st,
               OrderTracking.trackingSteps o !! i = Some st ->
               OrderTracking.key_is (OrderTracking.order_status o) st
               = false).
    { intros i st Hi. unfold OrderTracking.key_is.
      destruct (OrderTracking.order_status o) as [s|] eqn:Hs; [|reflexivity].
      apply String.eqb_neq. intros E. apply (Hoff st).
      - apply list_elem_of_lookup. eauto.
      - now rewrite E. }
    revert Hkey. unfold OrderTracking.trackingSteps.
    destruct (truthy_opt (String.eqb "airport")
                         (OrderTracking.delivery_type o)); intros Hkey;
      simpl;
      rewrite ?(Hkey 0%nat _ eq_refl), ?(Hkey 1%nat _ eq_refl),
        ?(Hkey 2%nat _ eq_refl), ?(Hkey 3%nat _ eq_refl),
        ?(Hkey 4%nat _ eq_refl), ?(Hkey 5%nat _ eq_refl),
        ?(Hkey 6%nat _ eq_refl); reflexivity. }
  split; [exact Hidx|]. split.
  - intros Hc. unfold OrderTracking.trackingCard, OrderTracking.isCancelled.
    rewrite Hc. reflexivity.
  - intros Hc.
    assert (Hnot : OrderTracking.isCancelled o = false).
    { unfold OrderTracking.isCancelled.
      destruct (OrderTracking.order_status o) as [s|]; [|reflexivity].
      cbn [truthy_opt]. apply String.eqb_neq. intros <-. now apply Hc. }
    unfold OrderTracking.trackingCard. rewrite Hnot, Hidx.
    unfold OrderTracking.trackingSteps.
    destruct (truthy_opt (String.eqb "airport")
                         (OrderTracking.delivery_type o));
      do 2 eexists; (split; [reflexivity|]);
      (split; [reflexivity|]); (split; [reflexivity|]);
      repeat constructor.
Qed.

Lemma tracking_off_track_witness :
  OrderTracking.trackingCard
    (OrderTracking.mkOrder (Some "airport") (Some "cancelled"))
  = OrderTracking.OrderCancelled
  /\ OrderTracking.currentStepIndex
       (OrderTracking.mkOrder (Some "airport") (Some "accepted")) = -1.
Proof.
  split.
  - apply (tracking_off_track
             (OrderTracking.mkOrder (Some "airport") (Some "cancelled")));
      [|reflexivity].
    intros st Hst. apply list_elem_of_In in Hst. simpl in Hst.
    intuition (subst; discriminate).
  - apply (tracking_off_track
             (OrderTracking.mkOrder (Some "airport") (Some "accepted"))).
    intros st Hst. apply list_elem_of_In in Hst. simpl in Hst.
    intuition (subst; discriminate).
Defined.

(** A home order that the brand dashboard has set to [preparing]. *)
Example tracking_off_track_preparing :
  exists q : Q,
    OrderTracking.trackingCard
      (OrderTracking.mkOrder (Some "home") (Some "preparing"))
    = OrderTracking.ProgressBar
        (Num q)
        (map (fun st => OrderTracking.mkMarker st false false)
             OrderTracking.homeSteps)
    /\ (q == - (100 # 6))%Q.
Proof. eexists. split; reflexivity. Qed.

(** X23: the status label replaces the first underscore only: a status
    without underscore is shown as it is, and in [a_b] with no underscore
    in [a] the part [b] keeps its underscores. *)
Theorem replace_underscore_first (a b : string) :
  ~ In "_"%char (list_ascii_of_string a) ->
  OrderTracking.replace_underscore a = a
  /\ OrderTracking.replace_underscore (a +:+ String "_"%char b)
     = a +:+ String " "%char b.
Proof.
  induction a as [|c a IH]; simpl; intros Hno.
  - split; reflexivity.
  - destruct (Ascii.eqb_spec c "_"%char) as [->|Hc]; [tauto|].
    destruct IH as [IH1 IH2]; [tauto|]. now rewrite IH1, IH2.
Qed.

Lemma replace_underscore_first_witness :
  OrderTracking.replace_underscore "out_for_delivery" = "out for_delivery".
Proof.
  apply (replace_underscore_first "out" "for_delivery").
  simpl. intuition discriminate.
Defined.


(** ** Adding to the cart from the product views *)

(** X24: the product card never throws. When the add-to-cart request
    fails, for whatever reason, it shows the error toast asking to log in
    and navigates to the login page, and the cart is unchanged; when the
    request succeeds its last effect is the success toast and it does not
    navigate. *)
Theorem productCard_handleAddToCart (API_URL productId : string)
  (r : reply unit) (r' : reply Cart) (s : state CartContext.provider) :
  let m := ProductCard.handleAddToCart API_URL productId r r' in
  let request :=
    Http POST (API_URL +:+ "/api/cart/add")
         (Some (JObj [("product_id", JStr productId);
                      ("quantity", JNum (inject_Z 1));
                      ("variant", JNull)])) in
  (m s).1 = Returned tt
  /\ match r with
     | inr _ =>
         new_events m s
         = [PreventDefault; request; ConsoleError "Failed to add to cart:";
            Toast ToastError "Please login to add items to cart";
            Navigate "/login"]
         /\ CartContext.cart (comp (m s).2) = CartContext.cart (comp s)
     | inl _ =>
         last (new_events m s) = Some (Toast ToastSuccess "Added to cart")
         /\ Forall (fun ev => is_navigation ev = false) (new_events m s)
     end.
Proof.
  intros m request. subst m request.
  destruct r as [[]|e], r' as [c|e']; (split; [reflexivity|]); split;
    try reflexivity; events; repeat constructor.
Qed.

(** X25: on the product page a guest gets an error toast and is sent to
    the login page without any request, for both buttons. For a signed-in
    customer neither handler throws; when the request fails the only
    effects are the request and the console message of [addToCart] (no
    toast, no navigation); when it succeeds, add-to-cart ends with the
    success toast and does not navigate, and buy-now ends with the
    navigation to the cart. *)
Theorem productPage_handlers (API_URL productId : string) (quantity : Z)
  (selectedVariant : option string) (r : reply unit) (r' : reply Cart)
  (s : state CartContext.provider) :
  let add a := ProductPage.handleAddToCart API_URL a productId quantity
                                           selectedVariant r r' in
  let buy a := ProductPage.handleBuyNow API_URL a productId quantity
                                        selectedVariant r r' in
  let request :=
    Http POST (API_URL +:+ "/api/cart/add")
         (Some (JObj [("product_id", JStr productId);
                      ("quantity", JNum (inject_Z quantity));
                      ("variant", json_of_option JStr selectedVariant)])) in
  add false s
  = (Returned tt,
     mkState (comp s) (localStorage s) (headers s)
             (trace s ++ [Toast ToastError "Please login to add items to cart";
                          Navigate "/login"]))
  /\ buy false s
     = (Returned tt,
        mkState (comp s) (localStorage s) (headers s)
                (trace s ++ [Toast ToastError "Please login to purchase";
                             Navigate "/login"]))
  /\ (add true s).1 = Returned tt
  /\ (buy true s).1 = Returned tt
  /\ match r with
     | inr _ =>
         new_events (add true) s
         = [request; ConsoleError "Failed to add to cart:"]
         /\ new_events (buy true) s
            = [request; ConsoleError "Failed to add to cart:"]
     | inl _ =>
         last (new_events (add true) s)
         = Some (Toast ToastSuccess "Added to cart")
         /\ Forall (fun ev => is_navigation ev = false)
                   (new_events (add true) s)
         /\ last (new_events (buy true) s) = Some (Navigate "/cart")
     end.
Proof.
  intros add buy request. subst add buy request.
  split; [cbn; unfold navigate, emit; cbn; rewrite <- ?app_assoc;
          reflexivity|].
  split; [cbn; unfold navigate, emit; cbn; rewrite <- ?app_assoc;
          reflexivity|].
  destruct r as [[]|e], r' as [c|e']; (split; [reflexivity|]);
    (split; [reflexivity|]); repeat split;
    try (events; repeat constructor).
Qed.


(** ** Prices on the product views and in the cart *)

(** X26: the product card and the product page display the same price,
    and the guest cart charges that price per unit (0 when none is
    displayed). *)
Theorem displayPrice_is_cart_price (item : CartItem) (p : Product) :
  product item = Some p ->
  ProductCard.displayPrice p = ProductPage.displayPrice p
  /\ (CartPage.unit_price item == default 0%Q (ProductPage.displayPrice p))%Q.
Proof.
  intros Hp. split; [reflexivity|].
  unfold CartPage.unit_price, ProductPage.displayPrice, js_or, js_or_default,
    opt_field. rewrite Hp.
  destruct (discount_price p) as [d|]; simpl.
  - destruct (truthy_Q d) eqn:Td; simpl; [now rewrite Td|].
    destruct (price p) as [q|]; simpl; [|reflexivity].
    destruct (truthy_Q q) eqn:Tq; [reflexivity|].
    apply truthy_Q_false in Tq. now rewrite Tq.
  - destruct (price p) as [q|]; simpl; [|reflexivity].
    destruct (truthy_Q q) eqn:Tq; [reflexivity|].
    apply truthy_Q_false in Tq. now rewrite Tq.
Qed.


Lemma displayPrice_is_cart_price_witness :
  (CartPage.unit_price free_discount_item == 50 # 1)%Q.
Proof.
  destruct (displayPrice_is_cart_price
              free_discount_item
              (mkProduct (Some "Perfume") None None (Some (50 # 1))
                         (Some (0 # 1)) None) eq_refl) as [_ H].
  rewrite H. reflexivity.
Defined.

(** ** The brand portal's sign-in and sign-up forms *)

(** X28: the brand login form never throws and always ends with [loading]
    false and the form untouched. When the login succeeds the token is
    stored, the bearer header is set, the provider holds the session, and
    the page shows a success toast and navigates to the dashboard; when
    it fails, storage, headers and provider are unchanged and one error
    toast shows the server's detail or "Invalid credentials". *)
Theorem brandLogin_handleSubmit (API_URL : string)
  (r : reply BrandAuth.session)
  (s : state (BrandLoginPage.page * BrandAuth.provider)) :
  let m := BrandLoginPage.handleSubmit API_URL r in
  let f := BrandLoginPage.formData (comp s).1 in
  let request :=
    Http POST (API_URL +:+ "/api/brand-admin/login")
         (Some (JObj [("email", JStr (BrandLoginPage.email f));
                      ("password", JStr (BrandLoginPage.password f))])) in
  (m s).1 = Returned tt
  /\ (comp (m s).2).1 = BrandLoginPage.mkPage false f
  /\ match r with
     | inl data =>
         localStorage (m s).2
         = <["brand_token" := BrandAuth.session_token data]> (localStorage s)
         /\ headers (m s).2
            = <["Authorization" := "Bearer " +:+ BrandAuth.session_token data]>
                (headers s)
         /\ (comp (m s).2).2
            = BrandAuth.mkProvider
                (BrandAuth.session_user data) (BrandAuth.session_brand data)
                (Some (BrandAuth.session_token data))
                (BrandAuth.loading (comp s).2)
         /\ new_events m s
            = [PreventDefault; request;
               StorageSet "brand_token" (BrandAuth.session_token data);
               Toast ToastSuccess "Welcome to Brand Dashboard!";
               Navigate "/brand/dashboard"]
     | inr e =>
         localStorage (m s).2 = localStorage s
         /\ headers (m s).2 = headers s
         /\ (comp (m s).2).2 = (comp s).2
         /\ exists msg : string,
             error_message e "Invalid credentials" msg
             /\ new_events m s = [PreventDefault; request; Toast ToastError msg]
     end.
Proof.
  intros m f request. subst m f request.
  destruct s as [[p c] st hd tr].
  destruct r as [data|e]; cbn; repeat split;
    try (destruct c; reflexivity);
    try (rewrite <- !app_assoc, drop_app_length; reflexivity).
  eexists. split; [apply error_message_default|].
  rewrite <- !app_assoc, drop_app_length. reflexivity.
Qed.

(** X29: the brand registration form refuses a password of fewer than 8
    characters with one error toast and nothing else. Otherwise it posts
    the whole form and ends with [loading] false and the form untouched:
    on success the token is stored and the page navigates to the
    dashboard; on failure storage and provider are unchanged and one
    error toast shows the server's detail or "Registration failed". *)
Theorem brandRegister_handleSubmit (API_URL : string)
  (r : reply BrandAuth.session)
  (s : state (BrandRegisterPage.page * BrandAuth.provider)) :
  let m := BrandRegisterPage.handleSubmit API_URL r in
  let f := BrandRegisterPage.formData (comp s).1 in
  let request :=
    Http POST (API_URL +:+ "/api/brand-admin/register")
         (Some (BrandRegisterPage.json_of_form f)) in
  ((String.length (BrandRegisterPage.password f) < 8)%nat ->
   m s = (Returned tt,
          mkState (comp s) (localStorage s) (headers s)
                  (trace s
                     ++ [PreventDefault;
                         Toast ToastError
                               "Password must be at least 8 characters"])))
  /\ ((8 <= String.length (BrandRegisterPage.password f))%nat ->
      (m s).1 = Returned tt
      /\ BrandRegisterPage.loading (comp (m s).2).1 = false
      /\ BrandRegisterPage.formData (comp (m s).2).1 = f
      /\ match r with
         | inl data =>
             localStorage (m s).2 !! "brand_token"
             = Some (BrandAuth.session_token data)
             /\ BrandAuth.isAuthenticated (comp (m s).2).2
                = truthy_opt truthy_json (BrandAuth.session_user data)
             /\ new_events m s
                = [PreventDefault; request;
                   StorageSet "brand_token" (BrandAuth.session_token data);
                   Toast ToastSuccess "Brand registration successful!";
                   Navigate "/brand/dashboard"]
         | inr e =>
             localStorage (m s).2 = localStorage s
             /\ (comp (m s).2).2 = (comp s).2
             /\ exists msg : string,
                 error_message e "Registration failed" msg
                 /\ new_events m s
                    = [PreventDefault; request; Toast ToastError msg]
         end).
Proof.
  intros m f request. subst m f request.
  unfold BrandRegisterPage.handleSubmit, new_events.
  cbn -[Nat.ltb BrandRegisterPage.json_of_form]. split.
  - intros Hlt. apply Nat.ltb_lt in Hlt. rewrite Hlt.
    unfold toast, emit. cbn. now rewrite <- app_assoc.
  - intros Hge. apply Nat.ltb_ge in Hge. rewrite Hge.
    destruct s as [[p c] st hd tr].
    destruct r as [data|e]; cbn -[BrandRegisterPage.json_of_form];
      rewrite <- ?app_assoc, ?drop_app_length; repeat split;
      try apply lookup_insert_eq; try (destruct c; reflexivity).
    eexists. split; [apply error_message_default | reflexivity].
Qed.


Lemma brandRegister_handleSubmit_witness :
  let form pw :=
    BrandRegisterPage.mkForm "Ann" "ann@example.com" "555" pw "Acme" ""
                             "Perfumes" "a1" "" "" in
  let s pw :=
    fresh (BrandRegisterPage.mkPage false [] (form pw),
           BrandAuth.mkProvider None None None false) in
  new_events (BrandRegisterPage.handleSubmit "" (inr (mkError None)))
             (s "short")
  = [PreventDefault;
     Toast ToastError "Password must be at least 8 characters"]
  /\ BrandRegisterPage.loading
       (comp (BrandRegisterPage.handleSubmit "" (inr (mkError None))
                (s "longenough")).2).1
     = false.
Proof.
  intros form s. split.
  - destruct (brandRegister_handleSubmit "" (inr (mkError None)) (s "short"))
      as [H _].
    unfold new_events. rewrite H; [reflexivity | simpl; lia].
  - destruct (brandRegister_handleSubmit "" (inr (mkError None))
                                         (s "longenough")) as [_ H].
    destruct H as (_ & H & _); [simpl; lia | exact H].
Defined.


(** ** Payment confirmation *)

Lemma count_events_app (f : event -> bool) (l k : list event) :
  count_events f (l ++ k) = (count_events f l + count_events f k)%nat.
Proof. induction l as [|ev l IH]; simpl; [reflexivity | rewrite IH; lia]. Qed.

Lemma eqb_append_l (a b c : string) :
  String.eqb (a +:+ b) (a +:+ c) = String.eqb b c.
Proof.
  induction a as [|x a IH]; simpl; [reflexivity|].
  now rewrite Ascii.eqb_refl.
Qed.


Section Polling.
Variable API_URL : string.
Variable orderId : option string.
Variable status_reply : nat -> reply OrderConfirmationPage.payment.
Variable order_reply : nat -> reply json.
Variable refresh_reply : nat -> reply unit.
Variable sid : string.

Local Abbreviation step :=
  (OrderConfirmationPage.pollStep API_URL orderId status_reply order_reply
                                  refresh_reply sid).
Local Abbreviation poll := (fun fuel =>
  OrderConfirmationPage.pollPaymentStatus API_URL orderId status_reply
                                          order_reply refresh_reply fuel sid).
Local Abbreviation asked :=
  (count_events (OrderConfirmationPage.is_status_request API_URL sid)).

Lemma pollStep_cases (attempts : nat) (s : state OrderConfirmationPage.page) :
  exists evs : list event,
    trace (step attempts s).2 = trace s ++ evs
    /\ (asked evs <= 1)%nat
    /\ ((10 <= attempts)%nat -> asked evs = 0%nat)
    /\ (((step attempts s).1 = Returned None
         /\ settled (comp (step attempts s).2))
        \/ ((step attempts s).1 = Returned (Some (S attempts))
            /\ (attempts < 10)%nat)).
Proof.
  unfold OrderConfirmationPage.pollStep, settled.
  unfold OrderConfirmationPage.maxAttempts.
  destruct (Nat.leb_spec 10 attempts) as [Hge|Hlt].
  - exists []. cbn. rewrite app_nil_r.
    split; [reflexivity|]. split; [lia|]. split; [reflexivity|].
    left. split; [reflexivity|]. split; [reflexivity|]. left. discriminate.
  - assert (Hord : forall oid,
               String.eqb (API_URL +:+ "/api/orders/" +:+ oid)
                          (API_URL +:+ "/api/checkout/status/" +:+ sid)
               = false).
    { intros oid. rewrite eqb_append_l. reflexivity. }
    unfold OrderConfirmationPage.setPaymentStatus,
      OrderConfirmationPage.setOrder, OrderConfirmationPage.setLoading,
      OrderConfirmationPage.setError, OrderConfirmationPage.status_url.
    run_monad.
    assert (Hpaid : forall data,
               truthy_opt (String.eqb "paid")
                          (OrderConfirmationPage.payment_status data) = true ->
               OrderConfirmationPage.payment_status data = Some "paid").
    { intros data H.
      destruct (OrderConfirmationPage.payment_status data) as [x|];
        [|discriminate]. cbn [truthy_opt] in H.
      apply String.eqb_eq in H. now subst. }
    destruct (status_reply attempts) as [data|e];
      [destruct (truthy_opt (String.eqb "paid")
                   (OrderConfirmationPage.payment_status data)) eqn:Hp;
       [apply Hpaid in Hp;
        destruct (truthy_opt truthy_string orderId);
        [destruct (order_reply attempts) as [o|e]|];
        destruct (refresh_reply attempts) as [[]|e']
       |destruct (truthy_opt (String.eqb "expired")
                    (OrderConfirmationPage.status data)
                  || truthy_opt (String.eqb "unpaid")
                       (OrderConfirmationPage.payment_status data))]|];
      destruct (attempts <? 10 - 1)%nat eqn:Hretry;
      (eexists; split; [run_monad; rewrite <- ?app_assoc; reflexivity|]);
      unfold OrderConfirmationPage.status_url;
      cbn [count_events OrderConfirmationPage.is_status_request app];
      rewrite ?String.eqb_refl, ?Hord; cbn [Nat.add];
      (split; [lia|]); (split; [lia|]); cbn;
      first [ right; split; [reflexivity | lia]
            | left; (split; [reflexivity|]); (split; [reflexivity|]);
              first [ right; eexists; split; [reflexivity | exact Hp]
                    | left; discriminate ] ].
Qed.

Lemma poll_unfold (fuel attempts : nat)
  (s : state OrderConfirmationPage.page) :
  poll fuel attempts s
  = match step attempts s with
    | (Returned (Some a), s1) =>
        match fuel with
        | S fuel' => poll fuel' a s1
        | O => (Returned (Some a), s1)
        end
    | (Returned None, s1) => (Returned None, s1)
    | (Thrown e, s1) => (Thrown e, s1)
    end.
Proof.
  destruct fuel; simpl; unfold bind;
    destruct (OrderConfirmationPage.pollStep _ _ _ _ _ _ _ s)
      as [[[a|]|e] s1]; reflexivity.
Qed.

Lemma poll_settles (fuel attempts : nat)
  (s : state OrderConfirmationPage.page) :
  (10 <= attempts + fuel)%nat ->
  (poll fuel attempts s).1 = Returned None
  /\ settled (comp (poll fuel attempts s).2)
  /\ exists evs : list event,
      trace (poll fuel attempts s).2 = trace s ++ evs
      /\ (asked evs <= 10 - attempts)%nat.
Proof.
  revert attempts s.
  induction fuel as [|fuel IH]; intros attempts s Hfuel;
    rewrite poll_unfold;
    destruct (pollStep_cases attempts s)
      as (evs & Htr & Hone & Hzero & [[Hr Hs]|[Hr Hlt]]);
    destruct (step attempts s) as [[[a|]|e] s1]; simpl in *;
    try discriminate; try lia.
  - split; [reflexivity|]. split; [exact Hs|].
    exists evs. split; [exact Htr|]. rewrite Hzero; lia.
  - split; [reflexivity|]. split; [exact Hs|].
    exists evs. split; [exact Htr|].
    destruct (Nat.le_gt_cases 10 attempts); [rewrite Hzero; lia | lia].
  - injection Hr as ->.
    destruct (IH (S attempts) s1) as (H1 & H2 & evs' & Htr' & Hn); [lia|].
    split; [exact H1|]. split; [exact H2|].
    exists (evs ++ evs'). split.
    + rewrite Htr', Htr. symmetry. apply app_assoc.
    + rewrite count_events_app. simpl in *. lia.
Qed.
End Polling.


(** X30: the confirmation page always settles: once ten timers have
    fired, whatever the server answers at each attempt, the polling has
    ended with nothing pending and nothing thrown, [loading] is false and
    the page shows either an error message or a paid session; at most 10
    status requests have been sent. Without a session id, or with an
    empty one, no request is sent and the error is "Invalid session". *)
Theorem payment_polling_settles (API_URL : string)
  (sessionId orderId : option string)
  (status_reply : nat -> reply OrderConfirmationPage.payment)
  (order_reply : nat -> reply json) (refresh_reply : nat -> reply unit)
  (fuel : nat) (s : state OrderConfirmationPage.page) :
  (10 <= fuel)%nat ->
  let m :=
    OrderConfirmationPage.onSessionId API_URL sessionId orderId status_reply
                                      order_reply refresh_reply fuel in
  (m s).1 = Returned None
  /\ settled (comp (m s).2)
  /\ (forall sid,
        sessionId = Some sid ->
        (count_events (OrderConfirmationPage.is_status_request API_URL sid)
                      (new_events m s) <= 10)%nat)
  /\ (sessionId = None \/ sessionId = Some "" ->
      new_events m s = []
      /\ OrderConfirmationPage.error (comp (m s).2)
         = Some "Invalid session").
Proof.
  intros Hfuel m. subst m. unfold OrderConfirmationPage.onSessionId.
  assert (Hinvalid :
            let m :=
              (OrderConfirmationPage.setError (Some "Invalid session");;
               OrderConfirmationPage.setLoading false;;
               ret (None : option nat))%eff in
            (m s).1 = Returned None
            /\ settled (comp (m s).2)
            /\ new_events m s = []
            /\ OrderConfirmationPage.error (comp (m s).2)
               = Some "Invalid session").
  { unfold new_events, settled. cbn. rewrite drop_all.
    repeat split. left. discriminate. }
  destruct sessionId as [sid|].
  - destruct (truthy_string sid) eqn:Hsid.
    + destruct (poll_settles API_URL orderId status_reply order_reply
                             refresh_reply sid fuel 0 s)
        as (H1 & H2 & evs & Htr & Hn); [lia|].
      split; [exact H1|]. split; [exact H2|]. split.
      * intros sid' [= <-]. unfold new_events.
        rewrite Htr, drop_app_length. exact Hn.
      * apply truthy_string_true in Hsid.
        intros [H|[= ->]]; [discriminate | now destruct Hsid].
    + destruct Hinvalid as (H1 & H2 & H3 & H4).
      split; [exact H1|]. split; [exact H2|]. split.
      * intros sid' _. rewrite H3. simpl. lia.
      * intros _. split; [exact H3 | exact H4].
  - destruct Hinvalid as (H1 & H2 & H3 & H4).
    split; [exact H1|]. split; [exact H2|]. split.
    + intros sid' [=].
    + intros _. split; [exact H3 | exact H4].
Qed.

Lemma payment_polling_settles_witness :
  let m :=
    OrderConfirmationPage.onSessionId
      "" (Some "cs_1") None (fun _ => inr (mkError None))
      (fun _ => inr (mkError None)) (fun _ => inl tt) 10 in
  (m (fresh (OrderConfirmationPage.mkPage true None None None))).1
  = Returned None.
Proof.
  intros m.
  destruct (payment_polling_settles
              "" (Some "cs_1") None (fun _ => inr (mkError None))
              (fun _ => inr (mkError None)) (fun _ => inl tt) 10
              (fresh (OrderConfirmationPage.mkPage true None None None)))
    as [H _]; [lia | exact H].
Defined.

